(** * Procurement chatbot ([Assignment/demo5.py]): model and checked properties

    The program answers free-text questions about a table of purchase
    orders.  [load_procurement_data] builds the table once and memoizes it,
    [handle_question] routes a lowercased question through an ordered
    sequence of keyword tests and regular expressions, the matching block
    computes an aggregate over the table, and [chatbot_response] turns any
    exception into an error string.

    Modelling conventions.
    - Text is a byte string ([string]); case mapping, [\w], [\d], [\s] and
      [str.strip] are the ASCII ones.
    - A table cell is missing ([NaN]), text, an integer, a float or a date.
      The floats of the table are exact rationals, and sums of them are
      not rounded.  [float()] is modelled on binary64: it rounds to the
      nearest number of that format, ties to the even significand, text
      beyond the range reads as an infinity and an [int] beyond it
      raises [OverflowError].
    - Python exceptions are values of [exn]; a computation that can raise
      has type [result A].
    - The [re] module is modelled by a parser for the pattern syntax the
      program uses and a backtracking matcher with Python's priorities
      (leftmost match, ordered alternation, greedy and lazy repetition).
    - pandas primitives ([str.contains], boolean masks, [groupby], [sum],
      [nlargest], [value_counts], [mode], ...) are modelled by list
      functions, each documented where it is defined.
    - [Series.sort_values] sorts with numpy's default sort, which is not
      stable.  The sort is a parameter of the model ([Numpy]): the program
      is defined, and the theorems are proved, for every sort that returns
      the entries in descending order; the closed examples run with the
      stable one.
    - [debug_print] only writes to the standard output and is left out;
      [chatbot_response] takes the chat history and never reads it. *)

From Stdlib Require Import String Ascii List Bool Arith NArith ZArith QArith Lia.
From Stdlib Require Import Qpower Lqa Sorted Permutation.
Import ListNotations.

Set Implicit Arguments.
Close Scope Q_scope.
Local Open Scope string_scope.

(* ================================================================== *)
(** * Characters and Python string methods                             *)
(* ================================================================== *)

Module PyStr.

Definition code (c : ascii) : N := N_of_ascii c.

Definition in_range (lo hi : N) (c : ascii) : bool :=
  ((lo <=? code c) && (code c <=? hi))%N.

Definition is_digit (c : ascii) : bool := in_range 48 57 c.
Definition is_upper (c : ascii) : bool := in_range 65 90 c.
Definition is_lower (c : ascii) : bool := in_range 97 122 c.
Definition is_alpha (c : ascii) : bool := is_upper c || is_lower c.
Definition is_word (c : ascii) : bool :=
  is_alpha c || is_digit c || (code c =? 95)%N.
(** [str.isspace] on ASCII: TAB..CR, FS..US and the blank. *)
Definition is_space (c : ascii) : bool :=
  in_range 9 13 c || in_range 28 32 c.

Definition lower_char (c : ascii) : ascii :=
  if is_upper c then ascii_of_N (code c + 32) else c.
Definition upper_char (c : ascii) : ascii :=
  if is_lower c then ascii_of_N (code c - 32) else c.

Definition chars (s : string) : list ascii := list_ascii_of_string s.
Definition text (l : list ascii) : string := string_of_list_ascii l.

Definition lower (s : string) : string := text (map lower_char (chars s)).
Definition upper (s : string) : string := text (map upper_char (chars s)).

(** [s.strip()] *)
Fixpoint lstrip_chars (l : list ascii) : list ascii :=
  match l with
  | c :: l' => if is_space c then lstrip_chars l' else l
  | [] => []
  end.
Definition strip_chars (l : list ascii) : list ascii :=
  rev (lstrip_chars (rev (lstrip_chars l))).
Definition strip (s : string) : string := text (strip_chars (chars s)).

(** [s.title()]: a letter is upper-cased when it follows a non-letter and
    lower-cased otherwise. *)
Fixpoint title_chars (prev_alpha : bool) (l : list ascii) : list ascii :=
  match l with
  | [] => []
  | c :: l' =>
      (if is_alpha c
       then if prev_alpha then lower_char c else upper_char c
       else c) :: title_chars (is_alpha c) l'
  end.
Definition title (s : string) : string := text (title_chars false (chars s)).

(** [s.capitalize()] *)
Definition capitalize (s : string) : string :=
  match chars s with
  | [] => ""
  | c :: l => text (upper_char c :: map lower_char l)
  end.

(** [l] starts with [p]; on success the remainder. *)
Fixpoint strip_prefix (p l : list ascii) : option (list ascii) :=
  match p, l with
  | [], _ => Some l
  | a :: p', b :: l' => if Ascii.eqb a b then strip_prefix p' l' else None
  | _ :: _, [] => None
  end.

(** [sub in s] *)
Fixpoint contains_chars (p l : list ascii) : bool :=
  match strip_prefix p l with
  | Some _ => true
  | None => match l with
            | [] => false
            | _ :: l' => contains_chars p l'
            end
  end.
Definition contains (sub s : string) : bool :=
  contains_chars (chars sub) (chars s).

(** [s.split(sep)] for a non-empty separator. *)
Fixpoint split_chars (sep : list ascii) (cur : list ascii) (l : list ascii)
         (fuel : nat) : list (list ascii) :=
  match fuel with
  | O => [(rev cur ++ l)%list]
  | S fuel' =>
      match l with
      | [] => [rev cur]
      | c :: l' =>
          match strip_prefix sep l with
          | Some rest => rev cur :: split_chars sep [] rest fuel'
          | None => split_chars sep (c :: cur) l' fuel'
          end
      end
  end.
Definition split (sep s : string) : list string :=
  map text (split_chars (chars sep) [] (chars s) (S (String.length s))).

(** [s.replace(c, '')] for a one-character [c]. *)
Definition remove_char (c : ascii) (l : list ascii) : list ascii :=
  filter (fun x => negb (Ascii.eqb x c)) l.

(** [sep.join(l)] *)
Fixpoint join (sep : string) (l : list string) : string :=
  match l with
  | [] => ""
  | [x] => x
  | x :: l' => x ++ sep ++ join sep l'
  end.

Definition nl : string := String (ascii_of_N 10) "".

(** Decimal digits of a natural number, most significant first. *)
Definition digit_char (d : N) : ascii := ascii_of_N (48 + d).

Fixpoint digits_fuel (fuel : nat) (n : N) (acc : list ascii) : list ascii :=
  match fuel with
  | O => acc
  | S f =>
      let acc' := digit_char (n mod 10) :: acc in
      if (n <? 10)%N then acc' else digits_fuel f (n / 10) acc'
  end.
Definition digits_of_N (n : N) : list ascii :=
  digits_fuel (S (N.to_nat (N.log2 n))) n [].

Definition str_N (n : N) : string := text (digits_of_N n).
Definition str_nat (n : nat) : string := str_N (N.of_nat n).
(** [str(z)] for a Python int. *)
Definition str_Z (z : Z) : string :=
  if (z <? 0)%Z then "-" ++ str_N (Z.abs_N z) else str_N (Z.abs_N z).

(** [int(s)] for a string of ASCII digits. *)
Definition digit_val (c : ascii) : N := (code c - 48)%N.
Definition N_of_digits (l : list ascii) : N :=
  fold_left (fun acc c => (acc * 10 + digit_val c)%N) l 0%N.
Definition int_of_digits (s : string) : Z := Z.of_N (N_of_digits (chars s)).

(** Lexicographic order on strings, as Python compares [str]. *)
Fixpoint ltb_chars (a b : list ascii) : bool :=
  match a, b with
  | _, [] => false
  | [], _ :: _ => true
  | x :: a', y :: b' =>
      if (code x <? code y)%N then true
      else if (code y <? code x)%N then false
      else ltb_chars a' b'
  end.
Definition ltb (a b : string) : bool := ltb_chars (chars a) (chars b).

End PyStr.

(* ================================================================== *)
(** * Regular expressions (the [re] module)                            *)
(* ================================================================== *)

Module Re.
Import PyStr.

Inductive cset_item : Type :=
| CChar (c : ascii)
| CRange (lo hi : ascii)
| CDigit | CWord | CSpace
| CNotDigit | CNotWord | CNotSpace.

Inductive regex : Type :=
| REmpty
| RChar (c : ascii)
| RAny                                   (* .  : any character but newline *)
| RSet (neg : bool) (items : list cset_item)
| RBol                                   (* ^ *)
| REol                                   (* $ *)
| RWordB (neg : bool)                    (* \b and \B *)
| RSeq (r1 r2 : regex)
| RAlt (r1 r2 : regex)
| RGroup (i : nat) (r : regex)           (* i-th capturing group *)
| RRep (greedy : bool) (lo : nat) (hi : option nat) (r : regex).

(** ** Parsing a pattern *)

Definition is_newline (c : ascii) : bool := (code c =? 10)%N.

Definition class_escape (c : ascii) : option cset_item :=
  match c with
  | "d"%char => Some CDigit
  | "w"%char => Some CWord
  | "s"%char => Some CSpace
  | "D"%char => Some CNotDigit
  | "W"%char => Some CNotWord
  | "S"%char => Some CNotSpace
  | "n"%char => Some (CChar (ascii_of_N 10))
  | "t"%char => Some (CChar (ascii_of_N 9))
  | "r"%char => Some (CChar (ascii_of_N 13))
  | "f"%char => Some (CChar (ascii_of_N 12))
  | "v"%char => Some (CChar (ascii_of_N 11))
  | _ => if is_word c then None else Some (CChar c)
  end.

(** Items of a bracket expression up to the closing bracket. *)
Fixpoint parse_class (fuel : nat) (first : bool) (l : list ascii)
  : option (list cset_item * list ascii) :=
  match fuel with
  | O => None
  | S f =>
      let item_then (it : cset_item) (rest : list ascii) :=
        match it, rest with
        | CChar lo, "-"%char :: "]"%char :: _ =>
            match parse_class f false rest with
            | Some (its, r) => Some (it :: its, r)
            | None => None
            end
        | CChar lo, "-"%char :: "\"%char :: e :: rest' =>
            match class_escape e with
            | Some (CChar hi) =>
                if (code hi <? code lo)%N then None else
                match parse_class f false rest' with
                | Some (its, r) => Some (CRange lo hi :: its, r)
                | None => None
                end
            | _ => None
            end
        | CChar lo, "-"%char :: hi :: rest' =>
            if (code hi <? code lo)%N then None else
            match parse_class f false rest' with
            | Some (its, r) => Some (CRange lo hi :: its, r)
            | None => None
            end
        | _, _ =>
            match parse_class f false rest with
            | Some (its, r) => Some (it :: its, r)
            | None => None
            end
        end in
      match l with
      | [] => None
      | "]"%char :: l' =>
          if first then item_then (CChar "]"%char) l' else Some ([], l')
      | "\"%char :: e :: l' =>
          match class_escape e with
          | Some it => item_then it l'
          | None => None
          end
      | "\"%char :: [] => None
      | c :: l' => item_then (CChar c) l'
      end
  end.

(** A run of digits and the natural number it denotes. *)
Fixpoint take_digits (l : list ascii) (acc : list ascii)
  : list ascii * list ascii :=
  match l with
  | c :: l' => if is_digit c then take_digits l' (c :: acc) else (rev acc, l)
  | [] => (rev acc, [])
  end.
Definition nat_of_run (ds : list ascii) : nat := N.to_nat (N_of_digits ds).

(** Bounds of a [{m}], [{m,}], [{,n}] or [{m,n}] quantifier after the
    opening brace; anything else leaves the brace a literal. *)
Definition parse_braces (l : list ascii)
  : option (nat * option nat * list ascii) :=
  let '(lo, r1) := take_digits l [] in
  match r1 with
  | "}"%char :: r2 =>
      match lo with
      | [] => None
      | _ => Some (nat_of_run lo, Some (nat_of_run lo), r2)
      end
  | ","%char :: r2 =>
      let '(hi, r3) := take_digits r2 [] in
      match r3 with
      | "}"%char :: r4 =>
          match hi with
          | [] => Some (nat_of_run lo, None, r4)
          | _ => Some (nat_of_run lo, Some (nat_of_run hi), r4)
          end
      | _ => None
      end
  | _ => None
  end.

Inductive quant : Type :=
| QNone
| QRep (lo : nat) (hi : option nat)
| QBad.

Definition parse_quant (l : list ascii) : quant * list ascii :=
  match l with
  | "*"%char :: l' => (QRep 0 None, l')
  | "+"%char :: l' => (QRep 1 None, l')
  | "?"%char :: l' => (QRep 0 (Some 1), l')
  | "{"%char :: l' =>
      match parse_braces l' with
      | Some (lo, hi, r) =>
          match hi with
          | Some h => if (h <? lo)%nat then (QBad, l) else (QRep lo hi, r)
          | None => (QRep lo hi, r)
          end
      | None => (QNone, l)
      end
  | _ => (QNone, l)
  end.

(** A quantified atom; a second quantifier is an error, a trailing [?]
    makes the repetition lazy. *)
Definition quantify (a : regex) (l : list ascii) : option (regex * list ascii) :=
  match parse_quant l with
  | (QNone, _) => Some (a, l)
  | (QBad, _) => None
  | (QRep lo hi, l1) =>
      let '(greedy, l2) :=
        match l1 with
        | "?"%char :: l2 => (false, l2)
        | _ => (true, l1)
        end in
      match parse_quant l2 with
      | (QRep _ _, _) => None
      | _ => Some (RRep greedy lo hi a, l2)
      end
  end.

Definition atom_escape (c : ascii) : option regex :=
  match c with
  | "b"%char => Some (RWordB false)
  | "B"%char => Some (RWordB true)
  | "A"%char => Some RBol
  | _ =>
      match class_escape c with
      | Some (CChar x) => Some (RChar x)
      | Some it => Some (RSet false [it])
      | None => None
      end
  end.

(** Recursive descent; [idx] is the number of capturing groups opened so
    far.  Constructs outside this grammar (look-around, back-references,
    named groups, inline flags) are reported as errors. *)
Fixpoint parse_alt (fuel : nat) (l : list ascii) (idx : nat)
  : option (regex * list ascii * nat) :=
  match fuel with
  | O => None
  | S f =>
      match parse_seq f l idx with
      | Some (r1, "|"%char :: l1, idx1) =>
          match parse_alt f l1 idx1 with
          | Some (r2, l2, idx2) => Some (RAlt r1 r2, l2, idx2)
          | None => None
          end
      | other => other
      end
  end
with parse_seq (fuel : nat) (l : list ascii) (idx : nat)
  : option (regex * list ascii * nat) :=
  match fuel with
  | O => None
  | S f =>
      match l with
      | [] => Some (REmpty, [], idx)
      | "|"%char :: _ => Some (REmpty, l, idx)
      | ")"%char :: _ => Some (REmpty, l, idx)
      | _ =>
          match parse_atom f l idx with
          | Some (a, l1, idx1) =>
              match quantify a l1 with
              | Some (a', l2) =>
                  match parse_seq f l2 idx1 with
                  | Some (REmpty, l3, idx3) => Some (a', l3, idx3)
                  | Some (r, l3, idx3) => Some (RSeq a' r, l3, idx3)
                  | None => None
                  end
              | None => None
              end
          | None => None
          end
      end
  end
with parse_atom (fuel : nat) (l : list ascii) (idx : nat)
  : option (regex * list ascii * nat) :=
  match fuel with
  | O => None
  | S f =>
      match l with
      | [] => None
      | "("%char :: "?"%char :: ":"%char :: l1 =>
          match parse_alt f l1 idx with
          | Some (r, ")"%char :: l2, idx2) => Some (r, l2, idx2)
          | _ => None
          end
      | "("%char :: "?"%char :: _ => None
      | "("%char :: l1 =>
          match parse_alt f l1 (S idx) with
          | Some (r, ")"%char :: l2, idx2) => Some (RGroup (S idx) r, l2, idx2)
          | _ => None
          end
      | "["%char :: "^"%char :: l1 =>
          match parse_class (S (length l1)) true l1 with
          | Some (its, l2) => Some (RSet true its, l2, idx)
          | None => None
          end
      | "["%char :: l1 =>
          match parse_class (S (length l1)) true l1 with
          | Some (its, l2) => Some (RSet false its, l2, idx)
          | None => None
          end
      | "\"%char :: c :: l1 =>
          match atom_escape c with
          | Some r => Some (r, l1, idx)
          | None => None
          end
      | "\"%char :: [] => None
      | "."%char :: l1 => Some (RAny, l1, idx)
      | "^"%char :: l1 => Some (RBol, l1, idx)
      | "$"%char :: l1 => Some (REol, l1, idx)
      | "*"%char :: _ => None
      | "+"%char :: _ => None
      | "?"%char :: _ => None
      | c :: l1 => Some (RChar c, l1, idx)
      end
  end.

(** [re.compile(pattern)]; [None] stands for [re.error]. *)
Definition compile (pattern : string) : option regex :=
  let l := chars pattern in
  match parse_alt (4 * length l + 4) l 0 with
  | Some (r, [], _) => Some r
  | _ => None
  end.

(** ** Matching *)

Definition item_mem (it : cset_item) (c : ascii) : bool :=
  match it with
  | CChar x => Ascii.eqb x c
  | CRange lo hi => in_range (code lo) (code hi) c
  | CDigit => is_digit c
  | CWord => is_word c
  | CSpace => is_space c
  | CNotDigit => negb (is_digit c)
  | CNotWord => negb (is_word c)
  | CNotSpace => negb (is_space c)
  end.

(** With [re.IGNORECASE] a character matches when either of its cases does. *)
Definition set_mem (icase : bool) (items : list cset_item) (c : ascii) : bool :=
  existsb (fun it => item_mem it c
                     || (icase && (item_mem it (lower_char c)
                                   || item_mem it (upper_char c)))) items.

Definition char_eq (icase : bool) (x c : ascii) : bool :=
  if icase then Ascii.eqb (lower_char x) (lower_char c) else Ascii.eqb x c.

(** Position in the subject: the character before it, what is left of the
    subject, and the groups captured so far (most recent first). *)
Record mstate : Type := MState {
  prev_char : option ascii;
  rest : list ascii;
  caps : list (nat * list ascii)
}.

Definition advance (c : ascii) (l : list ascii) (st : mstate) : mstate :=
  MState (Some c) l (caps st).

Definition at_word_boundary (st : mstate) : bool :=
  let before := match prev_char st with Some c => is_word c | None => false end in
  let after := match rest st with c :: _ => is_word c | [] => false end in
  xorb before after.

(** [$] matches at the end and before a final newline. *)
Definition at_end (st : mstate) : bool :=
  match rest st with
  | [] => true
  | [c] => is_newline c
  | _ => false
  end.

Section Matcher.
Variable icase : bool.
Variable A : Type.

(** Repetition of [step] between [lo] and [hi] times.  An iteration that
    consumes nothing once [lo] is reached is not retried. *)
Fixpoint rep_loop (step : mstate -> (mstate -> option A) -> option A)
         (greedy : bool) (lo : nat) (hi : option nat) (fuel : nat)
         (st : mstate) (k : mstate -> option A) : option A :=
  match fuel with
  | O => None
  | S f =>
      let more (_ : unit) :=
        match hi with
        | Some 0 => None
        | _ =>
            step st (fun st' =>
              if ((lo =? 0) && (length (rest st') =? length (rest st)))%nat
              then None
              else rep_loop step greedy (pred lo) (option_map pred hi) f st' k)
        end in
      if (0 <? lo)%nat then more tt
      else if greedy
           then match more tt with
                | Some a => Some a
                | None => k st
                end
           else match k st with
                | Some a => Some a
                | None => more tt
                end
  end.

Fixpoint rmatch (r : regex) (st : mstate) (k : mstate -> option A)
  : option A :=
  match r with
  | REmpty => k st
  | RChar x =>
      match rest st with
      | c :: l => if char_eq icase x c then k (advance c l st) else None
      | [] => None
      end
  | RAny =>
      match rest st with
      | c :: l => if is_newline c then None else k (advance c l st)
      | [] => None
      end
  | RSet neg items =>
      match rest st with
      | c :: l =>
          if xorb neg (set_mem icase items c) then k (advance c l st) else None
      | [] => None
      end
  | RBol => match prev_char st with None => k st | Some _ => None end
  | REol => if at_end st then k st else None
  | RWordB neg => if xorb neg (at_word_boundary st) then k st else None
  | RSeq r1 r2 => rmatch r1 st (fun st' => rmatch r2 st' k)
  | RAlt r1 r2 =>
      match rmatch r1 st k with
      | Some a => Some a
      | None => rmatch r2 st k
      end
  | RGroup i r1 =>
      rmatch r1 st (fun st' =>
        let n := length (rest st) - length (rest st') in
        k (MState (prev_char st') (rest st')
                  ((i, firstn n (rest st)) :: caps st')))
  | RRep greedy lo hi r1 =>
      rep_loop (rmatch r1) greedy lo hi (lo + S (length (rest st))) st k
  end.
End Matcher.

(** A match: the matched text, what follows it, and the groups. *)
Record rmatch_result : Type := Match {
  m_text : list ascii;
  m_after : mstate;
}.

Definition match_here (icase : bool) (r : regex) (st : mstate)
  : option rmatch_result :=
  rmatch icase r st (fun st' =>
    Some (Match (firstn (length (rest st) - length (rest st')) (rest st)) st')).

(** [re.search]: the first position, left to right, where the pattern
    matches. *)
Fixpoint search_from (icase : bool) (r : regex) (prev : option ascii)
         (l : list ascii) : option rmatch_result :=
  match match_here icase r (MState prev l []) with
  | Some m => Some m
  | None =>
      match l with
      | [] => None
      | c :: l' => search_from icase r (Some c) l'
      end
  end.

Definition search (r : regex) (s : string) : option rmatch_result :=
  search_from false r None (chars s).
Definition isearch (r : regex) (s : string) : option rmatch_result :=
  search_from true r None (chars s).

(** [m.group(i)]; [None] when the group took no part in the match. *)
Fixpoint assoc_group (i : nat) (l : list (nat * list ascii))
  : option (list ascii) :=
  match l with
  | [] => None
  | (j, t) :: l' => if (i =? j)%nat then Some t else assoc_group i l'
  end.
Definition group (m : rmatch_result) (i : nat) : option string :=
  option_map text (assoc_group i (caps (m_after m))).
(** [m.group(i)] for a group that always takes part in the match. *)
Definition group1 (m : rmatch_result) (i : nat) : string :=
  match group m i with Some s => s | None => "" end.
(** [m.group()] *)
Definition group0 (m : rmatch_result) : string := text (m_text m).

(** Successive non-overlapping matches, left to right; after an empty
    match the scan moves one character on. *)
Fixpoint matches_from (icase : bool) (r : regex) (fuel : nat)
         (prev : option ascii) (l : list ascii) (skipped : list ascii)
  : list (list ascii * rmatch_result) :=
  match fuel with
  | O => []
  | S f =>
      match match_here icase r (MState prev l []) with
      | Some m =>
          match m_text m, l with
          | [], c :: l' =>
              (rev skipped, m) :: matches_from icase r f (Some c) l' [c]
          | [], [] => [(rev skipped, m)]
          | _ :: _, _ =>
              (rev skipped, m)
                :: matches_from icase r f (prev_char (m_after m))
                                (rest (m_after m)) []
          end
      | None =>
          match l with
          | [] => []
          | c :: l' => matches_from icase r f (Some c) l' (c :: skipped)
          end
      end
  end.

Definition all_matches (r : regex) (s : string)
  : list (list ascii * rmatch_result) :=
  matches_from false r (S (String.length s)) None (chars s) [].

(** [re.findall] for a pattern without groups, and for one with a single
    group. *)
Definition findall0 (r : regex) (s : string) : list string :=
  map (fun p => group0 (snd p)) (all_matches r s).
Definition findall1 (r : regex) (s : string) : list string :=
  map (fun p => group1 (snd p) 1) (all_matches r s).

(** Text left over after the last match of [all_matches]. *)
Definition tail_after (s : string) (ms : list (list ascii * rmatch_result))
  : list ascii :=
  match rev ms with
  | [] => chars s
  | (_, m) :: _ => rest (m_after m)
  end.

(** [re.sub(r, "", s)]: every match is deleted. *)
Definition sub_delete (r : regex) (s : string) : string :=
  let ms := all_matches r s in
  text (List.concat (map fst ms) ++ tail_after s ms).

End Re.

(* ================================================================== *)
(** * Exceptions                                                       *)
(* ================================================================== *)

Module Py.

(** The exception classes the program can meet, each with [str(e)]. *)
Inductive exn : Type :=
| KeyError (msg : string)
| IndexError (msg : string)
| AttributeError (msg : string)
| ValueError (msg : string)
| TypeError (msg : string)
| OverflowError (msg : string)
| ReError (msg : string).

Definition exn_str (e : exn) : string :=
  match e with
  | KeyError m => "'" ++ m ++ "'"
  | IndexError m | AttributeError m | ValueError m | TypeError m
  | OverflowError m | ReError m => m
  end.

Inductive result (A : Type) : Type :=
| Ok (a : A)
| Raise (e : exn).
Arguments Ok {A} a.
Arguments Raise {A} e.

Definition bind {A B : Type} (m : result A) (k : A -> result B) : result B :=
  match m with
  | Ok a => k a
  | Raise e => Raise e
  end.

Definition raises {A : Type} (m : result A) : bool :=
  match m with Ok _ => false | Raise _ => true end.

End Py.

Notation "x <- m ;; k" := (Py.bind m (fun x => k))
  (at level 61, m at next level, right associativity).

(* ================================================================== *)
(** * Numbers and their display                                        *)
(* ================================================================== *)

Module Fmt.
Import PyStr Py.

(** A Python float: a signed magnitude [num/den] (so that [-0.0] exists),
    an infinity or a NaN.  The floats Python holds are those of binary64,
    the values [binary64] returns. *)
Inductive pyfloat : Type :=
| FFin (neg : bool) (num : N) (den : positive)
| FInf (neg : bool)
| FNan.

Definition float_of_Q (q : Q) : pyfloat :=
  FFin (Qnum q <? 0)%Z (Z.abs_N (Qnum q)) (Qden q).
Definition float_of_Z (z : Z) : pyfloat := FFin (z <? 0)%Z (Z.abs_N z) 1.

(** Nearest integer to [num/den], ties to even. *)
Definition round_half_even (num : N) (den : positive) : N :=
  let d := Npos den in
  let q := (num / d)%N in
  let r := (num mod d)%N in
  match (2 * r ?= d)%N with
  | Lt => q
  | Gt => (q + 1)%N
  | Eq => if N.even q then q else (q + 1)%N
  end.

(** ** binary64 *)

(** [2^k] for [k >= 0]. *)
Definition pow2 (k : Z) : positive := Z.to_pos (2 ^ k).

(** [num/den] divided by [2^e], as a fraction. *)
Definition scale2 (num : N) (den : positive) (e : Z) : N * positive :=
  if (0 <=? e)%Z then (num, (den * pow2 e)%positive)
  else ((num * Npos (pow2 (- e)))%N, den).

(** The binade of a positive [num/den]: the [k] with
    [2^k <= num/den < 2^(k+1)]. *)
Definition ilog2 (num : N) (den : positive) : Z :=
  let k := (Z.log2 (Z.of_N num) - Z.log2 (Zpos den))%Z in
  let '(a, b) := scale2 num den k in
  if (Npos b <=? a)%N then k else (k - 1)%Z.

(** The binary64 number nearest to [num/den], ties to the even
    significand: a multiple of [2^e] where [e] leaves 53 bits and is at
    least -1074; what rounds to [2^1024] or more is an infinity. *)
Definition round_b64 (neg : bool) (num : N) (den : positive) : pyfloat :=
  if (num =? 0)%N then FFin neg 0 1 else
  let e := Z.max (ilog2 num den - 52) (-1074) in
  let '(a, b) := scale2 num den e in
  let m := round_half_even a b in
  if (0 <=? e)%Z then
    if (2 ^ 1024 <=? m * Npos (pow2 e))%N then FInf neg
    else FFin neg (m * Npos (pow2 e)) 1
  else FFin neg m (pow2 (- e)).

Definition binary64 (x : pyfloat) : pyfloat :=
  match x with
  | FFin neg num den => round_b64 neg num den
  | _ => x
  end.

(** The [,] option of the format mini-language: a comma before every
    group of three digits, counted from the right. *)
Fixpoint group3_rev (l : list ascii) : list ascii :=
  match l with
  | a :: b :: c :: ((_ :: _) as more) =>
      a :: b :: c :: ","%char :: group3_rev more
  | _ => l
  end.
Definition with_commas (ds : list ascii) : list ascii :=
  rev (group3_rev (rev ds)).

Definition two_digits (n : N) : list ascii :=
  [digit_char (n / 10); digit_char (n mod 10)].

(** [f"{x:,.2f}"]: the exact value of the float, rounded to two decimals
    with ties to even. *)
Definition fmt_2f (x : pyfloat) : string :=
  match x with
  | FFin neg num den =>
      let c := round_half_even (num * 100) den in
      text ((if neg then ["-"%char] else [])
            ++ with_commas (digits_of_N (c / 100))
            ++ "."%char :: two_digits (c mod 100))
  | FInf neg => if neg then "-inf" else "inf"
  | FNan => "nan"
  end.

(** ** [float(s)] *)

(** Digits with single underscores between them; the value read, the
    number of digits and what follows. *)
Fixpoint digit_run (acc : N) (cnt : nat) (l : list ascii)
  : N * nat * list ascii :=
  match l with
  | c :: l' =>
      if is_digit c then digit_run (acc * 10 + digit_val c) (S cnt) l'
      else if Ascii.eqb c "_"
      then match l' with
           | d :: l'' =>
               if is_digit d
               then digit_run (acc * 10 + digit_val d) (S cnt) l''
               else (acc, cnt, l)
           | [] => (acc, cnt, l)
           end
      else (acc, cnt, l)
  | [] => (acc, cnt, [])
  end.

(** A digit part: empty, or starting with a digit. *)
Definition digit_part (l : list ascii) : N * nat * list ascii :=
  match l with
  | c :: _ => if is_digit c then digit_run 0 0 l else (0%N, 0, l)
  | [] => (0%N, 0, [])
  end.

Definition is_exp_mark (c : ascii) : bool :=
  Ascii.eqb c "e" || Ascii.eqb c "E".

Definition take_sign (l : list ascii) : bool * list ascii :=
  match l with
  | "-"%char :: l' => (true, l')
  | "+"%char :: l' => (false, l')
  | _ => (false, l)
  end.

(** [mant * 10^e] as a fraction. *)
Definition scale10 (neg : bool) (mant : N) (e : Z) : pyfloat :=
  match e with
  | Z0 => FFin neg mant 1
  | Zpos p => FFin neg (mant * 10 ^ Npos p) 1
  | Zneg p => FFin neg mant (10 ^ p)
  end.

(** The text between the blanks: a sign, then [inf], [infinity], [nan]
    or a decimal numeral, which is rounded to binary64. *)
Definition float_of_stripped (l0 : list ascii) : option pyfloat :=
  let '(neg, l) := take_sign l0 in
  let name := map lower_char l in
  if list_eq_dec ascii_dec name (chars "inf") then Some (FInf neg)
  else if list_eq_dec ascii_dec name (chars "infinity") then Some (FInf neg)
  else if list_eq_dec ascii_dec name (chars "nan") then Some FNan
  else
    let '(ip, icnt, l1) := digit_part l in
    let '(fp, fcnt, l2) :=
      match l1 with
      | "."%char :: l1' => digit_part l1'
      | _ => (0%N, 0, l1)
      end in
    if (icnt + fcnt =? 0)%nat then None else
    let mant := (ip * 10 ^ N.of_nat fcnt + fp)%N in
    match l2 with
    | [] => Some (binary64 (scale10 neg mant (- Z.of_nat fcnt)))
    | c :: l3 =>
        if is_exp_mark c then
          let '(eneg, l4) := take_sign l3 in
          match digit_part l4 with
          | (_, O, _) => None
          | (ev, S _, []) =>
              let e := if eneg then (- Z.of_N ev)%Z else Z.of_N ev in
              Some (binary64 (scale10 neg mant (e - Z.of_nat fcnt)))
          | _ => None
          end
        else None
    end.

(** [float(s)] for a [str]: the blanks of [str.isspace] are dropped at
    both ends. *)
Definition float_of_chars (l0 : list ascii) : option pyfloat :=
  float_of_stripped (strip_chars l0).

Definition float_of_string (s : string) : option pyfloat :=
  float_of_chars (chars s).

(** [float(b)] for a [bytes]: the blanks dropped are those of C's
    [isspace], TAB..CR and the space. *)
Definition is_cspace (c : ascii) : bool :=
  in_range 9 13 c || (code c =? 32)%N.
Fixpoint lstrip_cspace (l : list ascii) : list ascii :=
  match l with
  | c :: l' => if is_cspace c then lstrip_cspace l' else l
  | [] => []
  end.
Definition float_of_bytes (s : string) : option pyfloat :=
  float_of_stripped (rev (lstrip_cspace (rev (lstrip_cspace (chars s))))).

(** ** [format_currency] *)

(** What [format_currency] can be handed: a missing value ([None]), a
    float, an int (a [bool] is one), a [str], a [bytes], or an object
    that is not missing and that [float()] has no conversion for (a
    date, a list, a dict). *)
Inductive pyval : Type :=
| VNone
| VNum (x : pyfloat)
| VInt (z : Z)
| VStr (s : string)
| VBytes (s : string)
| VOther.

(** [pd.isna(v)] for a scalar. *)
Definition isna (v : pyval) : bool :=
  match v with
  | VNone => true
  | VNum FNan => true
  | _ => false
  end.

(** [float(v)].  An int is rounded to the nearest binary64 number; one
    that rounds beyond the largest raises [OverflowError]. *)
Definition py_float (v : pyval) : result pyfloat :=
  match v with
  | VNum x => Ok x
  | VInt z =>
      match binary64 (float_of_Z z) with
      | FInf _ => Raise (OverflowError "int too large to convert to float")
      | x => Ok x
      end
  | VStr s =>
      match float_of_string s with
      | Some x => Ok x
      | None => Raise (ValueError ("could not convert string to float: '" ++ s ++ "'"))
      end
  | VBytes s =>
      match float_of_bytes s with
      | Some x => Ok x
      | None => Raise (ValueError ("could not convert string to float: b'" ++ s ++ "'"))
      end
  | VNone => Raise (TypeError "float() argument must be a string or a real number, not 'NoneType'")
  | VOther => Raise (TypeError "float() argument must be a string or a real number")
  end.

(** [amount.replace('$', '').replace(',', '')] *)
Definition strip_currency (s : string) : string :=
  text (remove_char ","%char (remove_char "$"%char (chars s))).

(** Lines 17-26.  The [try] body, then the [except (ValueError, TypeError)]
    clause; any other exception propagates. *)
Definition format_currency_body (amount : pyval) : result string :=
  if isna amount then Ok "$0.00"
  else
    let amount :=
      match amount with
      | VStr s => VStr (strip_currency s)
      | _ => amount
      end in
    x <- py_float amount ;;
    Ok ("$" ++ fmt_2f x).

Definition format_currency (amount : pyval) : result string :=
  match format_currency_body amount with
  | Ok s => Ok s
  | Raise (ValueError _) => Ok "$0.00"
  | Raise (TypeError _) => Ok "$0.00"
  | Raise e => Raise e
  end.

End Fmt.

(* ================================================================== *)
(** * Tables (pandas)                                                  *)
(* ================================================================== *)

Module Pandas.
Import PyStr Py Fmt.

Record date : Type := MkDate { year : Z; month : Z; day : Z }.

(** A cell: missing ([None], [NaN] and [NaT] alike), text, an integer, a
    float (exact) or a timestamp at midnight. *)
Inductive cell : Type :=
| NaN
| Str (s : string)
| Int (z : Z)
| Float (q : Q)
| Date (d : date).

(** A record of the table: column name and value; a column a record
    lacks reads as [NaN]. *)
Definition row : Type := list (string * cell).

Record DataFrame : Type := MkFrame {
  columns : list string;
  rows : list row
}.

(** [pd.DataFrame()] *)
Definition empty_frame : DataFrame := MkFrame [] [].

(** [df.empty]: no column or no row. *)
Definition df_empty (df : DataFrame) : bool :=
  match columns df, rows df with
  | [], _ => true
  | _, [] => true
  | _, _ => false
  end.

Definition has_column (df : DataFrame) (c : string) : bool :=
  existsb (String.eqb c) (columns df).

Fixpoint row_get (r : row) (c : string) : cell :=
  match r with
  | [] => NaN
  | (k, v) :: r' => if String.eqb k c then v else row_get r' c
  end.

(** [df[c]]: the column as a list of cells. *)
Definition col (df : DataFrame) (c : string) : result (list cell) :=
  if has_column df c then Ok (map (fun r => row_get r c) (rows df))
  else Raise (KeyError c).

(** [row[c]] for a row of [df]. *)
Definition row_at (df : DataFrame) (r : row) (c : string) : result cell :=
  if has_column df c then Ok (row_get r c) else Raise (KeyError c).

Definition is_na (c : cell) : bool :=
  match c with NaN => true | _ => false end.

(** ** Cells as numbers and text *)

Definition cell_num (c : cell) : option Q :=
  match c with
  | Int z => Some (inject_Z z)
  | Float q => Some q
  | _ => None
  end.

Definition two (n : Z) : string :=
  text (two_digits (Z.to_N n)).
Definition four (n : Z) : string :=
  let n := Z.to_N n in
  text (two_digits (n / 100) ++ two_digits (n mod 100)).

(** [repr] of a float: integral values as [n.0], others by their decimal
    expansion to at most 17 places (exponent notation is not modelled). *)
Definition repr_float (q : Q) : string :=
  let neg := (Qnum q <? 0)%Z in
  let num := Z.abs_N (Qnum q) in
  let den := Npos (Qden q) in
  let scaled := (num * 10 ^ 17 / den)%N in
  let ip := (scaled / 10 ^ 17)%N in
  let fp := (scaled mod 10 ^ 17)%N in
  let fdigits := digits_of_N fp in
  let padded := (repeat "0"%char (17 - length fdigits) ++ fdigits)%list in
  let trimmed :=
    rev ((fix drop (l : list ascii) : list ascii :=
            match l with
            | "0"%char :: l' => drop l'
            | _ => l
            end) (rev padded)) in
  (if neg then "-" else "") ++ str_N ip ++ "."
    ++ match trimmed with [] => "0" | _ => text trimmed end.

Definition str_date (d : date) : string :=
  four (year d) ++ "-" ++ two (month d) ++ "-" ++ two (day d).

(** [str(x)], as an f-string placeholder or [astype(str)] renders a cell. *)
Definition py_str (c : cell) : string :=
  match c with
  | NaN => "nan"
  | Str s => s
  | Int z => str_Z z
  | Float q => repr_float q
  | Date d => str_date d ++ " 00:00:00"
  end.

Definition cell_val (c : cell) : pyval :=
  match c with
  | NaN => VNum FNan
  | Str s => VStr s
  | Int z => VNum (float_of_Z z)
  | Float q => VNum (float_of_Q q)
  | Date _ => VOther
  end.

Definition fmt_Q (q : Q) : string := fmt_2f (float_of_Q q).

(** [f"{x:,.2f}"] for a cell. *)
Definition fmt_cell (c : cell) : result string :=
  match c with
  | NaN => Ok "nan"
  | Int z => Ok (fmt_2f (float_of_Z z))
  | Float q => Ok (fmt_Q q)
  | Str _ => Raise (ValueError "Unknown format code 'f' for object of type 'str'")
  | Date _ => Raise (TypeError "unsupported format string passed to Timestamp.__format__")
  end.

(** [int(x)] for a float: truncation towards zero. *)
Definition Qtrunc (q : Q) : Z := Z.quot (Qnum q) (Zpos (Qden q)).

(** ** Equality and order of cells *)

Definition date_eqb (a b : date) : bool :=
  ((year a =? year b) && (month a =? month b) && (day a =? day b))%Z.
Definition date_leb (a b : date) : bool :=
  ((year a <? year b)
   || ((year a =? year b)
       && ((month a <? month b)
           || ((month a =? month b) && (day a <=? day b)))))%Z.

Definition cell_eqb (a b : cell) : bool :=
  match a, b with
  | NaN, NaN => true
  | Str x, Str y => String.eqb x y
  | Date x, Date y => date_eqb x y
  | _, _ =>
      match cell_num a, cell_num b with
      | Some x, Some y => Qeq_bool x y
      | _, _ => false
      end
  end.

(** Order used to sort group keys and modes: numbers by value, text
    lexicographically, dates by calendar; across kinds (which pandas
    cannot sort) missing < numbers < text < dates. *)
Definition kind_rank (c : cell) : nat :=
  match c with
  | NaN => 0
  | Int _ | Float _ => 1
  | Str _ => 2
  | Date _ => 3
  end.
Definition cell_leb (a b : cell) : bool :=
  match a, b with
  | Str x, Str y => negb (PyStr.ltb y x)
  | Date x, Date y => date_leb x y
  | _, _ =>
      match cell_num a, cell_num b with
      | Some x, Some y => Qle_bool x y
      | _, _ => (kind_rank a <=? kind_rank b)%nat
      end
  end.

(** ** Sorting *)

Section Sort.
Variable A : Type.
(** [before x y]: [x] may stand before [y]. *)
Variable before : A -> A -> bool.

Fixpoint insert (x : A) (l : list A) : list A :=
  match l with
  | [] => [x]
  | y :: l' => if before x y then x :: l else y :: insert x l'
  end.

(** Stable insertion sort: equal elements keep their order. *)
Definition stable_sort (l : list A) : list A := fold_right insert [] l.
End Sort.

(** ** Sorting by value *)

(** [Series.sort_values(ascending=False)] orders a series with numpy's
    [argsort(kind='quicksort')], which is not stable: the values come
    out in descending order, and which of the arrangements of equal
    values it is depends on the numpy build and on the length of the
    series.  The program is modelled over any sort that returns the
    entries in descending order of their values. *)
Class Numpy : Type := {
  sort_values_desc : forall A : Type, (A -> Q) -> list A -> list A;
  sort_values_desc_perm :
    forall (A : Type) (key : A -> Q) (l : list A),
      Permutation (sort_values_desc key l) l;
  sort_values_desc_sorted :
    forall (A : Type) (key : A -> Q) (l : list A),
      StronglySorted (fun a b => (key b <= key a)%Q) (sort_values_desc key l)
}.

(** ** Series *)

Section Series.
Context {np : Numpy}.

(** First occurrences, in order ([Series.unique]). *)
Fixpoint unique (s : list cell) : list cell :=
  match s with
  | [] => []
  | c :: s' => c :: filter (fun x => negb (cell_eqb c x)) (unique s')
  end.

Definition count_of (c : cell) (s : list cell) : nat :=
  length (filter (cell_eqb c) s).

Definition dropna (s : list cell) : list cell :=
  filter (fun c => negb (is_na c)) s.

(** The distinct non-missing values with their counts, in order of
    first appearance. *)
Definition counts (s : list cell) : list (cell * nat) :=
  let vals := dropna s in
  map (fun k => (k, count_of k vals)) (unique vals).

(** [s.value_counts()]: the counts, sorted by
    [sort_values(ascending=False)]. *)
Definition value_counts (s : list cell) : list (cell * nat) :=
  sort_values_desc (fun p => inject_Z (Z.of_nat (snd p))) (counts s).

(** [s.mode()]: the most frequent non-missing values in ascending order. *)
Definition mode (s : list cell) : list cell :=
  let cs := counts s in
  let top := fold_right Nat.max 0 (map snd cs) in
  stable_sort cell_leb (map fst (filter (fun p => (snd p =? top)%nat) cs)).

(** [s.mode()[0]] *)
Definition mode0 (s : list cell) : result cell :=
  match mode s with
  | c :: _ => Ok c
  | [] => Raise (KeyError "0")
  end.

(** [s.sum()]: missing values are skipped; the sum of no value is zero.
    Summing text or dates is reported as a [TypeError]. *)
Fixpoint sum_cells (s : list cell) (acc : Q) : result Q :=
  match s with
  | [] => Ok acc
  | NaN :: s' => sum_cells s' acc
  | Int z :: s' => sum_cells s' (Qred (acc + inject_Z z))
  | Float q :: s' => sum_cells s' (Qred (acc + q))
  | _ :: _ => Raise (TypeError "unsupported operand type(s) for +")
  end.
Definition series_sum (s : list cell) : result Q := sum_cells s 0%Q.

(** [s.count()] *)
Definition series_count (s : list cell) : nat := length (dropna s).

(** The [.str] accessor exists on columns of object dtype: columns that
    hold some text. *)
Definition str_acc (s : list cell) : result (list cell) :=
  if existsb (fun c => match c with Str _ => true | _ => false end) s
  then Ok s
  else Raise (AttributeError "Can only use .str accessor with string values!").

(** [s.str.lower()] and the like: text is mapped, anything else is
    missing. *)
Definition str_map (f : string -> string) (s : list cell) : list cell :=
  map (fun c => match c with Str x => Str (f x) | _ => NaN end) s.

(** [s.astype(str)] *)
Definition astype_str (s : list cell) : list cell :=
  map (fun c => Str (py_str c)) s.

(** ** Boolean masks.  [None] is a missing entry of an object mask. *)
Definition mask : Type := list (option bool).

Definition eq_num (z : Z) (c : cell) : bool :=
  match cell_num c with
  | Some q => Qeq_bool q (inject_Z z)
  | None => false
  end.
Definition eq_text (t : string) (c : cell) : bool :=
  match c with Str s => String.eqb s t | _ => false end.

(** [s == z], [s == "text"], [s.notna()] *)
Definition mask_eq_num (z : Z) (s : list cell) : mask :=
  map (fun c => Some (eq_num z c)) s.
Definition mask_eq_text (t : string) (s : list cell) : mask :=
  map (fun c => Some (eq_text t c)) s.
Definition mask_notna (s : list cell) : mask :=
  map (fun c => Some (negb (is_na c))) s.

(** [s.isin(zs)] for integers. *)
Definition mask_isin (zs : list Z) (s : list cell) : mask :=
  map (fun c => Some (existsb (fun z => eq_num z c) zs)) s.

(** [a & b], [a | b]: the result is a plain boolean array; a missing
    entry on the left gives [False], one on the right counts as [False]. *)
Definition and_entry (a b : option bool) : option bool :=
  match a, b with
  | Some x, Some y => Some (x && y)
  | _, _ => Some false
  end.
Definition or_entry (a b : option bool) : option bool :=
  match a, b with
  | Some x, Some y => Some (x || y)
  | Some x, None => Some x
  | None, _ => Some false
  end.
Fixpoint zip_with {A B C : Type} (f : A -> B -> C) (a : list A) (b : list B)
  : list C :=
  match a, b with
  | x :: a', y :: b' => f x y :: zip_with f a' b'
  | _, _ => []
  end.
Definition mask_and (a b : mask) : mask := zip_with and_entry a b.
Definition mask_or (a b : mask) : mask := zip_with or_entry a b.

(** [mask.any()] *)
Definition mask_any (m : mask) : bool :=
  existsb (fun e => match e with Some true => true | _ => false end) m.

Fixpoint keep {A : Type} (m : mask) (l : list A) : list A :=
  match m, l with
  | Some true :: m', x :: l' => x :: keep m' l'
  | _ :: m', _ :: l' => keep m' l'
  | _, _ => []
  end.

(** [df[mask]]: a mask with a missing entry cannot select. *)
Definition select (df : DataFrame) (m : mask) : result DataFrame :=
  if existsb (fun e => match e with None => true | Some _ => false end) m
  then Raise (ValueError "Cannot mask with non-boolean array containing NA / NaN values")
  else Ok (MkFrame (columns df) (keep m (rows df))).

(** [len(df)], [df.shape[0]] *)
Definition nrows (df : DataFrame) : nat := length (rows df).

(** [df.head(n)] *)
Definition head (n : nat) (df : DataFrame) : DataFrame :=
  MkFrame (columns df) (firstn n (rows df)).

(** [df.iloc[0]] *)
Definition iloc0 (df : DataFrame) : result row :=
  match rows df with
  | r :: _ => Ok r
  | [] => Raise (IndexError "single positional indexer is out-of-bounds")
  end.
(** [s.iloc[0]] *)
Definition first_cell (s : list cell) : result cell :=
  match s with
  | c :: _ => Ok c
  | [] => Raise (IndexError "single positional indexer is out-of-bounds")
  end.

(** [df[[c1; ...]]] *)
Definition project (df : DataFrame) (cs : list string) : result DataFrame :=
  match filter (fun c => negb (has_column df c)) cs with
  | c :: _ => Raise (KeyError c)
  | [] => Ok (MkFrame cs (map (fun r => map (fun c => (c, row_get r c)) cs)
                              (rows df)))
  end.

Definition row_eqb (cs : list string) (a b : row) : bool :=
  forallb (fun c => cell_eqb (row_get a c) (row_get b c)) cs.

(** [df.drop_duplicates()]: the first of each group of equal rows. *)
Fixpoint dedup_rows (cs : list string) (l : list row) : list row :=
  match l with
  | [] => []
  | r :: l' => r :: filter (fun x => negb (row_eqb cs r x)) (dedup_rows cs l')
  end.
Definition drop_duplicates (df : DataFrame) : DataFrame :=
  MkFrame (columns df) (dedup_rows (columns df) (rows df)).

(** [pd.concat([a; b])] of two frames over the same columns. *)
Definition concat (a b : DataFrame) : DataFrame :=
  MkFrame (match columns a with [] => columns b | cs => cs end)
          (rows a ++ rows b).

(** [df[c] = values]: the column is added, or overwritten in place. *)
Fixpoint row_set (r : row) (c : string) (v : cell) : row :=
  match r with
  | [] => [(c, v)]
  | (k, x) :: r' =>
      if String.eqb k c then (k, v) :: r' else (k, x) :: row_set r' c v
  end.
Definition set_column (df : DataFrame) (c : string) (values : list cell)
  : DataFrame :=
  MkFrame (if has_column df c then columns df else (columns df ++ [c])%list)
          (zip_with (fun r v => row_set r c v) (rows df) values).

(** ** Grouping *)

(** [df.groupby(by)[val].sum()]: one entry per distinct non-missing key,
    keys in ascending order. *)
Definition group_sum (keys vals : list cell) (k : cell) : result Q :=
  series_sum (keep (map (fun c => Some (cell_eqb k c)) keys) vals).

Fixpoint map_result {A B : Type} (f : A -> result B) (l : list A)
  : result (list B) :=
  match l with
  | [] => Ok []
  | x :: l' =>
      y <- f x ;;
      ys <- map_result f l' ;;
      Ok (y :: ys)
  end.

Definition groupby_sum (df : DataFrame) (by_ val : string)
  : result (list (cell * Q)) :=
  keys <- col df by_ ;;
  vals <- col df val ;;
  map_result (fun k => s <- group_sum keys vals k ;; Ok (k, s))
             (stable_sort cell_leb (unique (dropna keys))).

(** [s.sort_values(ascending=False)] *)
Definition sort_desc {K : Type} (s : list (K * Q)) : list (K * Q) :=
  sort_values_desc snd s.

(** [s.nlargest(n)] with the default [keep='first'].  Nothing for
    [n <= 0]; [s.sort_values(ascending=False).head(n)] when [n] is at
    least the length of the series; otherwise the [n] largest entries
    by a stable sort, equal values in the order of the series. *)
Definition nlargest {K : Type} (n : nat) (s : list (K * Q)) : list (K * Q) :=
  if (n =? 0)%nat then []
  else if (length s <=? n)%nat then firstn n (sort_desc s)
  else firstn n (stable_sort (fun a b => Qle_bool (snd b) (snd a)) s).

End Series.

(** [s.idxmax()]: the label of the first largest value. *)
Fixpoint argmax {K : Type} (best : K * Q) (s : list (K * Q)) : K * Q :=
  match s with
  | [] => best
  | p :: s' => argmax (if Qle_bool (snd p) (snd best) then best else p) s'
  end.
Definition idxmax {K : Type} (s : list (K * Q)) : result (K * Q) :=
  match s with
  | p :: s' => Ok (argmax p s')
  | [] => Raise (ValueError "attempt to get argmax of an empty sequence")
  end.

(** ** Dates *)

Definition is_leap (y : Z) : bool :=
  ((y mod 4 =? 0) && (negb (y mod 100 =? 0) || (y mod 400 =? 0)))%Z.
Definition days_in_month (y m : Z) : Z :=
  if (m =? 2)%Z then (if is_leap y then 29 else 28)%Z
  else if ((m =? 4) || (m =? 6) || (m =? 9) || (m =? 11))%Z then 30%Z
  else 31%Z.

(** [d.quarter] *)
Definition quarter (d : date) : Z := ((month d - 1) / 3 + 1)%Z.

Definition month_abbr (m : Z) : string :=
  nth (Z.to_nat m)
      [""; "Jan"; "Feb"; "Mar"; "Apr"; "May"; "Jun";
       "Jul"; "Aug"; "Sep"; "Oct"; "Nov"; "Dec"] "".

(** [calendar.month_name] *)
Definition month_name : list string :=
  [""; "January"; "February"; "March"; "April"; "May"; "June"; "July";
   "August"; "September"; "October"; "November"; "December"].

(** [x.strftime(...)] for the value of a cell: only a timestamp has it. *)
Definition strftime (fmt : date -> string) (c : cell) : result string :=
  match c with
  | Date d => Ok (fmt d)
  | NaN => Raise (ValueError "NaTType does not support strftime")
  | _ => Raise (AttributeError "object has no attribute 'strftime'")
  end.
Definition fmt_ymd (d : date) : string := str_date d.
Definition fmt_mdy (d : date) : string :=
  two (month d) ++ "/" ++ two (day d) ++ "/" ++ four (year d).
Definition fmt_by (d : date) : string :=
  month_abbr (month d) ++ " " ++ four (year d).

(** The [.dt] accessor exists on datetime columns: dates and missing
    values only. *)
Definition dt_acc (s : list cell) : result (list cell) :=
  if forallb (fun c => match c with Date _ | NaN => true | _ => false end) s
  then Ok s
  else Raise (AttributeError "Can only use .dt accessor with datetimelike values").

End Pandas.

(* ================================================================== *)
(** * The program: [Assignment/demo5.py]                               *)
(* ================================================================== *)

Module Demo5.
Import PyStr Py Fmt Pandas.
Export Fmt.

Section Program.
Context {np : Numpy}.

(** ** Helper functions (lines 17-44) *)

(** [order.get(c, default)] for a row of [df], as a value. *)
Definition get_val (df : DataFrame) (order : row) (c : string)
           (default : pyval) : pyval :=
  if has_column df c then cell_val (row_get order c) else default.
(** [order.get(c, 'N/A')], rendered in an f-string. *)
Definition get_str (df : DataFrame) (order : row) (c : string) : string :=
  if has_column df c then py_str (row_get order c) else "N/A".

(** Lines 28-44. *)
Definition format_order_details (df : DataFrame) (order : row)
  : result string :=
  unit_price <- format_currency
                  (get_val df order "Unit Price" (VInt 0)) ;;
  total_price <- format_currency
                   (get_val df order "Total Price" (VInt 0)) ;;
  Ok (join nl
    [ "📄 **Order Details**";
      "- Requisition #: " ++ get_str df order "Requisition Number";
      "- PO #: " ++ get_str df order "Purchase Order Number";
      "- Supplier: " ++ title (get_str df order "Supplier Name");
      "- Item: " ++ get_str df order "Item Name";
      "- Description: " ++ get_str df order "Item Description";
      "- Quantity: " ++ get_str df order "Quantity";
      "- Unit Price: " ++ unit_price;
      "- Total Price: " ++ total_price;
      "- Date: " ++ get_str df order "Purchase Date";
      "- Department: " ++ get_str df order "Department Name";
      "- Location: " ++ get_str df order "Location" ]).

(** ** Data loading (lines 57-96) *)

Definition pattern (p : string) : Re.regex :=
  match Re.compile p with
  | Some r => r
  | None => Re.RSet false []
  end.

(** The expression [pd.to_datetime] builds for the format [%m/%d/%Y]. *)
Definition re_mdY : Re.regex := Eval vm_compute in
  pattern "(1[0-2]|0[1-9]|[1-9])/(3[0-1]|[1-2]\d|0[1-9]|[1-9]| [1-9])/(\d\d\d\d)".

(** One value through [pd.to_datetime(..., format="%m/%d/%Y",
    errors='coerce')]: the whole text must match and name a day of the
    calendar; anything else becomes missing. *)
Definition parse_mdY (s : string) : option date :=
  match Re.match_here true re_mdY (Re.MState None (chars s) []) with
  | Some m =>
      match Re.rest (Re.m_after m) with
      | [] =>
          let mo := int_of_digits (Re.group1 m 1) in
          let d := int_of_digits (strip (Re.group1 m 2)) in
          let y := int_of_digits (Re.group1 m 3) in
          if ((1 <=? d) && (d <=? days_in_month y mo))%Z
          then Some (MkDate y mo d) else None
      | _ :: _ => None
      end
  | None => None
  end.

Definition to_datetime (c : cell) : cell :=
  match c with
  | Str s => match parse_mdY s with Some d => Date d | None => NaN end
  | Date d => Date d
  | _ => NaN
  end.

(** [.dt.year], [.dt.month], [.dt.quarter], [.dt.day] *)
Definition dt_field (f : date -> Z) (c : cell) : cell :=
  match c with Date d => Int (f d) | _ => NaN end.

(** One value through [pd.to_numeric(..astype(str).str.replace('$', '')
    .str.replace(',', ''), errors='coerce')].  Infinite values, which a
    cell cannot hold, load as missing. *)
Definition to_numeric (c : cell) : cell :=
  let s := strip_currency (py_str c) in
  if contains "_" s then NaN else
  match float_of_string s with
  | Some (FFin neg num den) =>
      Float (Qred ((if neg then - Z.of_N num else Z.of_N num)%Z # den))
  | _ => NaN
  end.

Definition valid_years : list Z := [2012; 2013; 2014; 2015]%Z.

(** [pd.DataFrame(data)]: the columns are the keys of the records, in
    order of first appearance. *)
Fixpoint add_keys (seen : list string) (ks : list string) : list string :=
  match ks with
  | [] => seen
  | k :: ks' =>
      add_keys (if existsb (String.eqb k) seen then seen
                else (seen ++ [k])%list) ks'
  end.
Definition frame_of_records (data : list row) : DataFrame :=
  MkFrame (fold_left (fun seen r => add_keys seen (map fst r)) data []) data.

(** [df[c] = f(df[c])] *)
Definition update_column (df : DataFrame) (c : string) (f : cell -> cell)
  : result DataFrame :=
  s <- col df c ;;
  Ok (set_column df c (map f s)).

(** [df[c] = f(df[src])] *)
Definition derive_column (df : DataFrame) (c src : string) (f : cell -> cell)
  : result DataFrame :=
  s <- col df src ;;
  Ok (set_column df c (map f s)).

Definition clean_text (f : string -> string) (c : cell) : cell :=
  Str (f (py_str c)).

(** The [try] body of [load_procurement_data] once the records are read. *)
Definition clean (data : list row) : result DataFrame :=
  let df := frame_of_records data in
  if df_empty df then Ok df else
  df <- update_column df "Purchase Date" to_datetime ;;
  dates <- col df "Purchase Date" ;;
  df <- select df (mask_isin valid_years (map (dt_field year) dates)) ;;
  df <- derive_column df "Year" "Purchase Date" (dt_field year) ;;
  df <- derive_column df "Month" "Purchase Date" (dt_field month) ;;
  df <- derive_column df "Quarter" "Purchase Date" (dt_field quarter) ;;
  df <- update_column df "Total Price" to_numeric ;;
  df <- update_column df "Unit Price" to_numeric ;;
  df <- update_column df "Supplier Name"
          (clean_text (fun s => lower (strip s))) ;;
  df <- update_column df "Supplier Zip Code" (clean_text strip) ;;
  df <- update_column df "Supplier Qualifications"
          (clean_text (fun s => upper (strip s))) ;;
  df <- update_column df "CalCard" (clean_text (fun s => strip (upper s))) ;;
  Ok df.

(** The body of [load_procurement_data].  [store] is what the database
    yields: [None] when the connection fails ([get_db_connection] returns
    [None]), the records otherwise.  Any exception gives the empty table. *)
Definition load_procurement_data (store : option (list row)) : DataFrame :=
  match store with
  | None => empty_frame
  | Some data =>
      match clean data with
      | Ok df => df
      | Raise _ => empty_frame
      end
  end.

(** ** Question logic *)

(** Lines 99-106. *)
Definition index_of (x : string) (l : list string) : option nat :=
  (fix go (i : nat) (l : list string) : option nat :=
     match l with
     | [] => None
     | y :: l' => if String.eqb x y then Some i else go (S i) l'
     end) 0%nat l.

Definition month_str_to_number (name : string) : option nat :=
  match index_of (capitalize name) month_name with
  | Some i => Some i
  | None =>
      (* pd.to_datetime(name, format='%B'): a full month name, in any case *)
      match index_of (lower name) (map lower month_name) with
      | Some (S i) => Some (S i)
      | _ => None
      end
  end.

(** *** Vocabulary shared by the blocks of [handle_question] *)

(** What a block does with the question: it returns an answer, raises, or
    ([Ok None]) leaves the question to the blocks after it. *)
Definition outcome : Type := result (option string).
Definition answer (s : string) : outcome := Ok (Some s).
Definition pass : outcome := Ok None.

(** [re.search(p, question).group(...)] with no test of the match. *)
Definition must (m : option Re.rmatch_result) : result Re.rmatch_result :=
  match m with
  | Some m => Ok m
  | None => Raise (AttributeError "'NoneType' object has no attribute 'group'")
  end.

(** [s.str.contains(pat, case=..., na=...)] on a series that has the
    [.str] accessor.  The pattern is a regular expression; [na] fills the
    entries that are not text. *)
Definition str_contains (pat : string) (icase : bool) (na : option bool)
           (s : list cell) : result mask :=
  match Re.compile pat with
  | None => Raise (ReError ("bad pattern: " ++ pat))
  | Some r =>
      Ok (map (fun c =>
                 match c with
                 | Str x =>
                     Some (match Re.search_from icase r None (chars x) with
                           | Some _ => true
                           | None => false
                           end)
                 | _ => na
                 end) s)
  end.

(** [df[c].str.contains(...)] and [df[c].astype(str).str.contains(...)] *)
Definition col_contains (df : DataFrame) (c pat : string) (icase : bool)
           (na : option bool) : result mask :=
  s <- col df c ;;
  s <- str_acc s ;;
  str_contains pat icase na s.
Definition col_str_contains (df : DataFrame) (c pat : string) (icase : bool)
  : result mask :=
  s <- col df c ;;
  str_contains pat icase None (astype_str s).
(** [df[c].str.lower().str.contains(...)], [df[c].str.upper()...] *)
Definition col_map_contains (df : DataFrame) (c : string)
           (f : string -> string) (pat : string) (na : option bool)
  : result mask :=
  s <- col df c ;;
  s <- str_acc s ;;
  str_contains pat false na (str_map f s).
(** [df[c].astype(str).str.lower().str.contains(...)] *)
Definition col_str_map_contains (df : DataFrame) (c : string)
           (f : string -> string) (pat : string) (na : option bool)
  : result mask :=
  s <- col df c ;;
  str_contains pat false na (str_map f (astype_str s)).

(** [df[c] == year] *)
Definition col_eq_num (df : DataFrame) (c : string) (z : Z) : result mask :=
  s <- col df c ;;
  Ok (mask_eq_num z s).

(** [df[df['Year'] == year]] *)
Definition in_year (df : DataFrame) (y : Z) : result DataFrame :=
  m <- col_eq_num df "Year" y ;;
  select df m.

Definition any_in (phrases : list string) (question : string) : bool :=
  existsb (fun phrase => contains phrase question) phrases.

Definition int (s : string) : Z := int_of_digits s.

(** The lines of a listing, one per row. *)
Definition lines_of (df : DataFrame) (f : row -> result string)
  : result (list string) :=
  map_result f (rows df).

(** ["- {item} ({count})"] for the entries of a [value_counts]. *)
Definition count_lines (vc : list (cell * nat)) : list string :=
  map (fun p => "- " ++ py_str (fst p) ++ " (" ++ str_nat (snd p) ++ ")") vc.

(** ["- {supplier}: ${amt:,.2f}"] *)
Definition spend_lines (s : list (cell * Q)) : list string :=
  map (fun p => "- " ++ py_str (fst p) ++ ": $" ++ fmt_Q (snd p)) s.

Definition re_in_year : Re.regex := Eval vm_compute in pattern "in (\d{4})".

(** *** Lines 118-153: purchases by ZIP code; purchases by acquisition
    method *)

Definition re_zip : Re.regex := Eval vm_compute in
  pattern "(?:zip code|zip|location)\s*(\d{5})".
Definition re_the_method : Re.regex := Eval vm_compute in
  pattern "the (.+?) acquisition method".

Definition block_zip_method (question : string) (df : DataFrame) : outcome :=
  if any_in ["purchases delivered to zip"; "purchases in zip";
             "orders delivered to"] question then
    match Re.search re_zip question with
    | Some zip_match =>
        let zip_code := Re.group1 zip_match 1 in
        location_mask <- col_str_contains df "Location" zip_code false ;;
        supplier_zip_mask <-
          col_str_contains df "Supplier Zip Code" zip_code false ;;
        purchases <- select df (mask_or location_mask supplier_zip_mask) ;;
        if negb (df_empty purchases) then
          ls <- lines_of (head 20 purchases) (fun r =>
                  item <- row_at purchases r "Item Name" ;;
                  total <- row_at purchases r "Total Price" ;;
                  total <- fmt_cell total ;;
                  d <- row_at purchases r "Purchase Date" ;;
                  d <- strftime fmt_ymd d ;;
                  Ok ("- " ++ py_str item ++ " ($" ++ total ++ ", " ++ d ++ ")")) ;;
          answer ("📍 Purchases for location " ++ zip_code ++ ":" ++ nl
                  ++ join nl ls)
        else answer ("⚠️ No purchases found for ZIP code " ++ zip_code)
    | None => pass
    end
  else if contains "purchases used the" question
          && contains "acquisition method" question then
    match Re.search re_the_method question with
    | Some method_match =>
        let method := strip (Re.group1 method_match 1) in
        match Re.search re_in_year question with
        | Some year_match =>
            let year := int (Re.group1 year_match 1) in
            method_mask <- col_contains df "Acquisition Method" method true None ;;
            year_mask <- col_eq_num df "Year" year ;;
            sub <- select df (mask_and method_mask year_mask) ;;
            answer ("📦 Number of " ++ method ++ " purchases in " ++ str_Z year
                    ++ ": " ++ str_nat (nrows sub))
        | None =>
            method_mask <- col_contains df "Acquisition Method" method true None ;;
            sub <- select df method_mask ;;
            answer ("📦 Total " ++ method ++ " purchases: " ++ str_nat (nrows sub))
        end
    | None => pass
    end
  else pass.

(** *** Lines 156-257: top N suppliers; spend by supplier code; highest
    spending acquisition type; frequent items of a fiscal year;
    normalized UNSPSC; sub-acquisition method *)

Definition re_top_n : Re.regex := Eval vm_compute in pattern "top (\d+)".
Definition re_supplier_code : Re.regex := Eval vm_compute in
  pattern "supplier code (\d+)".
Definition re_fiscal_year : Re.regex := Eval vm_compute in
  pattern "fiscal year (\d{4})".
Definition re_for_item : Re.regex := Eval vm_compute in
  pattern "for (.+?)\??$".
Definition re_method_tail : Re.regex := Eval vm_compute in
  pattern "method (.+?)\??$".

(** [df.groupby('Supplier Name')['Total Price'].sum().nlargest(n)] *)
Definition top_suppliers (n : nat) (df : DataFrame)
  : result (list (cell * Q)) :=
  sums <- groupby_sum df "Supplier Name" "Total Price" ;;
  Ok (nlargest n sums).

(** ["{i+1}. {supplier}: ${amt:,.2f}"] *)
Fixpoint ranked_lines (i : nat) (s : list (cell * Q)) : list string :=
  match s with
  | [] => []
  | (supplier, amt) :: s' =>
      (str_nat (S i) ++ ". " ++ py_str supplier ++ ": $" ++ fmt_Q amt)
        :: ranked_lines (S i) s'
  end.

(** Lines 173-181: the listing, or the message when the series is empty. *)
Definition report_top_n (n : N) (time_period : string)
           (suppliers : list (cell * Q)) : outcome :=
  match suppliers with
  | _ :: _ =>
      answer ("🏆 Top " ++ str_N n ++ " suppliers " ++ time_period ++ ":"
              ++ nl ++ join nl (ranked_lines 0 suppliers))
  | [] => answer ("⚠️ No supplier data found " ++ time_period)
  end.

(** Lines 191-198. *)
Definition report_supplier_code (code : string) (supplier_data : DataFrame)
  : outcome :=
  if negb (df_empty supplier_data) then
    prices <- col supplier_data "Total Price" ;;
    total <- series_sum prices ;;
    first <- iloc0 supplier_data ;;
    supplier_name <- row_at supplier_data first "Supplier Name" ;;
    answer ("🏢 Total spend for supplier code " ++ code ++ " ("
            ++ py_str supplier_name ++ "): $" ++ fmt_Q total ++ nl
            ++ "- Number of purchases: " ++ str_nat (nrows supplier_data))
  else answer ("⚠️ No purchases found for supplier code " ++ code).

(** Lines 209-215; [period] is ["in <year>"] or empty. *)
Definition report_top_type (period : string) (df_year : DataFrame) : outcome :=
  if negb (df_empty df_year) then
    sums <- groupby_sum df_year "Acquisition Type" "Total Price" ;;
    match nlargest 1 sums with
    | (ty, amt) :: _ =>
        answer ("📊 Highest spending acquisition type " ++ period ++ ":" ++ nl
                ++ "- " ++ py_str ty ++ ": $" ++ fmt_Q amt)
    | [] => Raise (IndexError "index 0 is out of bounds for axis 0 with size 0")
    end
  else answer "⚠️ No data found for specified year".

(** Lines 239-243. *)
Definition report_unspsc (item : string) (items : DataFrame) : outcome :=
  if negb (df_empty items) then
    first <- iloc0 items ;;
    unspsc <- row_at items first "Normalized UNSPSC" ;;
    answer ("🏷️ Normalized UNSPSC for " ++ item ++ ": " ++ py_str unspsc)
  else answer ("⚠️ No UNSPSC code found for " ++ item).

Definition block_top_n (question : string) (df : DataFrame) : outcome :=
  if contains "top" question && contains "suppliers" question
     && contains "total spend" question then
    let n := match Re.search re_top_n question with
             | Some num_match => N_of_digits (chars (Re.group1 num_match 1))
             | None => 3%N
             end in
    found <-
      match Re.search re_in_year question with
      | Some year_match =>
          let year := int (Re.group1 year_match 1) in
          sub <- in_year df year ;;
          suppliers <- top_suppliers (N.to_nat n) sub ;;
          Ok (suppliers, "in " ++ str_Z year)
      | None =>
          suppliers <- top_suppliers (N.to_nat n) df ;;
          Ok (suppliers, "overall")
      end ;;
    let '(suppliers, time_period) := found in
    report_top_n n time_period suppliers
  else if contains "supplier code" question
          && (contains "total price" question
              || contains "total spend" question) then
    match Re.search re_supplier_code question with
    | Some code_match =>
        let code := strip (Re.group1 code_match 1) in
        codes <- col df "Supplier Code" ;;
        supplier_data <-
          select df (mask_eq_text code (str_map strip (astype_str codes))) ;;
        report_supplier_code code supplier_data
    | None => pass
    end
  else if contains "acquisition type had the highest spend" question then
    let year_match := Re.search re_in_year question in
    df_year <- match year_match with
               | Some m => in_year df (int (Re.group1 m 1))
               | None => Ok df
               end ;;
    report_top_type match year_match with
                    | Some m => "in " ++ str_Z (int (Re.group1 m 1))
                    | None => ""
                    end df_year
  else if contains "most frequently purchased items" question
          && contains "fiscal year" question then
    match Re.search re_fiscal_year question with
    | Some year_match =>
        let year := Re.group1 year_match 1 in
        fiscal_mask <- col_contains df "Fiscal Year" year false (Some false) ;;
        sub <- select df fiscal_mask ;;
        items <- col sub "Item Name" ;;
        match firstn 10 (value_counts items) with
        | [] => answer ("⚠️ No purchase data found for FY" ++ year)
        | top_items =>
            answer ("🛒 Most frequently purchased items in FY" ++ year ++ ":"
                    ++ nl ++ join nl (count_lines top_items))
        end
    | None => pass
    end
  else if contains "normalized unspsc for" question then
    m <- must (Re.search re_for_item question) ;;
    let item := upper (strip (Re.group1 m 1)) in
    item_mask <- col_map_contains df "Item Name" upper item (Some false) ;;
    items <- select df item_mask ;;
    report_unspsc item items
  else if contains "transactions with sub-acquisition method" question then
    m <- must (Re.search re_method_tail question) ;;
    let method := strip (Re.group1 m 1) in
    method_mask <-
      col_contains df "Sub-Acquisition Method" method true (Some false) ;;
    transactions <- select df method_mask ;;
    if negb (df_empty transactions) then
      ls <- lines_of (head 10 transactions) (fun r =>
              item <- row_at transactions r "Item Name" ;;
              total <- row_at transactions r "Total Price" ;;
              total <- fmt_cell total ;;
              Ok ("- " ++ py_str item ++ " ($" ++ total ++ ")")) ;;
      answer ("📝 Transactions with sub-acquisition method '" ++ method ++ "':"
              ++ nl ++ join nl ls)
    else answer ("⚠️ No transactions found with sub-acquisition method '"
                 ++ method ++ "'")
  else pass.

(** *** Lines 260-339: item classification; quantity by code; top three
    suppliers; department spend; purchases by location; spend by supplier
    code *)

Definition re_the_item : Re.regex := Eval vm_compute in
  pattern "the (.+?)\??$".
Definition re_items_of : Re.regex := Eval vm_compute in
  pattern "items of (\w+) (?:bought|purchased) in (\d{4})".
Definition re_department : Re.regex := Eval vm_compute in
  pattern "department (.+?) in fiscal year (\d{4})".
Definition re_location : Re.regex := Eval vm_compute in
  pattern "location (\d+)".

(** ["🏷️ Classification for ..."] from the first matching row. *)
Definition classification_answer (item : string) (classification : DataFrame)
  : outcome :=
  if negb (df_empty classification) then
    r <- iloc0 classification ;;
    answer ("🏷️ Classification for " ++ item ++ ":" ++ nl
            ++ "- Segment: " ++ get_str classification r "Segment Title" ++ nl
            ++ "- Family: " ++ get_str classification r "Family Title")
  else answer ("⚠️ No classification found for item " ++ item).

(** Lines 283-284. *)
Definition report_quantity_by_code (item_code : string) (year : Z)
           (selected : DataFrame) : outcome :=
  quantities <- col selected "Quantity" ;;
  total <- series_sum quantities ;;
  answer ("📦 Total quantity of items with code " ++ item_code ++ " in "
          ++ str_Z year ++ ": " ++ str_Z (Qtrunc total)).

(** Lines 315-316. *)
Definition report_department_spend (dept : string) (year : Z)
           (selected : DataFrame) : outcome :=
  prices <- col selected "Total Price" ;;
  total <- series_sum prices ;;
  answer ("🏛️ Total spend for " ++ title dept ++ " in FY" ++ str_Z year
          ++ ": $" ++ fmt_Q total).

(** Lines 338-339. *)
Definition report_supplier_code_total (code : string) (selected : DataFrame)
  : outcome :=
  prices <- col selected "Total Price" ;;
  total <- series_sum prices ;;
  answer ("🏢 Total spend for supplier code " ++ code ++ ": $" ++ fmt_Q total).

Definition block_classification (question : string) (df : DataFrame)
  : outcome :=
  if contains "segment and family classification" question then
    m <- must (Re.search re_the_item question) ;;
    let item := upper (strip (Re.group1 m 1)) in
    names <- col df "Item Name" ;;
    item_mask <- col_map_contains df "Item Name" upper item None ;;
    classification <- select df (mask_and (mask_notna names) item_mask) ;;
    classification_answer item classification
  else if contains "how many items of" question
          && contains "bought in" question then
    match Re.search re_items_of question with
    | Some m =>
        let item_code := Re.group1 m 1 in
        let year := int (Re.group1 m 2) in
        class_mask <-
          col_str_contains df "Classification Codes" item_code false ;;
        unspsc_mask <- col_str_contains df "Normalized UNSPSC" item_code false ;;
        year_mask <- col_eq_num df "Year" year ;;
        selected <- select df (mask_and (mask_or class_mask unspsc_mask)
                                        year_mask) ;;
        report_quantity_by_code item_code year selected
    | None => pass
    end
  else if contains "top three suppliers based on total spend" question then
    match Re.search re_in_year question with
    | Some year_match =>
        let year := int (Re.group1 year_match 1) in
        sub <- in_year df year ;;
        top <- top_suppliers 3 sub ;;
        answer ("🏆 Top 3 suppliers in " ++ str_Z year ++ ":" ++ nl
                ++ join nl (spend_lines top))
    | None =>
        top <- top_suppliers 3 df ;;
        answer ("🏆 Top 3 suppliers overall:" ++ nl ++ join nl (spend_lines top))
    end
  else if contains "total spend for the department" question
          && contains "fiscal year" question then
    match Re.search re_department question with
    | Some dept_match =>
        let dept := strip (Re.group1 dept_match 1) in
        let year := int (Re.group1 dept_match 2) in
        dept_mask <- col_contains df "Department Name" dept true (Some false) ;;
        year_mask <-
          col_contains df "Fiscal Year" (str_Z year) false (Some false) ;;
        selected <- select df (mask_and dept_mask year_mask) ;;
        report_department_spend dept year selected
    | None => pass
    end
  else if contains "purchases linked to location" question then
    match Re.search re_location question with
    | Some loc_match =>
        let zip_code := Re.group1 loc_match 1 in
        m <- col_str_contains df "Location" zip_code false ;;
        purchases <- select df m ;;
        if negb (df_empty purchases) then
          ls <- lines_of (head 10 purchases) (fun r =>
                  item <- row_at purchases r "Item Name" ;;
                  total <- row_at purchases r "Total Price" ;;
                  total <- fmt_cell total ;;
                  Ok ("- " ++ py_str item ++ " ($" ++ total ++ ")")) ;;
          answer ("📍 Purchases for location " ++ zip_code ++ ":" ++ nl
                  ++ join nl ls)
        else answer ("⚠️ No purchases found for location " ++ zip_code)
    | None => pass
    end
  else if contains "total price for all purchases under supplier code"
                   question then
    match Re.search re_supplier_code question with
    | Some code_match =>
        let code := Re.group1 code_match 1 in
        codes <- col df "Supplier Code" ;;
        selected <- select df (mask_eq_text code (astype_str codes)) ;;
        report_supplier_code_total code selected
    | None => pass
    end
  else pass.

(** *** Lines 342-393: items by acquisition type; purchases by supplier
    qualification; quantity and unit price for a purchase order; count by
    acquisition method; segment and family classification *)

Definition re_item_in : Re.regex := Eval vm_compute in pattern "item (.+?) in".
Definition re_purchase_order : Re.regex := Eval vm_compute in
  pattern "purchase order (.+?)$".

(** [question.split(sep)[1]] where [sep] occurs in the question. *)
Definition after_first (sep question : string) : string :=
  nth 1 (split sep question) "".

Definition block_items_by_type (question : string) (df : DataFrame) : outcome :=
  if contains "list all items purchased under the acquisition type" question
  then
    let acq_type := strip (after_first "acquisition type" question) in
    m <- col_contains df "Acquisition Type" acq_type true None ;;
    sub <- select df m ;;
    items <- project sub ["Item Name"; "Item Description"] ;;
    let items := drop_duplicates items in
    if negb (df_empty items) then
      answer ("📋 Items purchased under " ++ acq_type ++ ":" ++ nl
              ++ join nl (firstn 100
                   (map (fun r => "- " ++ py_str (row_get r "Item Name") ++ " ("
                                  ++ py_str (row_get r "Item Description") ++ ")")
                        (rows items))))
    else answer ("⚠️ No items found under acquisition type " ++ acq_type)
  else pass.

(** [x.title()] for the value of a cell: only text has it. *)
Definition cell_title (c : cell) : result string :=
  match c with
  | Str s => Ok (title s)
  | _ => Raise (AttributeError "object has no attribute 'title'")
  end.

Definition block_qualification (question : string) (df : DataFrame) : outcome :=
  if contains "purchases from suppliers with the qualification" question then
    let quals := upper (strip (after_first "qualification" question)) in
    m <- col_contains df "Supplier Qualifications" quals false (Some false) ;;
    suppliers <- select df m ;;
    if negb (df_empty suppliers) then
      ls <- lines_of suppliers (fun r =>
              name <- row_at suppliers r "Supplier Name" ;;
              name <- cell_title name ;;
              item <- row_at suppliers r "Item Name" ;;
              Ok ("- " ++ name ++ " (" ++ py_str item ++ ")")) ;;
      answer ("🏢 Purchases from suppliers with " ++ quals ++ " qualification:"
              ++ nl ++ join nl (firstn 100 ls))
    else answer ("⚠️ No purchases found from suppliers with " ++ quals
                 ++ " qualification")
  else pass.

(** Lines 373-377. *)
Definition report_po_item (item po : string) (purchase : DataFrame) : outcome :=
  if negb (df_empty purchase) then
    r <- iloc0 purchase ;;
    quantity <- row_at purchase r "Quantity" ;;
    unit_price <- row_at purchase r "Unit Price" ;;
    unit_price <- format_currency (cell_val unit_price) ;;
    answer ("📊 For item " ++ item ++ " in PO " ++ po ++ ":" ++ nl
            ++ "- Quantity: " ++ py_str quantity ++ nl
            ++ "- Unit Price: " ++ unit_price)
  else answer ("⚠️ No matching purchase found for item " ++ item ++ " in PO "
               ++ po).

Definition block_po_item (question : string) (df : DataFrame) : outcome :=
  if contains "quantity and unit price for the item" question
     && contains "purchase order" question then
    m <- must (Re.search re_item_in question) ;;
    let item := upper (Re.group1 m 1) in
    m <- must (Re.search re_purchase_order question) ;;
    let po := strip (Re.group1 m 1) in
    po_mask <- col_str_contains df "Purchase Order Number" po false ;;
    item_mask <- col_str_contains df "Item Name" item true ;;
    purchase <- select df (mask_and po_mask item_mask) ;;
    report_po_item item po purchase
  else pass.

Definition block_count_by_method (question : string) (df : DataFrame)
  : outcome :=
  if contains "how many purchases were made using the acquisition method"
              question then
    let method := strip (after_first "acquisition method" question) in
    m <- col_contains df "Acquisition Method" method true None ;;
    sub <- select df m ;;
    answer ("📦 Number of purchases using " ++ method ++ ": **"
            ++ str_nat (nrows sub) ++ "**")
  else pass.

Definition block_classification_2 (question : string) (df : DataFrame)
  : outcome :=
  if contains "segment and family classification does the" question then
    let item := upper (strip (after_first "the" question)) in
    m <- col_contains df "Item Name" item true None ;;
    classification <- select df m ;;
    classification_answer item classification
  else pass.

(** *** Lines 396-449: spend by supplier in a fiscal year; CalCard spend
    in a fiscal year; items by supplier and LPA number; acquisition
    methods of a year; purchase order number of a requisition *)

Definition re_spend_by_fy : Re.regex := Eval vm_compute in
  pattern "total spend by (.+?) in (?:the )?fiscal year (\d{4})".
Definition re_lpa : Re.regex := Eval vm_compute in
  pattern "how many items? (?:were|was) purchased from (.+?) using lpa number ([A-Za-z0-9\-]+)".
Definition re_year : Re.regex := Eval vm_compute in pattern "(\d{4})".
Definition re_requisition : Re.regex := Eval vm_compute in
  pattern "purchase order number (?:for|of) (?:the )?requisition (\w+)".

(** Lines 405-409. *)
Definition report_spend_by_fy (supplier : string) (year : Z)
           (matched : DataFrame) : outcome :=
  if negb (df_empty matched) then
    prices <- col matched "Total Price" ;;
    total <- series_sum prices ;;
    answer ("💸 Total spend by " ++ title supplier ++ " in FY" ++ str_Z year
            ++ ": **$" ++ fmt_Q total ++ "**")
  else answer ("⚠️ No spending found for " ++ title supplier ++ " in FY"
               ++ str_Z year).

Definition block_spend_by_fy (question : string) (df : DataFrame) : outcome :=
  match Re.search re_spend_by_fy question with
  | Some fiscal_year_match =>
      let supplier := strip (Re.group1 fiscal_year_match 1) in
      let year := int (Re.group1 fiscal_year_match 2) in
      supplier_mask <-
        col_map_contains df "Supplier Name" lower (lower supplier) None ;;
      fiscal_year_mask <-
        col_contains df "Fiscal Year" (str_Z year) false None ;;
      matched <- select df (mask_and supplier_mask fiscal_year_mask) ;;
      report_spend_by_fy supplier year matched
  | None => pass
  end.

(** [df['CalCard'].str.upper() == "YES"] *)
Definition calcard_yes (df : DataFrame) : result mask :=
  s <- col df "CalCard" ;;
  s <- str_acc s ;;
  Ok (mask_eq_text "YES" (str_map upper s)).

(** Lines 415-416. *)
Definition report_calcard_fy (year : Z) (selected : DataFrame) : outcome :=
  prices <- col selected "Total Price" ;;
  total <- series_sum prices ;;
  answer ("💳 Total CalCard spending in FY" ++ str_Z year ++ ": **$"
          ++ fmt_Q total ++ "**").

Definition block_calcard_fy (question : string) (df : DataFrame) : outcome :=
  if contains "calcard" question && contains "fiscal year" question then
    m <- must (Re.search re_fiscal_year question) ;;
    let year := int (Re.group1 m 1) in
    yes <- calcard_yes df ;;
    fy <- col_contains df "Fiscal Year" (str_Z year) false None ;;
    selected <- select df (mask_and yes fy) ;;
    report_calcard_fy year selected
  else pass.

Definition block_lpa (question : string) (df : DataFrame) : outcome :=
  match Re.search re_lpa question with
  | Some lpa_match =>
      let supplier := strip (Re.group1 lpa_match 1) in
      let lpa_num := strip (Re.group1 lpa_match 2) in
      supplier_mask <-
        col_map_contains df "Supplier Name" lower (lower supplier) None ;;
      lpa <- col df "LPA Number" ;;
      let lpa_mask := mask_eq_text (lower lpa_num)
                                   (str_map lower (astype_str lpa)) in
      sub <- select df (mask_and supplier_mask lpa_mask) ;;
      answer ("📦 Items purchased from " ++ title supplier ++ " under LPA "
              ++ lpa_num ++ ": **" ++ str_nat (nrows sub) ++ "**")
  | None => pass
  end.

Definition block_methods_in_year (question : string) (df : DataFrame)
  : outcome :=
  if contains "acquisition methods" question
     && (contains "used" question || contains "for purchases" question) then
    match Re.search re_year question with
    | Some year_match =>
        let year := int (Re.group1 year_match 1) in
        sub <- in_year df year ;;
        methods <- col sub "Acquisition Method" ;;
        match value_counts methods with
        | [] => answer ("⚠️ No acquisition method data found for " ++ str_Z year)
        | vc =>
            answer ("📝 Acquisition methods used in " ++ str_Z year ++ ":" ++ nl
                    ++ join nl
                         (map (fun p => "- " ++ py_str (fst p) ++ ": "
                                        ++ str_nat (snd p)) vc))
        end
    | None => pass
    end
  else pass.

Definition block_requisition (question : string) (df : DataFrame) : outcome :=
  match Re.search re_requisition question with
  | Some po_match =>
      let req_num := upper (Re.group1 po_match 1) in
      reqs <- col df "Requisition Number" ;;
      sub <- select df (mask_eq_text req_num (str_map upper (astype_str reqs))) ;;
      pos <- col sub "Purchase Order Number" ;;
      po_number <- first_cell pos ;;
      answer ("🔢 Purchase Order Number for Requisition " ++ req_num ++ ": **"
              ++ py_str po_number ++ "**")
  | None => pass
  end.

(** *** Lines 453-526: orders from a supplier across years; quantity of
    an item; items ordered in a year; count of an item; orders from a
    supplier in a year *)

Definition re_orders_from : Re.regex := Eval vm_compute in
  pattern "total orders from (.+?) (?:in|during) (.+)".
Definition re_4digits : Re.regex := Eval vm_compute in pattern "\d{4}".
Definition re_quantity_of : Re.regex := Eval vm_compute in
  pattern "(?:total|how many) quantity of (.+?) (?:purchased|bought|ordered) (?:in|during) (\d{4})".
Definition re_how_many_were : Re.regex := Eval vm_compute in
  pattern "(?:total|how many) (.+?) (?:were|was) (?:purchased|bought|ordered) (?:in|during) (\d{4})".
Definition re_items_ordered : Re.regex := Eval vm_compute in
  pattern "how many items? (?:were|was) ordered? in (\d{4})".
Definition re_how_many_item : Re.regex := Eval vm_compute in
  pattern "how many (.+?) (?:were|was) (?:purchased|bought|ordered) (?:in|during) (\d{4})".
Definition re_orders_of_in : Re.regex := Eval vm_compute in
  pattern "(?:total|how many) orders? (?:from|of|for) (.+?) (?:in|during) (\d{4})".

Definition block_orders_multi_year (question : string) (df : DataFrame)
  : outcome :=
  if contains "total orders from" question && contains "and" question then
    match Re.search re_orders_from question with
    | Some supplier_match =>
        let supplier_query := strip (Re.group1 supplier_match 1) in
        let years_str := Re.group1 supplier_match 2 in
        let years := map int (Re.findall0 re_4digits years_str) in
        match years with
        | [] => answer "⚠️ Please specify valid year(s)"
        | _ =>
            supplier_mask <-
              col_str_map_contains df "Supplier Name" lower
                                   (lower supplier_query) None ;;
            results <- map_result (fun year =>
                         year_mask <- col_eq_num df "Year" year ;;
                         sub <- select df (mask_and supplier_mask year_mask) ;;
                         Ok ("- " ++ str_Z year ++ ": " ++ str_nat (nrows sub)
                             ++ " orders")) years ;;
            answer ("📦 Orders from " ++ title supplier_query ++ ":" ++ nl
                    ++ join nl results)
        end
    | None => pass
    end
  else pass.

(** [df['Item Name'].astype(str).str.lower().str.contains(q)
     | df['Item Description'].astype(str).str.lower().str.contains(q)] *)
Definition item_or_description (df : DataFrame) (q : string) (na : option bool)
  : result mask :=
  a <- col_str_map_contains df "Item Name" lower q na ;;
  b <- col_str_map_contains df "Item Description" lower q na ;;
  Ok (mask_or a b).

(** Lines 487-492.  A sum is never missing: the [else] branch of line
    491 is dead. *)
Definition report_quantity (item_query : string) (year : Z)
           (selected : DataFrame) : outcome :=
  quantities <- col selected "Quantity" ;;
  total_quantity <- series_sum quantities ;;
  answer ("📦 Total quantity of " ++ item_query ++ " purchased in "
          ++ str_Z year ++ ": **" ++ str_Z (Qtrunc total_quantity) ++ "**").

Definition block_quantity (question : string) (df : DataFrame) : outcome :=
  let quantity_match :=
    match Re.search re_quantity_of question with
    | Some m => Some m
    | None => Re.search re_how_many_were question
    end in
  match quantity_match with
  | Some m =>
      let item_query := strip (Re.group1 m 1) in
      let year := int (Re.group1 m 2) in
      item_mask <- item_or_description df (lower item_query) None ;;
      year_mask <- col_eq_num df "Year" year ;;
      selected <- select df (mask_and item_mask year_mask) ;;
      report_quantity item_query year selected
  | None => pass
  end.

Definition block_items_ordered (question : string) (df : DataFrame) : outcome :=
  match Re.search re_items_ordered question with
  | Some _ =>
      m <- must (Re.search re_4digits question) ;;
      let year := int (Re.group0 m) in
      sub <- in_year df year ;;
      names <- col sub "Item Name" ;;
      answer ("📦 Total items ordered in " ++ str_Z year ++ ": **"
              ++ str_nat (series_count names) ++ "**")
  | None => pass
  end.

Definition block_count_item (question : string) (df : DataFrame) : outcome :=
  match Re.search re_how_many_item question with
  | Some m =>
      let item_query := strip (Re.group1 m 1) in
      let year := int (Re.group1 m 2) in
      item_mask <- item_or_description df item_query (Some false) ;;
      year_mask <- col_eq_num df "Year" year ;;
      sub <- select df (mask_and item_mask year_mask) ;;
      answer ("📦 Number of " ++ item_query ++ " purchased in " ++ str_Z year
              ++ ": **" ++ str_nat (nrows sub) ++ "**")
  | None => pass
  end.

Definition block_orders_supplier_year (question : string) (df : DataFrame)
  : outcome :=
  match Re.search re_orders_of_in question with
  | Some m =>
      let supplier_query := strip (Re.group1 m 1) in
      let year := int (Re.group1 m 2) in
      supplier_mask <-
        col_str_map_contains df "Supplier Name" lower supplier_query
                             (Some false) ;;
      year_mask <- col_eq_num df "Year" year ;;
      sub <- select df (mask_and supplier_mask year_mask) ;;
      answer ("📦 Orders from " ++ title supplier_query ++ " in " ++ str_Z year
              ++ ": **" ++ str_nat (nrows sub) ++ "**")
  | None => pass
  end.

(** *** Lines 529-546: total price of an item in a year.  This block
    writes the column [Item_Clean] into the table it is given, which is
    the memoized one. *)

Definition re_item_price : Re.regex := Eval vm_compute in
  pattern "total (?:price|spend|spending|amount) (?:of|for) ([\w\s\-]+) (?:purchased|bought)? (?:in|for|during) (\d{4})".

(** [df['Item_Clean'] = df['Item Name'].astype(str).str.lower().str.strip()] *)
Definition item_clean (names : list cell) : list cell :=
  str_map strip (str_map lower (astype_str names)).

(** Lines 541-546. *)
Definition report_item_price (item_query : string) (year : Z)
           (matched : DataFrame) : outcome :=
  if negb (df_empty matched) then
    prices <- col matched "Total Price" ;;
    total <- series_sum prices ;;
    names <- col matched "Item Name" ;;
    example_item <- mode0 names ;;
    answer ("💸 Total spending on " ++ item_query ++ " in "
            ++ str_Z year ++ ": **$" ++ fmt_Q total ++ "**" ++ nl
            ++ "(Example item: " ++ py_str example_item ++ ")")
  else answer ("⚠️ No spending found for '" ++ item_query ++ "' in "
               ++ str_Z year).

Definition block_item_price (question : string) (df : DataFrame)
  : DataFrame * outcome :=
  match Re.search re_item_price question with
  | Some m =>
      let item_query := lower (strip (Re.group1 m 1)) in
      let year := int (Re.group1 m 2) in
      match col df "Item Name" with
      | Raise e => (df, Raise e)
      | Ok names =>
          let df := set_column df "Item_Clean" (item_clean names) in
          (df,
           item_mask <- col_contains df "Item_Clean" item_query false
                                     (Some false) ;;
           year_mask <- col_eq_num df "Year" year ;;
           matched <- select df (mask_and item_mask year_mask) ;;
           report_item_price item_query year matched)
      end
  | None => (df, pass)
  end.

(** *** Lines 549-635: CalCard spend of a year; order lookup by number;
    most expensive item; orders between two months; suppliers by ZIP code;
    suppliers by qualification; most common delivery location *)

Definition re_calcard_1 : Re.regex := Eval vm_compute in
  pattern "(?:total|how much) (?:calcard|cal card) (?:spend|spending|amount) (?:in|for|during) (\d{4})".
Definition re_calcard_2 : Re.regex := Eval vm_compute in
  pattern "(?:what was|what's) (?:the)? (?:calcard|cal card) (?:spend|spending|amount) (?:in|for|during) (\d{4})".
Definition re_order_num : Re.regex := Eval vm_compute in
  pattern "(?:requisition|req|purchase order|po)[\s\-]?(?:number|no|#)?[\s\-]*([a-z0-9\-\.]+)".
Definition re_between : Re.regex := Eval vm_compute in
  pattern "orders? between (\w+)\s+(\d{4}) and (\w+)\s+(\d{4})".
Definition re_suppliers_zip : Re.regex := Eval vm_compute in
  pattern "(?:list|show|all) suppliers? (?:from|in|with) zip(?: code)?\s*(\d{5})".
Definition re_suppliers_qual : Re.regex := Eval vm_compute in
  pattern "suppliers? with ([\w\-]+) qualification".

(** Lines 554-556. *)
Definition report_calcard_year (year : Z) (selected : DataFrame) : outcome :=
  prices <- col selected "Total Price" ;;
  calcard_spending <- series_sum prices ;;
  answer ("💳 Total CalCard spending in " ++ str_Z year ++ ": **$"
          ++ fmt_Q calcard_spending ++ "**").

Definition block_calcard_year (question : string) (df : DataFrame) : outcome :=
  let m := match Re.search re_calcard_1 question with
           | Some m => Some m
           | None => Re.search re_calcard_2 question
           end in
  match m with
  | Some m =>
      let year := int (Re.group1 m 1) in
      yes <- calcard_yes df ;;
      year_mask <- col_eq_num df "Year" year ;;
      selected <- select df (mask_and yes year_mask) ;;
      report_calcard_year year selected
  | None => pass
  end.

(** [df[c].astype(str).str.upper()] *)
Definition col_upper (df : DataFrame) (c : string) : result (list cell) :=
  s <- col df c ;;
  Ok (str_map upper (astype_str s)).

(** Lines 575-586: the exact match on the requisition number, else on the
    purchase order number, else the first partial match. *)
Definition report_order_lookup (df : DataFrame) (search_num : string)
           (reqs pos : list cell) (matching_orders : DataFrame) : outcome :=
  if negb (df_empty matching_orders) then
    order <-
      (if mask_any (mask_eq_text search_num reqs) then
         sub <- select df (mask_eq_text search_num reqs) ;;
         iloc0 sub
       else if mask_any (mask_eq_text search_num pos) then
         sub <- select df (mask_eq_text search_num pos) ;;
         iloc0 sub
       else iloc0 matching_orders) ;;
    details <- format_order_details df order ;;
    answer details
  else answer ("⚠️ No order found with number " ++ search_num).

Definition block_order_lookup (question : string) (df : DataFrame) : outcome :=
  match Re.isearch re_order_num question with
  | Some order_num_match =>
      let search_num := upper (Re.group1 order_num_match 1) in
      reqs <- col_upper df "Requisition Number" ;;
      pos <- col_upper df "Purchase Order Number" ;;
      let exact := mask_or (mask_eq_text search_num reqs)
                           (mask_eq_text search_num pos) in
      m <- (if negb (mask_any exact) then
              a <- str_contains search_num false None reqs ;;
              b <- str_contains search_num false None pos ;;
              Ok (mask_or a b)
            else Ok exact) ;;
      matching_orders <- select df m ;;
      report_order_lookup df search_num reqs pos matching_orders
  | None => pass
  end.

(** The rows of [df] paired with the numbers of column [c]; missing
    values are left out, text and dates cannot be compared. *)
Fixpoint numbered (rs : list row) (c : string) : result (list (row * Q)) :=
  match rs with
  | [] => Ok []
  | r :: rs' =>
      rest <- numbered rs' c ;;
      match row_get r c with
      | NaN => Ok rest
      | Int z => Ok ((r, inject_Z z) :: rest)
      | Float q => Ok ((r, q) :: rest)
      | _ => Raise (TypeError "'>' not supported between instances")
      end
  end.

Definition block_most_expensive (question : string) (df : DataFrame)
  : outcome :=
  if contains "most expensive" question
     && (contains "item" question || contains "purchase" question) then
    if has_column df "Total Price" && has_column df "Item Name" then
      priced <- numbered (rows df) "Total Price" ;;
      best <- idxmax priced ;;
      let most_expensive := fst best in
      price <- format_currency (cell_val (row_get most_expensive "Total Price")) ;;
      name <- row_at df most_expensive "Supplier Name" ;;
      name <- cell_title name ;;
      d <- row_at df most_expensive "Purchase Date" ;;
      d <- (if negb (is_na d) then strftime fmt_mdy d else Ok "N/A") ;;
      answer ("💎 Most expensive item purchased: **"
              ++ py_str (row_get most_expensive "Item Name") ++ "**" ++ nl
              ++ "- Price: **" ++ price ++ "**" ++ nl
              ++ "- Supplier: " ++ name ++ nl
              ++ "- Date: " ++ d)
    else pass
  else pass.

(** [pd.to_datetime(f"{month} 1, {year}")]: free-form parsing of a month
    word and a year.  Modelled for month names and their three-letter
    forms, and for years a timestamp can hold; anything else raises. *)
Definition month_of_word (w : string) : option Z :=
  match index_of (lower w) (map lower month_name) with
  | Some (S i) => Some (Z.of_nat (S i))
  | _ =>
      match index_of (lower w)
                     ["jan"; "feb"; "mar"; "apr"; "may"; "jun"; "jul"; "aug";
                      "sep"; "oct"; "nov"; "dec"] with
      | Some i => Some (Z.of_nat (S i))
      | None => if String.eqb (lower w) "sept" then Some 9%Z else None
      end
  end.
Definition first_of_month (w y : string) : result date :=
  match month_of_word w with
  | Some m =>
      if ((1678 <=? int y) && (int y <=? 2261))%Z
      then Ok (MkDate (int y) m 1)
      else Raise (ValueError "Out of bounds nanosecond timestamp")
  | None => Raise (ValueError ("Unknown datetime string format, unable to parse: " ++ w))
  end.
(** [d + pd.offsets.MonthEnd(1)] for the first day of a month. *)
Definition month_end (d : date) : date :=
  MkDate (year d) (month d) (days_in_month (year d) (month d)).

(** [(df['Purchase Date'] >= a) & (df['Purchase Date'] <= b)] *)
Definition between_dates (a b : date) (s : list cell) : result mask :=
  map_result (fun c =>
    match c with
    | Date d => Ok (Some (date_leb a d && date_leb d b))
    | NaN => Ok (Some false)
    | _ => Raise (TypeError "Invalid comparison between dtype=object and Timestamp")
    end) s.

Definition block_between (question : string) (df : DataFrame) : outcome :=
  match Re.search re_between question with
  | Some m =>
      start_date <- first_of_month (Re.group1 m 1) (Re.group1 m 2) ;;
      end_first <- first_of_month (Re.group1 m 3) (Re.group1 m 4) ;;
      let end_date := month_end end_first in
      dates <- col df "Purchase Date" ;;
      msk <- between_dates start_date end_date dates ;;
      sub <- select df msk ;;
      answer ("📅 Orders between " ++ fmt_by start_date ++ " and "
              ++ fmt_by end_date ++ ": **" ++ str_nat (nrows sub) ++ "**")
  | None => pass
  end.

(** The listing of at most fifty suppliers, with the count shown. *)
Definition fifty (suppliers : list cell) : string :=
  join nl (map (fun s => "- " ++ title (py_str s)) (firstn 50 suppliers))
  ++ nl ++ nl ++ "(Showing " ++ str_nat (Nat.min 50 (length suppliers))
  ++ " of " ++ str_nat (length suppliers) ++ " total suppliers)".

Definition block_suppliers_zip (question : string) (df : DataFrame) : outcome :=
  match Re.search re_suppliers_zip question with
  | Some m =>
      let zip_code := Re.group1 m 1 in
      msk <- col_str_contains df "Supplier Zip Code" zip_code false ;;
      sub <- select df msk ;;
      names <- col sub "Supplier Name" ;;
      match unique names with
      | [] => answer ("⚠️ No suppliers found in ZIP code " ++ zip_code)
      | suppliers =>
          answer ("🏢 Suppliers from ZIP " ++ zip_code ++ ":" ++ nl ++ nl
                  ++ fifty suppliers)
      end
  | None => pass
  end.

Definition block_suppliers_qual (question : string) (df : DataFrame) : outcome :=
  match Re.search re_suppliers_qual question with
  | Some m =>
      let qual := upper (Re.group1 m 1) in
      msk <- col_contains df "Supplier Qualifications" qual false (Some false) ;;
      sub <- select df msk ;;
      names <- col sub "Supplier Name" ;;
      match unique names with
      | [] => answer ("⚠️ No suppliers found with " ++ qual ++ " qualification")
      | suppliers =>
          answer ("🏢 Suppliers with " ++ qual ++ " qualification:" ++ nl ++ nl
                  ++ fifty suppliers)
      end
  | None => pass
  end.

(** [s.value_counts().idxmax()] and [s.value_counts().max()] *)
Definition most_common (s : list cell) : result (cell * nat) :=
  match value_counts s with
  | p :: _ => Ok p
  | [] => Raise (ValueError "attempt to get argmax of an empty sequence")
  end.

Definition block_common_location (question : string) (df : DataFrame)
  : outcome :=
  if contains "most common delivery location" question
     || contains "location with most orders" question then
    if has_column df "Location" then
      locations <- col df "Location" ;;
      top <- most_common locations ;;
      answer ("📍 Most common delivery location: **" ++ py_str (fst top)
              ++ "** (" ++ str_nat (snd top) ++ " orders)")
    else pass
  else pass.

(** *** Lines 640-678: total price of an item in a year; list of
    suppliers; total orders of a supplier *)

Definition re_item_price_2 : Re.regex := Eval vm_compute in
  pattern "total (?:price|spend|spending|amount) (?:of|for) ([\w\s\-]+) (?:in|for|during) (\d{4})".
Definition re_spend_on_in : Re.regex := Eval vm_compute in
  pattern "how much (?:was|did) (?:we|they) spend on ([\w\s\-]+) (?:in|for|during) (\d{4})".
Definition re_list_suppliers : Re.regex := Eval vm_compute in
  pattern "(?:list|show|name|all|give me) (?:the|of|all)? ?suppliers?".
Definition re_total_orders : Re.regex := Eval vm_compute in
  pattern "total orders? (?:of|from|by|for) ([\w\s\-]+)".
Definition re_total_orders_in : Re.regex := Eval vm_compute in
  pattern "total orders? (?:of|from|by|for) ([\w\s\-]+) (?:in|for|during) (\d{4})".

(** Lines 648-653. *)
Definition report_item_price_2 (item_query : string) (year : Z)
           (matched : DataFrame) : outcome :=
  prices <- col matched "Total Price" ;;
  total <- series_sum prices ;;
  if negb (df_empty matched) then
    names <- col matched "Item Name" ;;
    actual_name <- mode0 names ;;
    answer ("💸 Total spending on " ++ py_str actual_name ++ " in "
            ++ str_Z year ++ ": **$" ++ fmt_Q total ++ "**")
  else answer ("⚠️ No spending found for '" ++ item_query ++ "' in "
               ++ str_Z year).

Definition block_item_price_2 (question : string) (df : DataFrame) : outcome :=
  let m := match Re.search re_item_price_2 question with
           | Some m => Some m
           | None => Re.search re_spend_on_in question
           end in
  match m with
  | Some m =>
      let item_query := lower (strip (Re.group1 m 1)) in
      let year := int (Re.group1 m 2) in
      item_mask <- col_map_contains df "Item Name" lower item_query
                                    (Some false) ;;
      year_mask <- col_eq_num df "Year" year ;;
      matched <- select df (mask_and item_mask year_mask) ;;
      report_item_price_2 item_query year matched
  | None => pass
  end.

Definition block_list_suppliers (question : string) (df : DataFrame) : outcome :=
  match Re.search re_list_suppliers question with
  | Some _ =>
      if has_column df "Supplier Name" then
        names <- col df "Supplier Name" ;;
        names <- str_acc names ;;
        let suppliers := unique (str_map title names) in
        answer ("🏢 List of Suppliers:" ++ nl ++ nl
                ++ join nl (map (fun s => "- " ++ py_str s) (firstn 10 suppliers))
                ++ nl ++ nl ++ "(Showing 10 of " ++ str_nat (length suppliers)
                ++ " total suppliers)")
      else answer "⚠️ No 'Supplier Name' column in data."
  | None => pass
  end.

(** [df[df['Supplier Name'].str.lower().str.contains(q, na=False)]] *)
Definition supplier_lower_contains (df : DataFrame) (q : string)
  : result mask :=
  col_map_contains df "Supplier Name" lower q (Some false).
(** [df[df['Supplier Name'].str.contains(q, na=False)]] *)
Definition supplier_contains (df : DataFrame) (q : string) : result mask :=
  col_contains df "Supplier Name" q false (Some false).

Definition block_total_orders (question : string) (df : DataFrame) : outcome :=
  match Re.search re_total_orders question with
  | Some m =>
      let supplier_query := lower (strip (Re.group1 m 1)) in
      msk <- supplier_lower_contains df supplier_query ;;
      matched <- select df msk ;;
      answer ("📦 Total orders from " ++ title supplier_query ++ ": **"
              ++ str_nat (nrows matched) ++ "**")
  | None => pass
  end.

Definition block_total_orders_in (question : string) (df : DataFrame)
  : outcome :=
  match Re.search re_total_orders_in question with
  | Some m =>
      let supplier_query := lower (strip (Re.group1 m 1)) in
      let year := int (Re.group1 m 2) in
      msk <- supplier_lower_contains df supplier_query ;;
      year_mask <- col_eq_num df "Year" year ;;
      matched <- select df (mask_and msk year_mask) ;;
      answer ("📦 Total orders from " ++ title supplier_query ++ " in "
              ++ str_Z year ++ ": **" ++ str_nat (nrows matched) ++ "**")
  | None => pass
  end.

(** *** Lines 683-728: orders on a date; in a month; in several years; in
    one year; quarter with the highest spending of a year *)

Definition re_date : Re.regex := Eval vm_compute in
  pattern "(?:on|made on|placed on|received on)? ?(\w+)\s+(\d{1,2}),?\s+(\d{4})".
Definition re_month_year : Re.regex := Eval vm_compute in
  pattern "(?:in|for|from) (\w+) (\d{4})".
Definition re_years_20 : Re.regex := Eval vm_compute in
  pattern "\b(20\d{2})\b".
Definition re_single_year : Re.regex := Eval vm_compute in
  pattern "(?:how many|number of)? ?orders (?:were )?(?:placed|made|received)? ?(?:in|during|for)? ?(\d{4})".
Definition re_quarter_year : Re.regex := Eval vm_compute in
  pattern "quarter.*highest.*(?:in|for)? ?(\d{4})".

Definition block_date (question : string) (df : DataFrame) : outcome :=
  match Re.search re_date question with
  | Some m =>
      let month_name := Re.group1 m 1 in
      let day := int (Re.group1 m 2) in
      let year := int (Re.group1 m 3) in
      match month_str_to_number month_name with
      | Some (S mo) =>
          year_mask <- col_eq_num df "Year" year ;;
          month_mask <- col_eq_num df "Month" (Z.of_nat (S mo)) ;;
          dates <- col df "Purchase Date" ;;
          dates <- dt_acc dates ;;
          let day_mask := mask_eq_num day (map (dt_field Pandas.day) dates) in
          sub <- select df (mask_and (mask_and year_mask month_mask) day_mask) ;;
          answer ("📅 Total orders on " ++ capitalize month_name ++ " "
                  ++ str_Z day ++ ", " ++ str_Z year ++ ": **"
                  ++ str_nat (nrows sub) ++ "**")
      | _ => pass
      end
  | None => pass
  end.

Definition block_month_year (question : string) (df : DataFrame) : outcome :=
  match Re.search re_month_year question with
  | Some m =>
      let month_name := Re.group1 m 1 in
      let year := int (Re.group1 m 2) in
      match month_str_to_number month_name with
      | Some (S mo) =>
          year_mask <- col_eq_num df "Year" year ;;
          month_mask <- col_eq_num df "Month" (Z.of_nat (S mo)) ;;
          sub <- select df (mask_and year_mask month_mask) ;;
          answer ("📦 Total orders in " ++ capitalize month_name ++ " "
                  ++ str_Z year ++ ": **" ++ str_nat (nrows sub) ++ "**")
      | _ => pass
      end
  | None => pass
  end.

Definition block_multi_year (question : string) (df : DataFrame) : outcome :=
  let years := Re.findall1 re_years_20 question in
  if contains "order" question && (2 <=? length years)%nat then
    summary <- map_result (fun y =>
                 let y := int y in
                 sub <- in_year df y ;;
                 Ok ("📦 " ++ str_Z y ++ ": " ++ str_nat (nrows sub) ++ " orders"))
               years ;;
    answer ("📊 Total orders by year:" ++ nl ++ nl ++ join nl summary)
  else pass.

Definition block_single_year (question : string) (df : DataFrame) : outcome :=
  match Re.search re_single_year question with
  | Some m =>
      let year := int (Re.group1 m 1) in
      result <- in_year df year ;;
      answer ("📦 Total orders in " ++ str_Z year ++ ": **"
              ++ str_nat (nrows result) ++ "**")
  | None => pass
  end.

(** ["Q{max_q} (${spending[max_q]:,.2f})"] for the quarter that spent most. *)
Definition top_quarter (df : DataFrame) : result string :=
  spending <- groupby_sum df "Quarter" "Total Price" ;;
  best <- idxmax spending ;;
  Ok ("Q" ++ py_str (fst best) ++ " ($" ++ fmt_Q (snd best) ++ ")").

(** Lines 722-728. *)
Definition report_quarter_year (year : Z) (df_year : DataFrame) : outcome :=
  if df_empty df_year then
    answer ("⚠️ No data for year " ++ str_Z year ++ ".")
  else
    spending <- groupby_sum df_year "Quarter" "Total Price" ;;
    match spending with
    | [] => answer ("⚠️ No spending data for year " ++ str_Z year ++ ".")
    | _ =>
        best <- top_quarter df_year ;;
        answer ("💰 Quarter with highest spending in " ++ str_Z year
                ++ ": **" ++ best ++ "**")
    end.

Definition block_quarter_year (question : string) (df : DataFrame) : outcome :=
  match Re.search re_quarter_year question with
  | Some m =>
      let year := int (Re.group1 m 1) in
      df_year <- in_year df year ;;
      report_quarter_year year df_year
  | None => pass
  end.

(** *** Lines 731-813: orders by supplier ZIP, delivery ZIP,
    classification code, category; orders a supplier made; total spend by
    a supplier; orders by acquisition method or type *)

Definition re_orders_zip : Re.regex := Eval vm_compute in
  pattern "orders? from suppliers? in zip (\d{5})".
Definition re_delivered : Re.regex := Eval vm_compute in
  pattern "orders? delivered to (\d{5})".
Definition re_class_code : Re.regex := Eval vm_compute in
  pattern "classification code (\d+)".
Definition re_category : Re.regex := Eval vm_compute in
  pattern "(orders|purchases) (under|in|from|for) (.+?) (category|item|group)?\??$".
Definition re_orders_did : Re.regex := Eval vm_compute in
  pattern "how many orders did ([\w\s&\-\.]+) (make|place|have|do)\??".
Definition re_spend_by : Re.regex := Eval vm_compute in
  pattern "total (spend|spending|expenditure|amount) by ([\w\s&\-\.]+)".
Definition re_orders_using : Re.regex := Eval vm_compute in
  pattern "orders (?:using|used|with) ([\w\s\/\-]+)".
Definition re_method_words : Re.regex := Eval vm_compute in
  pattern "(method|type|acquisition)".

(** ["📦 <label>: **{len(matched)}**"] over
    [df[df[c].astype(str).str.contains(q, na=False)]], when column [c]
    exists. *)
Definition count_by_code (df : DataFrame) (c q label missing : string)
  : outcome :=
  if has_column df c then
    s <- col df c ;;
    msk <- str_contains q false (Some false) (astype_str s) ;;
    matched <- select df msk ;;
    answer ("📦 " ++ label ++ q ++ ": **" ++ str_nat (nrows matched) ++ "**")
  else answer missing.

Definition block_orders_zip (question : string) (df : DataFrame) : outcome :=
  match Re.search re_orders_zip question with
  | Some m =>
      count_by_code df "Supplier Zip Code" (Re.group1 m 1)
                    "Orders from suppliers in ZIP "
                    "⚠️ No supplier ZIP column found in data."
  | None => pass
  end.

Definition block_delivered (question : string) (df : DataFrame) : outcome :=
  match Re.search re_delivered question with
  | Some m =>
      count_by_code df "Location" (Re.group1 m 1) "Orders delivered to "
                    "⚠️ No delivery/location ZIP column found in data."
  | None => pass
  end.

Definition block_class_code (question : string) (df : DataFrame) : outcome :=
  match Re.search re_class_code question with
  | Some m =>
      count_by_code df "Classification Codes" (Re.group1 m 1)
                    "Orders with classification code "
                    "⚠️ No classification code column found in data."
  | None => pass
  end.

(** The loop of lines 770-775 over the four title columns: the matches
    gathered so far and whether any column matched. *)
Fixpoint gather_categories (df : DataFrame) (keyword : string)
         (cols : list string) (total_matches : DataFrame) (found : bool)
  : result (DataFrame * bool) :=
  match cols with
  | [] => Ok (total_matches, found)
  | c :: cols' =>
      if has_column df c then
        msk <- col_map_contains df c lower keyword (Some false) ;;
        matches <- select df msk ;;
        if negb (df_empty matches)
        then gather_categories df keyword cols' (concat total_matches matches)
                               true
        else gather_categories df keyword cols' total_matches found
      else gather_categories df keyword cols' total_matches found
  end.

Definition block_category (question : string) (df : DataFrame) : outcome :=
  match Re.search re_category question with
  | Some m =>
      let keyword := lower (strip (Re.group1 m 3)) in
      gathered <- gather_categories df keyword
                    ["Commodity Title"; "Class Title"; "Family Title";
                     "Segment Title"] empty_frame false ;;
      let '(total_matches, found) := gathered in
      let count := nrows (drop_duplicates total_matches) in
      if found && (0 <? count)%nat then
        answer ("📦 Total orders under '" ++ keyword ++ "' category: **"
                ++ str_nat count ++ "**")
      else answer ("❌ No orders found under the category '" ++ keyword ++ "'.")
  | None => pass
  end.

Definition block_orders_did (question : string) (df : DataFrame) : outcome :=
  match Re.search re_orders_did question with
  | Some m =>
      let supplier_query := lower (strip (Re.group1 m 1)) in
      msk <- supplier_contains df supplier_query ;;
      matched <- select df msk ;;
      answer ("📦 " ++ title supplier_query ++ " made **"
              ++ str_nat (nrows matched) ++ "** orders.")
  | None => pass
  end.

(** Lines 794-800 and 846-852: spend over the rows whose supplier name
    contains the query. *)
Definition report_supplier_spend (label : string) (supplier_query : string)
           (matched : DataFrame) : outcome :=
  prices <- col matched "Total Price" ;;
  total <- series_sum prices ;;
  if negb (df_empty matched) then
    names <- col matched "Supplier Name" ;;
    actual_name <- mode0 names ;;
    answer ("💸 " ++ label ++ py_str actual_name ++ ": **$" ++ fmt_Q total
            ++ "**")
  else answer ("⚠️ No spending found for supplier '" ++ supplier_query ++ "'").

Definition supplier_spend (label : string) (supplier_query : string)
           (df : DataFrame) : outcome :=
  msk <- supplier_contains df supplier_query ;;
  matched <- select df msk ;;
  report_supplier_spend label supplier_query matched.

Definition block_spend_by (question : string) (df : DataFrame) : outcome :=
  match Re.search re_spend_by question with
  | Some m =>
      supplier_spend "Total spend by " (lower (strip (Re.group1 m 2))) df
  | None => pass
  end.

Definition block_orders_using (question : string) (df : DataFrame) : outcome :=
  match Re.search re_orders_using question with
  | Some m =>
      let keyword := lower (strip (Re.group1 m 1)) in
      let keyword_cleaned := strip (Re.sub_delete re_method_words keyword) in
      a <- col_map_contains df "Acquisition Method" lower keyword_cleaned
                            (Some false) ;;
      result_method <- select df a ;;
      b <- col_map_contains df "Acquisition Type" lower keyword_cleaned
                            (Some false) ;;
      result_type <- select df b ;;
      let total := (nrows result_method + nrows result_type)%nat in
      if (0 <? total)%nat then
        answer ("⚙️ Total orders using **" ++ strip (Re.group1 m 1) ++ "**: **"
                ++ str_nat total ++ "**")
      else answer ("⚠️ No orders found using '" ++ strip (Re.group1 m 1) ++ "'")
  | None => pass
  end.

(** *** Lines 816-852: spending of a year; average monthly spending;
    quarter with the highest spending; total spending on a supplier *)

Definition re_spending_in : Re.regex := Eval vm_compute in
  pattern "(?:total|overall) spending in (\d{4})".
Definition re_average : Re.regex := Eval vm_compute in
  pattern "average monthly spending(?: in| of)? ([\d,\sand]+)".
Definition re_spending_on : Re.regex := Eval vm_compute in
  pattern "total spending on ([\w\s&\-\.]+)".

(** Lines 820-821. *)
Definition report_spending_in (year : Z) (result : DataFrame) : outcome :=
  prices <- col result "Total Price" ;;
  total <- series_sum prices ;;
  answer ("💸 Total spending in " ++ str_Z year ++ ": **$" ++ fmt_Q total
          ++ "**").

Definition block_spending_in (question : string) (df : DataFrame) : outcome :=
  match Re.search re_spending_in question with
  | Some m =>
      let year := int (Re.group1 m 1) in
      result <- in_year df year ;;
      report_spending_in year result
  | None => pass
  end.

(** Lines 828-835. *)
Definition report_average (years : list Z) (result : DataFrame) : outcome :=
  if df_empty result then
    answer ("⚠️ No records found for year(s): " ++ join ", " (map str_Z years))
  else
    response_lines <- map_result (fun y =>
                        year_data <- in_year result y ;;
                        prices <- col year_data "Total Price" ;;
                        total <- series_sum prices ;;
                        let avg := Qred (total / 12)%Q in
                        Ok ("📊 " ++ str_Z y ++ ": **$" ++ fmt_Q avg ++ "**"))
                      years ;;
    answer ("📈 Average Monthly Spending:" ++ nl ++ nl
            ++ join nl response_lines).

Definition block_average (question : string) (df : DataFrame) : outcome :=
  match Re.search re_average question with
  | Some m =>
      let year_text := Re.group1 m 1 in
      let years := map int (Re.findall0 re_4digits year_text) in
      ys <- col df "Year" ;;
      result <- select df (mask_isin years ys) ;;
      report_average years result
  | None => pass
  end.

Definition block_top_quarter (question : string) (df : DataFrame) : outcome :=
  if contains "quarter with" question && contains "highest" question then
    best <- top_quarter df ;;
    answer ("💰 Quarter with highest spending: **" ++ best ++ "**")
  else pass.

Definition block_spending_on (question : string) (df : DataFrame) : outcome :=
  match Re.search re_spending_on question with
  | Some m =>
      supplier_spend "Total spending on " (lower (strip (Re.group1 m 1))) df
  | None => pass
  end.

(** *** Lines 855-909: most frequent items; supplier with most orders;
    spending by supplier; most common class; top segments; location with
    most orders *)

Definition re_name_of_supplier : Re.regex := Eval vm_compute in
  pattern "name of (the )?supplier with (the )?(most|highest|largest|greatest|max(imum)?|biggest|top) number of orders".
Definition re_which_supplier : Re.regex := Eval vm_compute in
  pattern "which supplier had (the )?(most|highest|largest|greatest|max(imum)?|biggest|top) number of orders".
Definition re_who_supplier : Re.regex := Eval vm_compute in
  pattern "who (is|was) (the )?supplier with (the )?(most|highest|largest|greatest|max(imum)?|biggest|top) number of orders".
Definition re_supplier_with : Re.regex := Eval vm_compute in
  pattern "supplier with (the )?(most|highest|largest|greatest|max(imum)?|biggest|top) number of orders".

Definition matches (r : Re.regex) (question : string) : bool :=
  match Re.search r question with Some _ => true | None => false end.

(** ["<title>\n\n- {item} ({count})..."] over the [n] most frequent values
    of a column. *)
Definition top_values (df : DataFrame) (c : string) (n : nat) (heading : string)
  : outcome :=
  s <- col df c ;;
  answer (heading ++ nl ++ nl ++ join nl (count_lines (firstn n (value_counts s)))).

Definition block_frequent_items (question : string) (df : DataFrame) : outcome :=
  if contains "most frequent" question && contains "item" question then
    if has_column df "Item Name" then
      top_values df "Item Name" 5 "🛒 Top 5 most frequently purchased items:"
    else pass
  else pass.

Definition block_supplier_most_orders (question : string) (df : DataFrame)
  : outcome :=
  if (contains "supplier" question
      && any_in ["most orders"; "highest number of orders";
                 "largest number of orders"; "greatest number of orders";
                 "maximum number of orders"; "biggest number of orders";
                 "top number of orders"] question)
     || matches re_name_of_supplier question
     || matches re_which_supplier question
     || matches re_who_supplier question
     || matches re_supplier_with question then
    if has_column df "Supplier Name" then
      names <- col df "Supplier Name" ;;
      top <- most_common names ;;
      answer ("🏢 Supplier with most orders: **" ++ py_str (fst top) ++ "** ("
              ++ str_nat (snd top) ++ " orders)")
    else answer "⚠️ No 'Supplier Name' column in data."
  else pass.

Definition block_spending_by_supplier (question : string) (df : DataFrame)
  : outcome :=
  if contains "spending by supplier" question then
    sums <- groupby_sum df "Supplier Name" "Total Price" ;;
    answer ("🏢 Top 5 suppliers by total spending:" ++ nl ++ nl
            ++ join nl (spend_lines (firstn 5 (sort_desc sums))))
  else pass.

Definition block_common_class (question : string) (df : DataFrame) : outcome :=
  if contains "most common class" question then
    if has_column df "Class Title" then
      classes <- col df "Class Title" ;;
      top <- most_common classes ;;
      answer ("📚 Most common class: **" ++ py_str (fst top) ++ "** ("
              ++ str_nat (snd top) ++ " orders)")
    else pass
  else pass.

Definition block_top_segments (question : string) (df : DataFrame) : outcome :=
  if contains "top categories" question || contains "top segments" question
  then
    if has_column df "Segment Title" then
      top_values df "Segment Title" 5 "📦 Top 5 segments:"
    else pass
  else pass.

Definition block_location_most (question : string) (df : DataFrame) : outcome :=
  if contains "location with most orders" question then
    if has_column df "Location" then
      locations <- col df "Location" ;;
      top <- most_common locations ;;
      answer ("📍 Location with most orders: **" ++ py_str (fst top) ++ "** ("
              ++ str_nat (snd top) ++ " orders)")
    else pass
  else pass.

(** *** Lines 911-981: most bought items; spend on an item; orders in a
    segment; most expensive supplier; orders from a supplier; top items *)

Definition re_which_items : Re.regex := Eval vm_compute in
  pattern "(what|which) (items|item) (were|was)? ?(bought|purchased|ordered)? ?(the )?most".
Definition re_spent_on : Re.regex := Eval vm_compute in
  pattern "how much (did we|was)? ?(spend|spent) on ([\w\s&\-\.]+)".
Definition re_possessive : Re.regex := Eval vm_compute in pattern "'s$".
Definition re_plural : Re.regex := Eval vm_compute in pattern "s$".
Definition re_segment : Re.regex := Eval vm_compute in
  pattern "orders in (the )?([\w\s&\-\.]+) segment".
Definition re_expensive_supplier : Re.regex := Eval vm_compute in
  pattern "who (was|is) (the )?(most expensive|highest spending|most spending|greatest spending|largest spending) supplier".
Definition re_orders_from_in : Re.regex := Eval vm_compute in
  pattern "orders? (?:from|by|with|placed with|made by) ([\w\s&\-\.]+) in (\d{4})".
Definition re_how_many_from : Re.regex := Eval vm_compute in
  pattern "how many orders (from|by|with|placed with|made by) ([\w\s&\-\.]+)\??".
Definition re_top_items : Re.regex := Eval vm_compute in
  pattern "(top|show|list|give me|tell me|what are|which are)? ?(\d+)? ?(most|top)? ?(bought|purchased|ordered)? ?items".

Definition block_which_items (question : string) (df : DataFrame) : outcome :=
  match Re.search re_which_items question with
  | Some _ =>
      if has_column df "Item Name" then
        top_values df "Item Name" 5 "🛒 Top 5 most frequently bought items:"
      else answer "⚠️ No 'Item Name' column in data."
  | None => pass
  end.

(** Lines 928-933. *)
Definition report_spent_on (item_query : string) (matched : DataFrame)
  : outcome :=
  prices <- col matched "Total Price" ;;
  total <- series_sum prices ;;
  if negb (df_empty matched) then
    names <- col matched "Item Name" ;;
    actual_name <- mode0 names ;;
    answer ("💸 Total spending on " ++ py_str actual_name ++ ": **$"
            ++ fmt_Q total ++ "**")
  else answer ("⚠️ No spending found for item '" ++ item_query ++ "'").

Definition block_spent_on (question : string) (df : DataFrame) : outcome :=
  match Re.search re_spent_on question with
  | Some m =>
      let item_query := lower (strip (Re.group1 m 3)) in
      let item_query := Re.sub_delete re_possessive item_query in
      let item_query := Re.sub_delete re_plural item_query in
      let item_query := strip item_query in
      if has_column df "Item Name" then
        msk <- col_map_contains df "Item Name" lower item_query (Some false) ;;
        matched <- select df msk ;;
        report_spent_on item_query matched
      else answer "⚠️ No 'Item Name' column in data."
  | None => pass
  end.

Definition block_segment (question : string) (df : DataFrame) : outcome :=
  match Re.search re_segment question with
  | Some m =>
      let segment_query := lower (strip (Re.group1 m 2)) in
      if has_column df "Segment Title" then
        msk <- col_map_contains df "Segment Title" lower segment_query
                                (Some false) ;;
        matched <- select df msk ;;
        answer ("📦 Orders in the '" ++ segment_query ++ "' segment: **"
                ++ str_nat (nrows matched) ++ "**")
      else answer "⚠️ No 'Segment Title' column in data."
  | None => pass
  end.

Definition block_expensive_supplier (question : string) (df : DataFrame)
  : outcome :=
  if (contains "supplier" question
      && any_in ["most expensive"; "highest spending"; "most spending";
                 "greatest spending"; "largest spending"] question)
     || matches re_expensive_supplier question then
    if has_column df "Supplier Name" then
      supplier_spending <- groupby_sum df "Supplier Name" "Total Price" ;;
      best <- idxmax supplier_spending ;;
      answer ("💸 Most expensive supplier: **" ++ py_str (fst best) ++ "** ($"
              ++ fmt_Q (snd best) ++ ")")
    else answer "⚠️ No 'Supplier Name' column in data."
  else pass.

Definition block_orders_from_in (question : string) (df : DataFrame) : outcome :=
  match Re.search re_orders_from_in question with
  | Some m =>
      let supplier_query := lower (strip (Re.group1 m 1)) in
      let year := int (Re.group1 m 2) in
      msk <- supplier_contains df supplier_query ;;
      year_mask <- col_eq_num df "Year" year ;;
      matched <- select df (mask_and msk year_mask) ;;
      answer ("📦 Orders from " ++ title supplier_query ++ " in " ++ str_Z year
              ++ ": **" ++ str_nat (nrows matched) ++ "**")
  | None => pass
  end.

Definition block_how_many_from (question : string) (df : DataFrame) : outcome :=
  match Re.search re_how_many_from question with
  | Some m =>
      let supplier_query := lower (strip (Re.group1 m 2)) in
      msk <- supplier_contains df supplier_query ;;
      matched <- select df msk ;;
      answer ("📦 Orders from " ++ title supplier_query ++ ": **"
              ++ str_nat (nrows matched) ++ "**")
  | None => pass
  end.

Definition block_top_items (question : string) (df : DataFrame) : outcome :=
  match Re.search re_top_items question with
  | Some m =>
      let n := match Re.group m 2 with
               | Some n => N_of_digits (chars n)
               | None => 10%N
               end in
      if has_column df "Item Name" then
        top_values df "Item Name" (N.to_nat n)
                   ("🛒 Top " ++ str_N n ++ " most bought items:")
      else answer "⚠️ No 'Item Name' column in data."
  | None => pass
  end.

(** *** Lines 984-992: the fallback *)

Definition suggestions : list string :=
  [ "Try asking about orders in a specific year or quarter";
    "Ask about spending by supplier or department";
    "Query about most frequently purchased items";
    "Ask 'Which supplier had the most orders?'";
    "Try 'What was the total spending in 2014?'" ].

Definition fallback : string :=
  "❌ I didn't understand your question. Try one of these:" ++ nl ++ nl ++ "- "
  ++ join (nl ++ "- ") (firstn 3 suggestions).

(** ** [handle_question] *)

(** Blocks in the order of the source; the first that answers or raises
    decides. *)
Fixpoint first_outcome (blocks : list (string -> DataFrame -> outcome))
         (question : string) (df : DataFrame) : outcome :=
  match blocks with
  | [] => pass
  | b :: blocks' =>
      match b question df with
      | Ok None => first_outcome blocks' question df
      | decided => decided
      end
  end.

(** Lines 118-526. *)
Definition blocks_before_write : list (string -> DataFrame -> outcome) :=
  [ block_zip_method; block_top_n; block_classification; block_items_by_type;
    block_qualification; block_po_item; block_count_by_method;
    block_classification_2; block_spend_by_fy; block_calcard_fy; block_lpa;
    block_methods_in_year; block_requisition; block_orders_multi_year;
    block_quantity; block_items_ordered; block_count_item;
    block_orders_supplier_year ].

(** Lines 549-981. *)
Definition blocks_after_write : list (string -> DataFrame -> outcome) :=
  [ block_calcard_year; block_order_lookup; block_most_expensive;
    block_between; block_suppliers_zip; block_suppliers_qual;
    block_common_location; block_item_price_2; block_list_suppliers;
    block_total_orders; block_total_orders_in; block_date; block_month_year;
    block_multi_year; block_single_year; block_quarter_year; block_orders_zip;
    block_delivered; block_class_code; block_category; block_orders_did;
    block_spend_by; block_orders_using; block_spending_in; block_average;
    block_top_quarter; block_spending_on; block_frequent_items;
    block_supplier_most_orders; block_spending_by_supplier;
    block_common_class; block_top_segments; block_location_most;
    block_which_items; block_spent_on; block_segment;
    block_expensive_supplier; block_orders_from_in; block_how_many_from;
    block_top_items ].

Definition could_not_load : string :=
  "⚠️ Could not load data. Please check database connection.".

(** The body of [handle_question] (lines 111-992) on the table
    [load_procurement_data] returned: the table as the call leaves it, and
    the answer or the exception. *)
Definition handle_question_on (question : string) (df : DataFrame)
  : DataFrame * result string :=
  if df_empty df then (df, Ok could_not_load)
  else
    let question := lower question in
    match first_outcome blocks_before_write question df with
    | Raise e => (df, Raise e)
    | Ok (Some s) => (df, Ok s)
    | Ok None =>
        let '(df, o) := block_item_price question df in
        match o with
        | Raise e => (df, Raise e)
        | Ok (Some s) => (df, Ok s)
        | Ok None =>
            match first_outcome blocks_after_write question df with
            | Raise e => (df, Raise e)
            | Ok (Some s) => (df, Ok s)
            | Ok None => (df, Ok fallback)
            end
        end
    end.

(** ** The process: the store it reads and the memoized table *)

(** [cache] is what [lru_cache(maxsize=1)] holds for
    [load_procurement_data]: nothing before the first call, then the one
    table object every later call returns. *)
Record process : Type := MkProcess {
  store : option (list row);
  cache : option DataFrame
}.

(** A call of the memoized [load_procurement_data()]. *)
Definition load_cached (p : process) : DataFrame * process :=
  match cache p with
  | Some df => (df, p)
  | None =>
      let df := load_procurement_data (store p) in
      (df, MkProcess (store p) (Some df))
  end.

(** Lines 109-992.  What the blocks write, they write into the memoized
    object. *)
Definition handle_question (question : string) (p : process)
  : result string * process :=
  let '(df, p) := load_cached p in
  let '(df, r) := handle_question_on question df in
  (r, MkProcess (store p) (Some df)).

(** Lines 995-1001. *)
Definition error_marker : string := "❌ Error: ".

Definition chatbot_response (message : string)
           (history : list (string * string)) (p : process)
  : string * process :=
  match handle_question message p with
  | (Ok s, p) => (s, p)
  | (Raise e, p) => (error_marker ++ exn_str e, p)
  end.

End Program.

End Demo5.

(* ================================================================== *)
(** * Example tables                                                   *)
(* ================================================================== *)

Module Examples.
Import PyStr Py Fmt Pandas Demo5.

(** The table of the specification's example scenario. *)
Definition scenario_row (supplier item : string) (total yr : Z) : row :=
  [ ("Supplier Name", Str supplier); ("Item Name", Str item);
    ("Total Price", Int total); ("Year", Int yr) ].
Definition scenario : DataFrame :=
  MkFrame ["Supplier Name"; "Item Name"; "Total Price"; "Year"]
          [ scenario_row "Acme" "Paper" 100 2014;
            scenario_row "Acme" "Pens" 50 2014;
            scenario_row "Globex" "Paper" 200 2013 ].

(** A store with every field the blocks read. *)
Definition order_record (req po supplier item d fy : string) (code qty : Z)
           (price : string) : row :=
  [ ("Requisition Number", Str req); ("Purchase Order Number", Str po);
    ("Supplier Name", Str supplier); ("Supplier Code", Int code);
    ("Supplier Zip Code", Int 95814); ("Supplier Qualifications", Str "sb");
    ("Item Name", Str item); ("Item Description", Str (item ++ ", boxed"));
    ("Quantity", Int qty); ("Unit Price", Str price); ("Total Price", Str price);
    ("Purchase Date", Str d); ("Department Name", Str "Corrections");
    ("Location", Str "95814"); ("Acquisition Method", Str "Informal Competitive");
    ("Acquisition Type", Str "NON-IT Goods");
    ("Sub-Acquisition Method", NaN); ("Fiscal Year", Str fy);
    ("CalCard", Str "NO"); ("LPA Number", NaN);
    ("Classification Codes", Str "44121600");
    ("Normalized UNSPSC", Int 44121600);
    ("Segment Title", Str "Office Equipment");
    ("Family Title", Str "Office supplies");
    ("Class Title", Str "Desk supplies");
    ("Commodity Title", Str "Paper") ].

Definition orders_store : option (list row) :=
  Some [ order_record "REQ0001" "4500001" "Acme Paper Co" "Paper" "07/15/2014"
                      "2014-2015" 1001 10 "$100.00";
         order_record "REQ0002" "4500002" "Acme Paper Co" "Pens" "08/01/2014"
                      "2014-2015" 1001 5 "$50.00";
         order_record "REQ0003" "4500003" "Globex" "Paper" "03/09/2013"
                      "2012-2013" 2002 20 "$200.00" ].

Definition orders : DataFrame :=
  Eval vm_compute in load_procurement_data orders_store.

End Examples.

(* ================================================================== *)
(** * The notions the statements are phrased with *)
(* ================================================================== *)

Module Notions.
Import PyStr Py Fmt Pandas Demo5 Examples.

Section WithSort.
Context {np : Numpy}.

(** One of the ten digit characters. *)
Definition plain_digit (c : ascii) : Prop :=
  exists d, (d < 10)%N /\ c = digit_char d.

Definition read (acc : N) (ds : list ascii) : N :=
  fold_left (fun a c => (a * 10 + digit_val c)%N) ds acc.

Definition comma : ascii := ","%char.
Definition not_comma (c : ascii) : bool := negb (Ascii.eqb c comma).

(** The text [fmt_2f] prints for a finite number whose hundredths round
    to [c], without the separators. *)
Definition plain_amount (neg : bool) (c : N) : list ascii :=
  ((if neg then ["-"%char] else [])
   ++ digits_of_N (c / 100) ++ "."%char :: two_digits (c mod 100))%list.

(** The inputs the [except] clause or the [isna] test sends to the zero
    display: missing values, text that [float] rejects, and objects that
    are no number at all. *)
Definition missing_or_invalid (v : pyval) : bool :=
  match v with
  | VNone => true
  | VNum FNan => true
  | VNum _ => false
  | VInt _ => false
  | VStr s =>
      match float_of_string (strip_currency s) with
      | Some _ => false
      | None => true
      end
  | VBytes s =>
      match float_of_bytes s with
      | Some _ => false
      | None => true
      end
  | VOther => true
  end.

(** ** binary64 numbers among the rationals *)

Definition qN (n : N) : Q := inject_Z (Z.of_N n).
Definition qfrac (n : N) (d : positive) : Q := Z.of_N n # d.

(** The grid of binary64: the multiples of a power of two that 53 bits
    can hold, the exponents stopping at -1074. *)
Definition on_grid (y : Q) : Prop :=
  exists (m : N) (e : Z),
    (-1074 <= e)%Z /\ (qN m <= 2 ^ 53)%Q /\ (y == qN m * 2 ^ e)%Q.

(** The exponent and the significand [round_b64] picks for [n/d], and
    the value they stand for. *)
Definition rexp (n : N) (d : positive) : Z :=
  Z.max (ilog2 n d - 52) (-1074).
Definition rmant (n : N) (d : positive) : N :=
  round_half_even (fst (scale2 n d (rexp n d))) (snd (scale2 n d (rexp n d))).
Definition rval (n : N) (d : positive) : Q :=
  (qN (rmant n d) * 2 ^ rexp n d)%Q.

(** The magnitude of a finite binary64 number. *)
Definition b64_value (q : Q) : Prop := on_grid q /\ (q < 2 ^ 1024)%Q.

Definition b64 (x : pyfloat) : Prop :=
  match x with
  | FFin _ num den => b64_value (qfrac num den)
  | _ => True
  end.

(** [x] is a float Python can hold: rounding to binary64 keeps its
    value. *)
Definition is_binary64 (x : pyfloat) : bool :=
  match x with
  | FFin neg num den =>
      match round_b64 neg num den with
      | FFin _ num' den' => (num * Npos den' =? num' * Npos den)%N
      | _ => false
      end
  | _ => true
  end.

(** A value of Python: its float, if it is one, is a binary64 number. *)
Definition python_value (v : pyval) : bool :=
  match v with
  | VNum x => is_binary64 x
  | _ => true
  end.

(** An int that rounds to a finite binary64 number: its magnitude is
    below the midpoint of the largest of them, [2^1024 - 2^971], and
    [2^1024]. *)
Definition int_in_range (z : Z) : bool :=
  (Z.abs z <? 2 ^ 1024 - 2 ^ 970)%Z.

Definition int_beyond_range (v : pyval) : bool :=
  match v with
  | VInt z => negb (int_in_range z)
  | _ => false
  end.

(** The derived columns of a row agree with its purchase date, which lies
    in the supported window; [raw] is the text the date was parsed from. *)
Definition dated (raw : cell) (r : row) : Prop :=
  exists d,
    to_datetime raw = Date d
    /\ row_get r "Purchase Date" = Date d
    /\ row_get r "Year" = Int (year d)
    /\ row_get r "Month" = Int (month d)
    /\ row_get r "Quarter" = Int (quarter d)
    /\ (2012 <= year d <= 2015)%Z.

Definition from_record (data : list row) (r : row) : Prop :=
  exists r0, In r0 data /\ dated (row_get r0 "Purchase Date") r.

(** A store of three records: the first is kept, the second lies outside
    the window, the third has no valid date. *)
Definition sample_record (supplier d price : string) : row :=
  [ ("Purchase Date", Str d); ("Supplier Name", Str supplier);
    ("Total Price", Str price); ("Unit Price", Str price);
    ("Supplier Zip Code", Int 95814); ("Supplier Qualifications", NaN);
    ("CalCard", Str "yes ") ].
Definition sample_store : option (list row) :=
  Some [ sample_record " Acme " "07/15/2014" "$1,250.50";
         sample_record "Globex" "1/5/2011" "12";
         sample_record "Initech" "02/30/2013" "n/a" ].

Definition sample_loaded_row : row :=
  [ ("Purchase Date", Date (MkDate 2014 7 15)); ("Supplier Name", Str "acme");
    ("Total Price", Float (2501 # 2)); ("Unit Price", Float (2501 # 2));
    ("Supplier Zip Code", Str "95814"); ("Supplier Qualifications", Str "NAN");
    ("CalCard", Str "YES"); ("Year", Int 2014); ("Month", Int 7);
    ("Quarter", Int 3) ].

(** [b] holds the same rows as [a] and the same columns, but for column
    [c]. *)
Definition same_except (c : string) (a b : DataFrame) : Prop :=
  Forall2 (fun r r' => forall c', c' <> c -> row_get r' c' = row_get r c')
          (rows a) (rows b)
  /\ forall c', c' <> c -> has_column b c' = has_column a c'.

Definition digit_chars : list ascii :=
  map digit_char [0; 1; 2; 3; 4; 5; 6; 7; 8; 9]%N.

(** The ten thousand four-digit strings. *)
Definition year_strings : list string :=
  flat_map (fun a =>
    flat_map (fun b =>
      flat_map (fun c =>
        map (fun d => text [a; b; c; d]) digit_chars)
      digit_chars)
    digit_chars)
  digit_chars.

Definition year_question (y : string) : string := "orders in " ++ y.

Definition is_none {A : Type} (o : option A) : bool :=
  match o with None => true | Some _ => false end.

(** Patterns and phrases tested before the single-year block. *)
Definition silent_patterns : list Re.regex :=
  [ re_spend_by_fy; re_lpa; re_requisition; re_quantity_of; re_how_many_were;
    re_items_ordered; re_how_many_item; re_orders_of_in; re_item_price;
    re_calcard_1; re_calcard_2; re_between; re_suppliers_zip;
    re_suppliers_qual; re_item_price_2; re_spend_on_in; re_list_suppliers;
    re_total_orders; re_total_orders_in; re_date; re_month_year ].

Definition silent_phrases : list string :=
  [ "purchases delivered to zip"; "purchases in zip"; "orders delivered to";
    "purchases used the"; "top"; "supplier code";
    "acquisition type had the highest spend";
    "most frequently purchased items"; "normalized unspsc for";
    "transactions with sub-acquisition method";
    "segment and family classification"; "how many items of";
    "top three suppliers based on total spend";
    "total spend for the department"; "purchases linked to location";
    "total price for all purchases under supplier code";
    "list all items purchased under the acquisition type";
    "purchases from suppliers with the qualification";
    "quantity and unit price for the item";
    "how many purchases were made using the acquisition method";
    "segment and family classification does the"; "calcard";
    "acquisition methods"; "total orders from"; "most expensive";
    "most common delivery location"; "location with most orders" ].

(** Everything before the single-year block leaves the question alone,
    and that block reads the year. *)
Definition routed_to_single_year (y : string) : bool :=
  let q := year_question y in
  String.eqb (lower q) q
  && forallb (fun r => is_none (Re.search r q)) silent_patterns
  && is_none (Re.isearch re_order_num q)
  && forallb (fun k => negb (contains k q)) silent_phrases
  && (length (Re.findall1 re_years_20 q) <? 2)%nat
  && match Re.search re_single_year q with
     | Some m => String.eqb (Re.group1 m 1) y
     | None => false
     end.

(** What the single-year block answers (lines 711-715). *)
Definition single_year_answer (y : string) (df : DataFrame) : result string :=
  result <- in_year df (int y) ;;
  Ok ("📦 Total orders in " ++ str_Z (int y) ++ ": **"
      ++ str_nat (nrows result) ++ "**").

(** [df[df['Year'] == z]] on a table that has the column. *)
Definition rows_of_year (z : Z) (df : DataFrame) : list row :=
  filter (fun r => eq_num z (row_get r "Year")) (rows df).

Definition leb_cell (a b : cell) : Prop := cell_leb a b = true.

(** [a] is listed before [b]: its sum is larger, or the sums are equal
    and its key comes first. *)
Definition ranked_before (a b : cell * Q) : Prop :=
  (snd b < snd a)%Q \/ ((snd a == snd b)%Q /\ leb_cell (fst a) (fst b)).

Definition sum_desc (a b : cell * Q) : Prop := (snd b <= snd a)%Q.

Definition by_sum (a b : cell * Q) : bool := Qle_bool (snd b) (snd a).

(** The grouped sums as the specification words the tie rule: groups in
    the order their suppliers are first met in the table. *)
Definition groupby_sum_first_met (df : DataFrame) (by_ val : string)
  : result (list (cell * Q)) :=
  keys <- col df by_ ;;
  vals <- col df val ;;
  map_result (fun k => s <- group_sum keys vals k ;; Ok (k, s))
             (unique (dropna keys)).

Definition top_suppliers_first_met (n : nat) (df : DataFrame)
  : result (list (cell * Q)) :=
  sums <- groupby_sum_first_met df "Supplier Name" "Total Price" ;;
  Ok (nlargest n sums).

(** Two suppliers with equal spend; [zeta] is met first. *)
Definition tied : DataFrame :=
  MkFrame ["Supplier Name"; "Item Name"; "Total Price"; "Year"]
          [ scenario_row "zeta" "Paper" 100 2014;
            scenario_row "alpha" "Pens" 100 2014 ].

(** Four suppliers, three of them with equal spend. *)
Definition tied_four : DataFrame :=
  MkFrame ["Supplier Name"; "Item Name"; "Total Price"; "Year"]
          [ scenario_row "zeta" "Paper" 100 2014;
            scenario_row "alpha" "Pens" 100 2014;
            scenario_row "gamma" "Ink" 100 2014;
            scenario_row "beta" "Paper" 50 2014 ].

(** The answer the chat entry point gives when [df] is the memoized
    table. *)
Definition ask (question : string) (df : DataFrame) : string :=
  fst (chatbot_response question [] (MkProcess None (Some df))).

(** The rows of [scenario] for 2099: none. *)
Definition nothing_selected : DataFrame := MkFrame (columns scenario) [].

End WithSort.

End Notions.

(* ================================================================== *)
(** * Sorting                                                          *)
(* ================================================================== *)

Module SortFacts.
Import Pandas.

(** ** Insertion sort *)

Section InsertionSort.
Variable A : Type.
Variable before : A -> A -> bool.

Lemma insert_perm (x : A) (l : list A) :
  Permutation (insert before x l) (x :: l).
Proof.
  induction l as [|y l IH]; simpl; [reflexivity|].
  destruct (before x y); [reflexivity|].
  rewrite IH. apply perm_swap.
Qed.

Lemma stable_sort_perm (l : list A) : Permutation (stable_sort before l) l.
Proof.
  induction l as [|x l IH]; simpl; [reflexivity|].
  rewrite insert_perm. now constructor.
Qed.

Lemma stable_sort_length (l : list A) :
  length (stable_sort before l) = length l.
Proof. apply Permutation_length, stable_sort_perm. Qed.

Variable R : A -> A -> Prop.

(** Inserting [x] keeps a list sorted for [R] when [x] relates to what
    it stops before, to what it passes, and to what follows the place
    it stops at. *)
Lemma insert_sorted (x : A) (l : list A) :
  StronglySorted R l ->
  (forall y, In y l -> before x y = true -> R x y) ->
  (forall y, In y l -> before x y = false -> R y x) ->
  (forall y z, In y l -> In z l -> before x y = true -> R y z -> R x z) ->
  StronglySorted R (insert before x l).
Proof.
  induction l as [|y l IH]; intros Hs H1 H2 H3; simpl.
  - repeat constructor.
  - inversion Hs as [|? ? Hs' Hy]; subst.
    destruct (before x y) eqn:E.
    + constructor; [assumption|].
      constructor; [apply H1; [now left | assumption]|].
      rewrite Forall_forall in *. intros z Hz.
      apply (H3 y z); simpl; auto.
    + constructor.
      * apply IH; [assumption| | |]; intros; simpl in *; eauto.
      * rewrite Forall_forall in *. intros z Hz.
        apply (Permutation_in _ (insert_perm x l)) in Hz.
        destruct Hz as [<-|Hz]; [apply H2; [now left | assumption]|auto].
Qed.
End InsertionSort.

Lemma firstn_sorted {A : Type} (R : A -> A -> Prop) (n : nat) (l : list A) :
  StronglySorted R l -> StronglySorted R (firstn n l).
Proof.
  intros Hs. revert n. induction Hs as [|x l Hs IH Hx]; intros [|n]; simpl;
    try constructor; auto.
  rewrite Forall_forall in *. intros y Hy. apply Hx.
  rewrite <- (firstn_skipn n l). apply in_or_app. now left.
Qed.

(** ** Sorts in descending order of a key *)

Section ByKey.
Variable A : Type.
Variable key : A -> Q.
Variable before : A -> A -> bool.
Hypothesis before_ge : forall x y, before x y = true -> (key y <= key x)%Q.
Hypothesis behind_le : forall x y, before x y = false -> (key x <= key y)%Q.

Lemma sort_by_key_sorted (l : list A) :
  StronglySorted (fun a b => (key b <= key a)%Q) (stable_sort before l).
Proof.
  induction l as [|x l IH]; [constructor|].
  cbn [stable_sort fold_right]. apply insert_sorted; [exact IH| | |].
  - intros y _ H. now apply before_ge.
  - intros y _ H. now apply behind_le.
  - intros y z _ _ H1 H2. apply before_ge in H1.
    eapply Qle_trans; eassumption.
Qed.
End ByKey.

(** Equal values keep the order of the series. *)
Definition ge_key {A : Type} (key : A -> Q) (a b : A) : bool :=
  Qle_bool (key b) (key a).
(** Equal values come out in the reverse of that order. *)
Definition gt_key {A : Type} (key : A -> Q) (a b : A) : bool :=
  negb (Qle_bool (key a) (key b)).

Lemma ge_key_sorted {A : Type} (key : A -> Q) (l : list A) :
  StronglySorted (fun a b => (key b <= key a)%Q) (stable_sort (ge_key key) l).
Proof.
  apply sort_by_key_sorted; unfold ge_key; intros x y H.
  - now apply Qle_bool_iff.
  - apply Qlt_le_weak, Qnot_le_lt. intros Hle.
    apply Qle_bool_iff in Hle. congruence.
Qed.

Lemma gt_key_sorted {A : Type} (key : A -> Q) (l : list A) :
  StronglySorted (fun a b => (key b <= key a)%Q) (stable_sort (gt_key key) l).
Proof.
  apply sort_by_key_sorted; unfold gt_key; intros x y H.
  - apply negb_true_iff in H. apply Qlt_le_weak, Qnot_le_lt. intros Hle.
    apply Qle_bool_iff in Hle. congruence.
  - apply negb_false_iff in H. now apply Qle_bool_iff.
Qed.

(** Two sorts [sort_values] may be: the stable one, and one that
    reverses the entries of equal value. *)
Definition stable_numpy : Numpy :=
  {| sort_values_desc := fun A key l => stable_sort (ge_key key) l;
     sort_values_desc_perm := fun A key l => stable_sort_perm (ge_key key) l;
     sort_values_desc_sorted := fun A key l => ge_key_sorted key l |}.

Definition reversing_numpy : Numpy :=
  {| sort_values_desc := fun A key l => stable_sort (gt_key key) l;
     sort_values_desc_perm := fun A key l => stable_sort_perm (gt_key key) l;
     sort_values_desc_sorted := fun A key l => gt_key_sorted key l |}.

(** ** Any sort *)

Section AnySort.
Context {np : Numpy}.
Variable A : Type.
Variable key : A -> Q.

Lemma sort_values_desc_nil : sort_values_desc key [] = [].
Proof. apply Permutation_nil, Permutation_sym, sort_values_desc_perm. Qed.

Lemma sort_values_desc_length (l : list A) :
  length (sort_values_desc key l) = length l.
Proof. apply Permutation_length, sort_values_desc_perm. Qed.

Lemma sort_values_desc_one (x : A) : sort_values_desc key [x] = [x].
Proof.
  apply Permutation_length_1_inv, Permutation_sym, sort_values_desc_perm.
Qed.
End AnySort.

Section Largest.
Context {np : Numpy}.

(** [nlargest] by the length of the series. *)
Lemma nlargest_cases {K : Type} (n : nat) (s : list (K * Q)) :
  (n = 0 /\ nlargest n s = [])
  \/ (0 < n /\ length s <= n /\ nlargest n s = firstn n (sort_desc s))
  \/ (0 < n < length s
      /\ nlargest n s
         = firstn n (stable_sort (fun a b => Qle_bool (snd b) (snd a)) s)).
Proof.
  unfold nlargest.
  destruct (Nat.eqb_spec n 0) as [->|Hn]; [now left|]. right.
  destruct (Nat.leb_spec (length s) n) as [Hl|Hl].
  - left. repeat split; [lia | exact Hl].
  - right. split; [lia | reflexivity].
Qed.

Lemma nlargest_nil {K : Type} (n : nat) : nlargest n (@nil (K * Q)) = [].
Proof.
  destruct (nlargest_cases n (@nil (K * Q)))
    as [(_ & ->)|[(_ & _ & ->)|(H & _)]]; [reflexivity | | simpl in H; lia].
  unfold sort_desc. rewrite sort_values_desc_nil. apply firstn_nil.
Qed.
End Largest.

End SortFacts.

(* ================================================================== *)
(** * Rounding to binary64                                             *)
(* ================================================================== *)

Module Binary64Facts.
Import Fmt Notions.

(** ** Rounding to the nearest integer *)

Lemma rhe_Z (a : N) (b : positive) :
  let m := Z.of_N (round_half_even a b) in
  let A := Z.of_N a in
  let B := Zpos b in
  ((2 * m - 1) * B <= 2 * A <= (2 * m + 1) * B)%Z
  /\ ((2 * A = (2 * m + 1) * B \/ 2 * A = (2 * m - 1) * B)%Z ->
      Z.even m = true).
Proof.
  cbv zeta. unfold round_half_even. cbv zeta.
  pose proof (N.div_mod a (Npos b) ltac:(discriminate)) as Hdm.
  pose proof (N.mod_lt a (Npos b) ltac:(discriminate)) as Hlt.
  set (q := (a / Npos b)%N) in *. set (r := (a mod Npos b)%N) in *.
  assert (Z.of_N a = Zpos b * Z.of_N q + Z.of_N r)%Z as Ha by lia.
  assert (0 <= Z.of_N r < Zpos b)%Z as Hr by lia.
  assert (0 <= Z.of_N q)%Z as Hq by lia.
  destruct (N.compare_spec (2 * r) (Npos b)) as [E|E|E].
  - assert (2 * Z.of_N r = Zpos b)%Z as E' by lia.
    destruct (N.even q) eqn:Ev.
    + split; [nia|]. intros _.
      rewrite <- Ev. rewrite <- (N2Z.id q) at 2.
      destruct q; [reflexivity|]. now destruct p.
    + rewrite N2Z.inj_add. change (Z.of_N 1) with 1%Z.
      split; [nia|]. intros _.
      rewrite Z.even_add. 
      replace (Z.even (Z.of_N q)) with false; [reflexivity|].
      rewrite <- Ev. destruct q; [reflexivity|]. now destruct p.
  - assert (2 * Z.of_N r < Zpos b)%Z as E' by lia.
    split; [nia|]. intros [H|H]; exfalso; nia.
  - assert (Zpos b < 2 * Z.of_N r)%Z as E' by lia.
    rewrite N2Z.inj_add. change (Z.of_N 1) with 1%Z.
    split; [nia|]. intros [H|H]; exfalso; nia.
Qed.

Lemma rhe_unique_Z (a : N) (b : positive) (k : Z) :
  let A := Z.of_N a in
  let B := Zpos b in
  ((2 * k - 1) * B <= 2 * A <= (2 * k + 1) * B)%Z ->
  ((2 * A = (2 * k + 1) * B \/ 2 * A = (2 * k - 1) * B)%Z ->
   Z.even k = true) ->
  Z.of_N (round_half_even a b) = k.
Proof.
  cbv zeta. intros Hk Hek.
  destruct (rhe_Z a b) as (Hm & Hem). cbv zeta in Hm, Hem.
  set (m := Z.of_N (round_half_even a b)) in *.
  assert (0 < Zpos b)%Z as Hb by lia.
  assert (m - 1 <= k <= m + 1)%Z as Hclose by nia.
  assert (k = m \/ k = m + 1 \/ k = m - 1)%Z as [E|[E|E]] by lia;
    [now symmetry | |]; exfalso; subst k.
  - assert (2 * Z.of_N a = (2 * m + 1) * Zpos b)%Z as T by nia.
    assert (Z.even m = true) as E1 by (apply Hem; now left).
    assert (Z.even (m + 1) = true) as E2
        by (apply Hek; right; rewrite T; f_equal; lia).
    rewrite Z.even_add, E1 in E2. discriminate.
  - assert (2 * Z.of_N a = (2 * m - 1) * Zpos b)%Z as T by nia.
    assert (Z.even m = true) as E1 by (apply Hem; now right).
    assert (Z.even (m - 1) = true) as E2
        by (apply Hek; left; rewrite T; f_equal; lia).
    rewrite Z.even_sub, E1 in E2. discriminate.
Qed.

(** ** The same in the rationals *)

Local Open Scope Q_scope.

Lemma qfrac_mul (a : N) (b : positive) :
  qfrac a b * inject_Z (Zpos b) == qN a.
Proof.
  unfold qfrac, qN, inject_Z, Qeq, Qmult. simpl. 
  rewrite Pos.mul_1_r. lia.
Qed.

Lemma pos_Q (b : positive) : 0 < inject_Z (Zpos b).
Proof. unfold inject_Z, Qlt. simpl. lia. Qed.

Lemma qN_nonneg (a : N) : 0 <= qN a.
Proof. unfold qN. rewrite <- (Zle_Qle 0). lia. Qed.

Ltac to_Q H :=
  unfold Z.sub in H;
  first [rewrite Zle_Qle in H | rewrite Zlt_Qlt in H
        | apply inject_Z_injective in H ];
  repeat (rewrite inject_Z_plus in H || rewrite inject_Z_mult in H
          || rewrite inject_Z_opp in H);
  change (inject_Z 2) with 2 in H; change (inject_Z 1) with 1 in H.

Ltac of_Q :=
  first [rewrite Zle_Qle | rewrite Zlt_Qlt | apply inject_Z_injective ];
  unfold Z.sub;
  repeat (rewrite inject_Z_plus || rewrite inject_Z_mult
          || rewrite inject_Z_opp);
  change (inject_Z 2) with 2; change (inject_Z 1) with 1.

Lemma rhe_Q (a : N) (b : positive) :
  qN (round_half_even a b) - (1 # 2) <= qfrac a b
  /\ qfrac a b <= qN (round_half_even a b) + (1 # 2).
Proof.
  destruct (rhe_Z a b) as ((H1 & H2) & _). cbv zeta in H1, H2.
  pose proof (qfrac_mul a b) as Hx. pose proof (pos_Q b) as Hb.
  to_Q H1. to_Q H2.
  fold (qN a) in H1, H2. fold (qN (round_half_even a b)) in H1, H2.
  split; nra.
Qed.

Lemma rhe_tie_Q (a : N) (b : positive) :
  qfrac a b == qN (round_half_even a b) + (1 # 2)
  \/ qfrac a b == qN (round_half_even a b) - (1 # 2) ->
  N.even (round_half_even a b) = true.
Proof.
  intros H. destruct (rhe_Z a b) as (_ & He). cbv zeta in He.
  assert (Z.even (Z.of_N (round_half_even a b)) = true) as E.
  { apply He.
    pose proof (qfrac_mul a b) as Hx. pose proof (pos_Q b) as Hb.
    destruct H as [H|H]; [left | right]; of_Q;
      fold (qN a); fold (qN (round_half_even a b)); nra. }
  destruct (round_half_even a b) as [|p]; [reflexivity|]. now destruct p.
Qed.

Lemma rhe_unique_Q (a : N) (b : positive) (k : N) :
  qN k - (1 # 2) <= qfrac a b ->
  qfrac a b <= qN k + (1 # 2) ->
  (qfrac a b == qN k + (1 # 2) \/ qfrac a b == qN k - (1 # 2) ->
   N.even k = true) ->
  round_half_even a b = k.
Proof.
  intros H1 H2 He.
  pose proof (qfrac_mul a b) as Hx. pose proof (pos_Q b) as Hb.
  apply N2Z.inj. apply rhe_unique_Z; cbv zeta.
  - split; of_Q; fold (qN a); fold (qN k); nra.
  - intros H.
    assert (N.even k = true) as E.
    { apply He. destruct H as [H|H]; [left | right]; to_Q H;
        fold (qN a) in H; fold (qN k) in H; nra. }
    destruct k as [|p]; [reflexivity|]. now destruct p.
Qed.

(** ** Powers of two and scaling *)

Lemma two_pos (e : Z) : 0 < 2 ^ e.
Proof. apply Qpower_0_lt. reflexivity. Qed.

Lemma two_add (e f : Z) : 2 ^ (e + f) == 2 ^ e * 2 ^ f.
Proof. apply Qpower_plus. discriminate. Qed.

Lemma two_inv (e : Z) : 2 ^ e * 2 ^ (- e) == 1.
Proof. rewrite <- two_add, Z.add_opp_diag_r. reflexivity. Qed.

Lemma two_le (e f : Z) : (e <= f)%Z -> 2 ^ e <= 2 ^ f.
Proof. intros H. apply Qpower_le_compat_l; [exact H | discriminate]. Qed.

Lemma pow2_Q (k : Z) : (0 <= k)%Z -> inject_Z (Zpos (pow2 k)) == 2 ^ k.
Proof.
  intros H. unfold pow2. rewrite Z2Pos.id by (apply Z.pow_pos_nonneg; lia).
  now apply (Zpower_Qpower 2).
Qed.

Lemma qN_mul (a b : N) : qN (a * b) == qN a * qN b.
Proof. unfold qN. now rewrite N2Z.inj_mul, inject_Z_mult. Qed.

Lemma qfrac_1 (a : N) : qfrac a 1 == qN a.
Proof. unfold qfrac, qN, inject_Z. reflexivity. Qed.

Lemma qfrac_div (a : N) (b : positive) :
  qfrac a b == qN a / inject_Z (Zpos b).
Proof.
  pose proof (qfrac_mul a b) as H. pose proof (pos_Q b) as Hb.
  rewrite <- H. field. lra.
Qed.

Lemma scale2_Q (n : N) (d : positive) (e : Z) :
  qfrac (fst (scale2 n d e)) (snd (scale2 n d e)) * 2 ^ e == qfrac n d.
Proof.
  unfold scale2. pose proof (two_pos e) as He. pose proof (pos_Q d) as Hd.
  destruct (Z.leb_spec 0 e) as [H|H]; cbn [fst snd].
  - rewrite !qfrac_div. rewrite Pos2Z.inj_mul, inject_Z_mult.
    rewrite (pow2_Q H). field. lra.
  - rewrite !qfrac_div, qN_mul. unfold qN at 2. cbn [Z.of_N].
    rewrite pow2_Q by lia.
    setoid_replace (qN n * 2 ^ (- e) / inject_Z (Z.pos d) * 2 ^ e)
      with (qN n / inject_Z (Z.pos d) * (2 ^ e * 2 ^ (- e)))
      by (field; lra).
    rewrite two_inv. ring.
Qed.

Lemma log2_Q (x : Z) :
  (0 < x)%Z ->
  2 ^ Z.log2 x <= inject_Z x /\ inject_Z x < 2 ^ (Z.log2 x + 1).
Proof.
  intros H. destruct (Z.log2_spec x H) as (H1 & H2).
  pose proof (Z.log2_nonneg x) as Hn.
  rewrite Zle_Qle in H1. rewrite Zlt_Qlt in H2.
  rewrite (Zpower_Qpower 2) in H1 by lia.
  rewrite (Zpower_Qpower 2) in H2 by lia.
  split; [exact H1 | exact H2].
Qed.

Lemma ilog2_spec (n : N) (d : positive) :
  (0 < n)%N ->
  2 ^ ilog2 n d <= qfrac n d /\ qfrac n d < 2 ^ (ilog2 n d + 1).
Proof.
  intros Hn. unfold ilog2. cbv zeta.
  set (a := Z.log2 (Z.of_N n)). set (b := Z.log2 (Z.pos d)).
  destruct (@log2_Q (Z.of_N n) ltac:(lia)) as (Ha1 & Ha2).
  destruct (@log2_Q (Z.pos d) ltac:(lia)) as (Hb1 & Hb2).
  fold a in Ha1, Ha2. fold b in Hb1, Hb2. fold (qN n) in Ha1, Ha2.
  pose proof (scale2_Q n d (a - b)) as Hs.
  destruct (scale2 n d (a - b)) as [A B]. cbn [fst snd] in Hs.
  pose proof (qfrac_mul A B) as HA. pose proof (pos_Q B) as HB.
  pose proof (qfrac_mul n d) as Hx. pose proof (pos_Q d) as Hd.
  pose proof (two_pos (a - b)) as Pk. pose proof (two_pos b) as Pb.
  pose proof (two_pos (a - b + 1)) as Pk1.
  pose proof (two_pos (a - b - 1)) as Pk0.
  assert (2 ^ a == 2 ^ (a - b) * 2 ^ b) as Ea
      by (rewrite <- two_add; now replace (a - b + b)%Z with a by lia).
  assert (2 ^ (a + 1) == 2 ^ (a - b + 1) * 2 ^ b) as Ea1
      by (rewrite <- two_add; now replace (a - b + 1 + b)%Z with (a + 1)%Z by lia).
  assert (2 ^ a == 2 ^ (a - b - 1) * 2 ^ (b + 1)) as Ea0
      by (rewrite <- two_add;
          now replace (a - b - 1 + (b + 1))%Z with a by lia).
  assert (2 ^ (a - b) == 2 ^ (a - b - 1) * 2) as Ek.
  { change 2 with (2 ^ 1) at 3. rewrite <- two_add.
    now replace (a - b - 1 + 1)%Z with (a - b)%Z by lia. }
  destruct (N.leb_spec (N.pos B) A) as [Hle|Hgt].
  - assert (1 <= qfrac A B) as H1.
    { assert (inject_Z (Z.pos B) <= qN A) as Hq
          by (unfold qN; rewrite <- Zle_Qle; lia).
      nra. }
    split; [nra|].
    assert (qfrac n d * inject_Z (Z.pos d) < 2 ^ (a - b + 1) * 2 ^ b)
      as Hm by (rewrite Hx, <- Ea1; exact Ha2).
    nra.
  - assert (qfrac A B < 1) as H1.
    { assert (qN A < inject_Z (Z.pos B)) as Hq
          by (unfold qN; rewrite <- Zlt_Qlt; lia).
      nra. }
    replace (a - b - 1 + 1)%Z with (a - b)%Z by lia.
    split; [|nra].
    assert (2 ^ (a - b - 1) * 2 ^ (b + 1) <= qfrac n d * inject_Z (Z.pos d))
      as Hm by (rewrite Hx, <- Ea0; exact Ha1).
    nra.
Qed.

(** ** The grid of the binary64 numbers *)

Lemma qN_le (a b : N) : (a <= b)%N -> qN a <= qN b.
Proof. intros H. unfold qN. rewrite <- Zle_Qle. lia. Qed.

Lemma qN_succ_le (a b : N) : (a < b)%N -> qN a + 1 <= qN b.
Proof.
  intros H. unfold qN. change 1 with (inject_Z 1).
  rewrite <- inject_Z_plus, <- Zle_Qle. lia.
Qed.

(** The rounded integer is as near as any integer, at any scale. *)
Lemma int_nearest (a : N) (b : positive) (k : N) (p t : Q) :
  0 < p ->
  qfrac a b * p - t <= qN k * p ->
  qN k * p <= qfrac a b * p + t ->
  qfrac a b * p - t <= qN (round_half_even a b) * p
  /\ qN (round_half_even a b) * p <= qfrac a b * p + t.
Proof.
  intros Hp H1 H2. destruct (rhe_Q a b) as (M1 & M2).
  destruct (N.lt_trichotomy k (round_half_even a b)) as [H|[H|H]].
  - apply qN_succ_le in H. split; nra.
  - subst k. now split.
  - apply qN_succ_le in H. split; nra.
Qed.

Lemma rval_scaled (n : N) (d : positive) :
  qfrac (fst (scale2 n d (rexp n d))) (snd (scale2 n d (rexp n d)))
  * 2 ^ rexp n d == qfrac n d.
Proof. apply scale2_Q. Qed.

Lemma rexp_low (n : N) (d : positive) : (-1074 <= rexp n d)%Z.
Proof. unfold rexp. lia. Qed.

(** Above the smallest exponent the scaled value has 53 bits. *)
Lemma rexp_normal (n : N) (d : positive) :
  (0 < n)%N -> (-1074 < rexp n d)%Z -> 2 ^ (rexp n d + 52) <= qfrac n d.
Proof.
  intros Hn H. destruct (ilog2_spec d Hn) as (L & _).
  unfold rexp in *.
  replace (Z.max (ilog2 n d - 52) (-1074) + 52)%Z with (ilog2 n d) by lia.
  exact L.
Qed.

Lemma rexp_top (n : N) (d : positive) :
  (0 < n)%N -> qfrac n d < 2 ^ (rexp n d + 53).
Proof.
  intros Hn. destruct (ilog2_spec d Hn) as (_ & U).
  eapply Qlt_le_trans; [exact U|]. apply two_le. unfold rexp. lia.
Qed.

Lemma two_53 : 2 ^ 53 == inject_Z (2 ^ 53).
Proof. reflexivity. Qed.

Lemma rmant_bound (n : N) (d : positive) :
  (0 < n)%N -> qN (rmant n d) <= 2 ^ 53.
Proof.
  intros Hn. pose proof (rval_scaled n d) as Hs.
  pose proof (rexp_top d Hn) as Ht.
  rewrite two_add in Ht.
  pose proof (two_pos (rexp n d)) as Hp.
  unfold rmant.
  destruct (rhe_Q (fst (scale2 n d (rexp n d)))
                  (snd (scale2 n d (rexp n d)))) as (M1 & _).
  set (x := qfrac _ _) in *. set (m := round_half_even _ _) in *.
  assert (x < 2 ^ 53) as Hx by nra.
  assert (qN m < inject_Z (2 ^ 53) + (1 # 2)) as Hm
      by (rewrite <- two_53; lra).
  rewrite two_53. unfold qN in *. rewrite <- Zle_Qle.
  assert (inject_Z (2 * Z.of_N m) < inject_Z (2 * 2 ^ 53 + 1)) as Hz.
  { rewrite inject_Z_plus, !inject_Z_mult.
    change (inject_Z 2) with 2. change (inject_Z 1) with 1. lra. }
  rewrite <- Zlt_Qlt in Hz. lia.
Qed.

Lemma rval_on_grid (n : N) (d : positive) : (0 < n)%N -> on_grid (rval n d).
Proof.
  intros Hn. exists (rmant n d), (rexp n d).
  split; [apply rexp_low|]. split; [now apply rmant_bound | reflexivity].
Qed.

(** [rval] is as near to [n/d] as any number of the grid. *)
Lemma rval_nearest (n : N) (d : positive) (y t : Q) :
  (0 < n)%N ->
  on_grid y ->
  qfrac n d - t <= y -> y <= qfrac n d + t ->
  qfrac n d - t <= rval n d /\ rval n d <= qfrac n d + t.
Proof.
  intros Hn (my & ey & Hey & Hmy & Ey) H1 H2.
  pose proof (rval_scaled n d) as Hs.
  pose proof (two_pos (rexp n d)) as Hp.
  unfold rval, rmant.
  set (e := rexp n d) in *.
  set (a := fst (scale2 n d e)) in *. set (b := snd (scale2 n d e)) in *.
  destruct (Z.le_gt_cases e ey) as [Hge|Hlt].
  - (* [y] is a multiple of [2^e] *)
    assert (y == qN (my * Npos (pow2 (ey - e))) * 2 ^ e) as Ey'.
    { rewrite Ey, qN_mul. unfold qN at 3. cbn [Z.of_N].
      rewrite pow2_Q by lia.
      rewrite <- Qmult_assoc, <- two_add.
      now replace (ey - e + e)%Z with ey by lia. }
    rewrite <- Hs.
    apply (@int_nearest a b (my * Npos (pow2 (ey - e))) (2 ^ e) t Hp);
      rewrite <- Ey', Hs; assumption.
  - (* [y] lies below the binade of [n/d] *)
    assert (-1074 < e)%Z as Hn' by lia.
    pose proof (@rexp_normal n d Hn Hn') as Hlow. fold e in Hlow.
    assert (y <= 2 ^ (e + 52)) as Hy.
    { rewrite Ey.
      assert (2 ^ ey <= 2 ^ (e - 1)) as Hpe by (apply two_le; lia).
      assert (2 ^ (e + 52) == 2 ^ 53 * 2 ^ (e - 1)) as ->
          by (rewrite <- two_add; now replace (53 + (e - 1))%Z with (e + 52)%Z by lia).
      pose proof (two_pos ey). pose proof (two_pos (e - 1)).
      pose proof (qN_nonneg my). nra. }
    assert (2 ^ (e + 52) == qN (2 ^ 52) * 2 ^ e) as Eg.
    { rewrite two_add. change (qN (2 ^ 52)) with (2 ^ 52). ring. }
    rewrite <- Hs.
    apply (@int_nearest a b (2 ^ 52) (2 ^ e) t Hp); rewrite <- Eg, Hs; lra.
Qed.

(** ** What [round_b64] returns *)

Lemma two_1024 : 2 ^ 1024 == inject_Z (2 ^ 1024).
Proof. reflexivity. Qed.

Lemma round_b64_zero (neg : bool) (d : positive) :
  round_b64 neg 0 d = FFin neg 0 1.
Proof. reflexivity. Qed.

Lemma round_b64_unfold (neg : bool) (n : N) (d : positive) :
  (0 < n)%N ->
  round_b64 neg n d
  = if (0 <=? rexp n d)%Z then
      if (2 ^ 1024 <=? rmant n d * Npos (pow2 (rexp n d)))%N then FInf neg
      else FFin neg (rmant n d * Npos (pow2 (rexp n d))) 1
    else FFin neg (rmant n d) (pow2 (- rexp n d)).
Proof.
  intros Hn. unfold round_b64, rmant. fold (rexp n d).
  destruct (N.eqb_spec n 0) as [E|_]; [lia|].
  now destruct (scale2 n d (rexp n d)).
Qed.

Lemma mant_exp_value_neg (m : N) (e : Z) :
  (e < 0)%Z -> qfrac m (pow2 (- e)) == qN m * 2 ^ e.
Proof.
  intros H. rewrite qfrac_div, pow2_Q by lia.
  rewrite (Qpower_opp 2 e). pose proof (two_pos e).
  field. lra.
Qed.

Lemma mant_exp_value_pos (m : N) (e : Z) :
  (0 <= e)%Z -> qfrac (m * Npos (pow2 e)) 1 == qN m * 2 ^ e.
Proof.
  intros H. rewrite qfrac_1, qN_mul. unfold qN at 2. cbn [Z.of_N].
  now rewrite pow2_Q.
Qed.

(** A finite result is [rval], and below [2^1024]. *)
Lemma round_b64_fin (neg s : bool) (n n' : N) (d d' : positive) :
  (0 < n)%N ->
  round_b64 neg n d = FFin s n' d' ->
  s = neg /\ qfrac n' d' == rval n d /\ qfrac n' d' < 2 ^ 1024.
Proof.
  intros Hn. rewrite (round_b64_unfold neg d Hn). unfold rval.
  pose proof (rmant_bound d Hn) as Hm.
  destruct (Z.leb_spec 0 (rexp n d)) as [He|He].
  - destruct (N.leb_spec (2 ^ 1024) (rmant n d * Npos (pow2 (rexp n d))))
      as [Hb|Hb]; [discriminate|].
    intros E. injection E as <- <- <-.
    split; [reflexivity|]. split; [now apply mant_exp_value_pos|].
    rewrite qfrac_1, two_1024. unfold qN. rewrite <- Zlt_Qlt.
    change (2 ^ 1024)%Z with (Z.of_N (2 ^ 1024)). lia.
  - intros E. injection E as <- <- <-.
    split; [reflexivity|].
    pose proof (mant_exp_value_neg (rmant n d) He) as Hv.
    split; [exact Hv|]. rewrite Hv.
    assert (2 ^ rexp n d <= 2 ^ 0) as Hp by (apply two_le; lia).
    change (2 ^ 0) with 1 in Hp.
    pose proof (two_pos (rexp n d)). pose proof (qN_nonneg (rmant n d)).
    assert (2 ^ 53 < 2 ^ 1024) as Hbig by reflexivity.
    nra.
Qed.

(** Below [2^1024] the result is finite. *)
Lemma round_b64_ok (neg : bool) (n : N) (d : positive) :
  (0 < n)%N ->
  rval n d < 2 ^ 1024 ->
  exists n' d',
    round_b64 neg n d = FFin neg n' d' /\ qfrac n' d' == rval n d.
Proof.
  intros Hn Hr. rewrite (round_b64_unfold neg d Hn). unfold rval in *.
  destruct (Z.leb_spec 0 (rexp n d)) as [He|He].
  - destruct (N.leb_spec (2 ^ 1024) (rmant n d * Npos (pow2 (rexp n d))))
      as [Hb|Hb].
    + exfalso. rewrite <- (mant_exp_value_pos _ He), qfrac_1, two_1024 in Hr.
      unfold qN in Hr. rewrite <- Zlt_Qlt in Hr.
      change (2 ^ 1024)%Z with (Z.of_N (2 ^ 1024)) in Hr. lia.
    + eexists _, _. split; [reflexivity|]. now apply mant_exp_value_pos.
  - eexists _, _. split; [reflexivity|]. now apply mant_exp_value_neg.
Qed.

Lemma round_b64_value (neg s : bool) (n n' : N) (d d' : positive) :
  round_b64 neg n d = FFin s n' d' -> s = neg /\ b64_value (qfrac n' d').
Proof.
  destruct (N.eq_dec n 0) as [->|Hn].
  - rewrite round_b64_zero. intros E. injection E as <- <- <-.
    split; [reflexivity|]. split; [|reflexivity].
    exists 0%N, 0%Z. repeat split; try lia; try reflexivity. discriminate.
  - intros E. apply round_b64_fin in E; [|lia].
    destruct E as (-> & Ev & Hb). split; [reflexivity|].
    split; [|exact Hb].
    destruct (@rval_on_grid n d ltac:(lia)) as (m & e & H1 & H2 & H3).
    exists m, e. repeat split; try assumption. now rewrite Ev.
Qed.

(** A number of the grid below [2^1024] is at least one below it. *)
Lemma grid_below (y : Q) : b64_value y -> y <= 2 ^ 1024 - 1.
Proof.
  intros ((m & e & He & Hm & Ey) & Hy).
  destruct (Z.le_gt_cases 0 e) as [H|H].
  - assert (y == qN (m * Npos (pow2 e))) as E
        by (rewrite Ey, <- qfrac_1; symmetry; now apply mant_exp_value_pos).
    rewrite E in *. rewrite two_1024 in *.
    change 1 with (inject_Z 1). unfold qN in *.
    unfold Qminus. rewrite <- inject_Z_opp, <- inject_Z_plus.
    rewrite <- Zlt_Qlt in Hy. rewrite <- Zle_Qle. lia.
  - assert (2 ^ e <= 2 ^ 0) as Hp by (apply two_le; lia).
    change (2 ^ 0) with 1 in Hp.
    pose proof (two_pos e). pose proof (qN_nonneg m).
    assert (2 ^ 53 <= 2 ^ 1024 - 1) as Hbig by (intros C; discriminate C).
    rewrite Ey. nra.
Qed.

(** ** Two decimals are enough to read a binary64 number back *)

Lemma qfrac_scale (n k : N) (d : positive) :
  qfrac (n * k) d == qN k * qfrac n d.
Proof. rewrite !qfrac_div, qN_mul. pose proof (pos_Q d). field. lra. Qed.

Lemma qN_100 : qN 100 == 100.
Proof. reflexivity. Qed.

(** Rounding [n/d] to a whole number of cents [c], reading [c/100] as a
    binary64 number and rounding that to cents gives [c] again. *)
Lemma cents_read_back (neg : bool) (n : N) (d : positive) :
  b64_value (qfrac n d) ->
  exists n' d',
    round_b64 neg (round_half_even (n * 100) d) 100 = FFin neg n' d'
    /\ round_half_even (n' * 100) d' = round_half_even (n * 100) d.
Proof.
  intros Hy. pose proof (grid_below Hy) as Hbelow. destruct Hy as (Hg & Hy).
  destruct (rhe_Q (n * 100) d) as (C1 & C2).
  pose proof (@rhe_tie_Q (n * 100) d) as Ctie.
  rewrite qfrac_scale, qN_100 in C1, C2, Ctie.
  set (c := round_half_even (n * 100) d) in *.
  set (y := qfrac n d) in *.
  destruct (N.eq_dec c 0) as [E0|E0].
  - rewrite E0. exists 0%N, 1%positive. split; reflexivity.
  - assert (0 < c)%N as Hc by lia.
    assert (100 * qfrac c 100 == qN c) as Hv
        by (rewrite qfrac_div; change (inject_Z 100) with 100; field).
    set (v := qfrac c 100) in *.
    destruct (@rval_nearest c 100 y (1 # 200) Hc Hg) as (R1 & R2);
      fold v; [lra | lra |]. fold v in R1, R2.
    assert (rval c 100 < 2 ^ 1024) as Hr by lra.
    destruct (round_b64_ok neg Hc Hr) as (n' & d' & E & Ev).
    exists n', d'. split; [exact E|].
    apply rhe_unique_Q; rewrite qfrac_scale, qN_100, Ev.
    + lra.
    + lra.
    + intros Ht. apply Ctie.
      destruct (Qlt_le_dec y v) as [Hlt|Hge].
      * destruct (@rval_nearest c 100 y (v - y) Hc Hg) as (T1 & T2);
          fold v; [lra | lra |]. fold v in T1, T2.
        right. destruct Ht as [Ht|Ht]; lra.
      * destruct (@rval_nearest c 100 y (y - v) Hc Hg) as (T1 & T2);
          fold v; [lra | lra |]. fold v in T1, T2.
        left. destruct Ht as [Ht|Ht]; lra.
Qed.

(** ** The range of the finite numbers *)

Lemma ilog2_unique (n : N) (d : positive) (k : Z) :
  (0 < n)%N -> 2 ^ k <= qfrac n d -> qfrac n d < 2 ^ (k + 1) ->
  ilog2 n d = k.
Proof.
  intros Hn H1 H2. destruct (ilog2_spec d Hn) as (L1 & L2).
  destruct (Z.lt_trichotomy (ilog2 n d) k) as [H|[H|H]]; [|exact H|].
  - assert (2 ^ (ilog2 n d + 1) <= 2 ^ k) by (apply two_le; lia). lra.
  - assert (2 ^ (k + 1) <= 2 ^ ilog2 n d) by (apply two_le; lia). lra.
Qed.

Lemma top_1024 : 2 ^ 1024 == 18014398509481984 * 2 ^ 970.
Proof. reflexivity. Qed.
Lemma top_1023 : 2 ^ 1023 == 9007199254740992 * 2 ^ 970.
Proof. reflexivity. Qed.
Lemma top_971 : 2 ^ 971 == 2 * 2 ^ 970.
Proof. reflexivity. Qed.

(** The largest finite number, [2^1024 - 2^971], and [2^1024] are on the
    grid. *)
Lemma largest_on_grid : on_grid (18014398509481982 * 2 ^ 970).
Proof.
  exists (2 ^ 53 - 1)%N, 971%Z. split; [lia|]. split; [intros C; discriminate C|].
  reflexivity.
Qed.

Lemma top_on_grid : on_grid (2 ^ 1024).
Proof.
  exists (2 ^ 52)%N, 972%Z. split; [lia|]. split; [intros C; discriminate C|].
  reflexivity.
Qed.

(** Below the midpoint of the largest finite number and [2^1024] the
    rounded value is finite. *)
Lemma rval_below (n : N) (d : positive) :
  (0 < n)%N -> qfrac n d < 2 ^ 1024 - 2 ^ 970 -> rval n d < 2 ^ 1024.
Proof.
  intros Hn Hv. rewrite top_1024 in *.
  pose proof (two_pos 970) as Hp.
  destruct (Qlt_le_dec (18014398509481982 * 2 ^ 970) (qfrac n d)) as [H|H].
  - destruct (@rval_nearest n d _ (qfrac n d - 18014398509481982 * 2 ^ 970)
                Hn largest_on_grid) as (_ & R); lra.
  - destruct (@rval_nearest n d _ (18014398509481982 * 2 ^ 970 - qfrac n d)
                Hn largest_on_grid) as (_ & R); lra.
Qed.

(** From that midpoint on it is [2^1024] or more. *)
Lemma rval_above (n : N) (d : positive) :
  (0 < n)%N -> 2 ^ 1024 - 2 ^ 970 <= qfrac n d -> 2 ^ 1024 <= rval n d.
Proof.
  intros Hn Hv. pose proof (two_pos 970) as Hp.
  destruct (Qlt_le_dec (qfrac n d) (2 ^ 1024)) as [H|H].
  - assert (ilog2 n d = 1023%Z) as Hk.
    { apply ilog2_unique; [exact Hn| |exact H].
      rewrite top_1023. rewrite top_1024 in Hv. lra. }
    assert (rexp n d = 971%Z) as He by (unfold rexp; rewrite Hk; reflexivity).
    pose proof (rval_scaled n d) as Hs.
    unfold rval, rmant. rewrite He in *.
    destruct (rhe_Q (fst (scale2 n d 971)) (snd (scale2 n d 971))) as (M1 & M2).
    pose proof (@rhe_tie_Q (fst (scale2 n d 971)) (snd (scale2 n d 971)))
      as Mt.
    set (x := qfrac _ _) in *. set (m := round_half_even _ _) in *.
    rewrite top_1024, top_971 in *.
    assert (9007199254740992 - (1 # 2) <= x) as Hx by nra.
    destruct (N.lt_ge_cases m (2 ^ 53)) as [Hm|Hm].
    + exfalso.
      assert (9007199254740991 <= qN m) as Hlow by lra.
      assert (m = 2 ^ 53 - 1)%N as Em.
      { change 9007199254740991 with (qN (2 ^ 53 - 1)) in Hlow.
        unfold qN in Hlow. rewrite <- Zle_Qle in Hlow. lia. }
      assert (N.even m = true) as Ev.
      { apply Mt. left. rewrite Em in *.
        change (qN (2 ^ 53 - 1)) with 9007199254740991 in *. lra. }
      rewrite Em in Ev. discriminate Ev.
    + apply qN_le in Hm. change (qN (2 ^ 53)) with 9007199254740992 in Hm.
      nra.
  - destruct (@rval_nearest n d _ (qfrac n d - 2 ^ 1024) Hn top_on_grid)
      as (R & _); lra.
Qed.

(** [round_b64] gives an infinity exactly from that midpoint on. *)
Lemma round_b64_inf (neg : bool) (n : N) (d : positive) :
  (0 < n)%N ->
  (2 ^ 1024 - 2 ^ 970 <= qfrac n d -> round_b64 neg n d = FInf neg)
  /\ (qfrac n d < 2 ^ 1024 - 2 ^ 970 ->
      exists n' d', round_b64 neg n d = FFin neg n' d').
Proof.
  intros Hn. split; intros Hv.
  - pose proof (@rval_above n d Hn Hv) as Hr.
    destruct (round_b64 neg n d) as [s n' d'|s|] eqn:E.
    + apply round_b64_fin in E; [|exact Hn].
      destruct E as (_ & Ev & Hb). lra.
    + rewrite (round_b64_unfold neg d Hn) in E.
      repeat match type of E with
             | (if ?c then _ else _) = _ => destruct c
             end; congruence.
    + rewrite (round_b64_unfold neg d Hn) in E.
      repeat match type of E with
             | (if ?c then _ else _) = _ => destruct c
             end; discriminate E.
  - destruct (round_b64_ok neg Hn (@rval_below n d Hn Hv)) as (n' & d' & E & _).
    eauto.
Qed.

(** ** Floats *)

Lemma b64_value_eq (p q : Q) : p == q -> b64_value p -> b64_value q.
Proof.
  intros E ((m & e & H1 & H2 & H3) & Hb). split.
  - exists m, e. repeat split; try assumption. now rewrite <- E.
  - now rewrite <- E.
Qed.

Lemma binary64_b64 (x : pyfloat) : b64 (binary64 x).
Proof.
  destruct x as [neg n d| |]; cbn [binary64 b64]; auto.
  destruct (round_b64 neg n d) as [s n' d'| |] eqn:E; cbn [b64]; auto.
  now destruct (round_b64_value _ _ _ E).
Qed.

Lemma is_binary64_b64 (x : pyfloat) : is_binary64 x = true -> b64 x.
Proof.
  destruct x as [neg n d| |]; cbn [is_binary64 b64]; auto.
  destruct (round_b64 neg n d) as [s n' d'| |] eqn:E; try discriminate.
  intros H. apply N.eqb_eq in H.
  destruct (round_b64_value _ _ _ E) as (_ & Hv).
  apply (b64_value_eq (p := qfrac n' d')); [|exact Hv].
  unfold qfrac, Qeq. cbn [Qnum Qden]. lia.
Qed.

(** [float] of an int is finite exactly when the int is in range. *)
Lemma round_int (z : Z) :
  (int_in_range z = true ->
   exists n d, binary64 (float_of_Z z) = FFin (z <? 0)%Z n d)
  /\ (int_in_range z = false -> binary64 (float_of_Z z) = FInf (z <? 0)%Z).
Proof.
  unfold float_of_Z, int_in_range. cbn [binary64].
  destruct (Z.eq_dec z 0) as [->|Hz].
  - split; [intros _; now exists 0%N, 1%positive | discriminate].
  - assert (0 < Z.abs_N z)%N as Hn by lia.
    destruct (round_b64_inf (z <? 0)%Z 1 Hn) as (Hinf & Hfin).
    assert (qfrac (Z.abs_N z) 1 == inject_Z (Z.abs z)) as Ev
        by (unfold qfrac; now rewrite N2Z.inj_abs_N).
    assert (2 ^ 1024 - 2 ^ 970 == inject_Z (2 ^ 1024 - 2 ^ 970)) as Et
        by reflexivity.
    rewrite Ev, Et in Hinf, Hfin.
    split; intros H.
    + apply Z.ltb_lt in H. apply Hfin. now rewrite <- Zlt_Qlt.
    + apply Z.ltb_ge in H. apply Hinf. now rewrite <- Zle_Qle.
Qed.

End Binary64Facts.

(* ================================================================== *)
(** * Properties of the currency display                               *)
(* ================================================================== *)

Module CurrencyFacts.
Import PyStr Py Fmt Notions Binary64Facts.

Lemma chars_text (l : list ascii) : chars (text l) = l.
Proof. apply list_ascii_of_string_of_list_ascii. Qed.

Lemma text_chars (s : string) : text (chars s) = s.
Proof. apply string_of_list_ascii_of_string. Qed.

Lemma chars_app (a b : string) : chars (a ++ b) = (chars a ++ chars b)%list.
Proof. induction a; simpl; [reflexivity | now rewrite IHa]. Qed.

(** ** Decimal digits *)

Lemma digit_cases (d : N) :
  (d < 10)%N ->
  d = 0%N \/ d = 1%N \/ d = 2%N \/ d = 3%N \/ d = 4%N \/ d = 5%N \/ d = 6%N
  \/ d = 7%N \/ d = 8%N \/ d = 9%N.
Proof. lia. Qed.

Ltac each_digit d H :=
  destruct (digit_cases H) as [?|[?|[?|[?|[?|[?|[?|[?|[?|?]]]]]]]]]; subst d.

Lemma digit_char_plain (d : N) : (d < 10)%N -> plain_digit (digit_char d).
Proof. intros H. now exists d. Qed.

Ltac a_digit H :=
  let d := fresh "d" in
  let Hd := fresh "Hd" in
  destruct H as (d & Hd & ->); each_digit d Hd.

Lemma digit_val_char (d : N) : (d < 10)%N -> digit_val (digit_char d) = d.
Proof. intros H. each_digit d H; reflexivity. Qed.

Lemma read_app (acc : N) (a b : list ascii) :
  read acc (a ++ b) = read (read acc a) b.
Proof. apply fold_left_app. Qed.

Lemma digits_fuel_S (f : nat) (n : N) (acc : list ascii) :
  digits_fuel (S f) n acc
  = if (n <? 10)%N then digit_char (n mod 10) :: acc
    else digits_fuel f (n / 10) (digit_char (n mod 10) :: acc).
Proof. reflexivity. Qed.

Lemma digits_fuel_spec (fuel : nat) :
  forall (n : N) (acc : list ascii),
    (n < 2 ^ N.of_nat (S fuel))%N ->
    exists ds,
      digits_fuel (S fuel) n acc = (ds ++ acc)%list
      /\ Forall plain_digit ds
      /\ ds <> []
      /\ forall a, read a ds = (a * 10 ^ N.of_nat (length ds) + n)%N.
Proof.
  induction fuel as [|fuel IH]; intros n acc Hn.
  - assert (n < 10)%N as H10 by (change (2 ^ N.of_nat 1)%N with 2%N in Hn; lia).
    exists [digit_char n]. rewrite digits_fuel_S.
    apply N.ltb_lt in H10 as Hb. rewrite Hb.
    rewrite N.mod_small by lia.
    repeat split.
    + constructor; [now apply digit_char_plain | constructor].
    + discriminate.
    + intros a. unfold read. simpl. rewrite digit_val_char by lia. lia.
  - rewrite digits_fuel_S.
    destruct (n <? 10)%N eqn:Hb.
    + apply N.ltb_lt in Hb. exists [digit_char n].
      rewrite N.mod_small by lia.
      repeat split.
      * constructor; [now apply digit_char_plain | constructor].
      * discriminate.
      * intros a. unfold read. simpl. rewrite digit_val_char by lia. lia.
    + apply N.ltb_ge in Hb.
      assert (n / 10 < 2 ^ N.of_nat (S fuel))%N as Hq.
      { apply N.Div0.div_lt_upper_bound.
        replace (N.of_nat (S (S fuel))) with (N.succ (N.of_nat (S fuel))) in Hn
          by lia.
        rewrite N.pow_succ_r' in Hn. lia. }
      destruct (IH (n / 10)%N (digit_char (n mod 10) :: acc) Hq)
        as (ds & Heq & Hall & Hne & Hread).
      exists (ds ++ [digit_char (n mod 10)])%list.
      assert (n mod 10 < 10)%N as Hm by (apply N.mod_upper_bound; lia).
      repeat split.
      * rewrite Heq. now rewrite <- app_assoc.
      * apply Forall_app. split; [assumption|].
        constructor; [now apply digit_char_plain | constructor].
      * intros E. apply app_eq_nil in E. destruct E; discriminate.
      * intros a. rewrite read_app, Hread. unfold read. simpl.
        rewrite digit_val_char by assumption.
        rewrite length_app. simpl.
        replace (N.of_nat (length ds + 1)) with (N.succ (N.of_nat (length ds)))
          by lia.
        rewrite N.pow_succ_r'.
        pose proof (N.div_mod n 10). lia.
Qed.

Lemma digits_of_N_spec (n : N) :
  Forall plain_digit (digits_of_N n)
  /\ digits_of_N n <> []
  /\ forall a, read a (digits_of_N n)
               = (a * 10 ^ N.of_nat (length (digits_of_N n)) + n)%N.
Proof.
  unfold digits_of_N.
  destruct (@digits_fuel_spec (N.to_nat (N.log2 n)) n [])
    as (ds & Heq & Hall & Hne & Hread).
  - rewrite Nat2N.inj_succ, N2Nat.id.
    destruct n as [|p]; [reflexivity|].
    apply N.log2_spec. lia.
  - rewrite Heq, app_nil_r. auto.
Qed.

(** ** Thousands separators *)

Lemma plain_not_comma (c : ascii) : plain_digit c -> not_comma c = true.
Proof. intros H. a_digit H; reflexivity. Qed.

Lemma group3_rev_uncomma (n : nat) :
  forall l, length l <= n -> Forall plain_digit l ->
            filter not_comma (group3_rev l) = l.
Proof.
  induction n as [|n IH]; intros l Hlen Hall.
  - destruct l; [reflexivity | simpl in Hlen; lia].
  - destruct l as [|a [|b [|c [|d l']]]]; simpl;
      repeat match goal with
             | H : Forall _ (_ :: _) |- _ => inversion H; subst; clear H
             end;
      repeat match goal with
             | H : plain_digit ?x |- context [not_comma ?x] =>
                 rewrite (plain_not_comma H)
             end; try reflexivity.
    change (not_comma ","%char) with false. cbv iota.
    do 3 f_equal.
    apply (IH (d :: l')); [simpl in *; lia | now constructor].
Qed.

Lemma with_commas_uncomma (ds : list ascii) :
  Forall plain_digit ds -> filter not_comma (with_commas ds) = ds.
Proof.
  intros H. unfold with_commas.
  rewrite filter_rev.
  rewrite (@group3_rev_uncomma (length (rev ds))) by
    (auto; now apply Forall_rev).
  apply rev_involutive.
Qed.

Lemma group3_rev_no_dollar (n : nat) :
  forall l, length l <= n -> Forall plain_digit l ->
            Forall (fun c => Ascii.eqb c "$" = false) (group3_rev l).
Proof.
  induction n as [|n IH]; intros l Hlen Hall.
  - destruct l; [constructor | simpl in Hlen; lia].
  - assert (forall c, plain_digit c -> Ascii.eqb c "$" = false) as Hp
        by (intros c H; a_digit H; reflexivity).
    destruct l as [|a [|b [|c [|d l']]]]; simpl;
      repeat match goal with
             | H : Forall _ (_ :: _) |- _ => inversion H; subst; clear H
             end;
      repeat (constructor; auto).
    apply (IH (d :: l')); [simpl in *; lia | now constructor].
Qed.

Lemma with_commas_no_dollar (ds : list ascii) :
  Forall plain_digit ds ->
  Forall (fun c => Ascii.eqb c "$" = false) (with_commas ds).
Proof.
  intros H. unfold with_commas. apply Forall_rev.
  apply (@group3_rev_no_dollar (length (rev ds))); auto.
  now apply Forall_rev.
Qed.

(** ** Reading back what [fmt_2f] printed *)

Lemma remove_char_id (c : ascii) (l : list ascii) :
  Forall (fun x => Ascii.eqb x c = false) l -> remove_char c l = l.
Proof.
  unfold remove_char. induction 1 as [|x l Hx _ IH]; simpl;
    [reflexivity | now rewrite Hx, IH].
Qed.

Lemma two_digits_spec (n : N) :
  (n < 100)%N ->
  Forall plain_digit (two_digits n)
  /\ forall a, read a (two_digits n) = (a * 100 + n)%N.
Proof.
  intros H.
  assert (n / 10 < 10)%N by (apply N.Div0.div_lt_upper_bound; lia).
  assert (n mod 10 < 10)%N by (apply N.mod_upper_bound; lia).
  split.
  - repeat constructor; now apply digit_char_plain.
  - intros a. unfold read, two_digits. simpl.
    rewrite !digit_val_char by assumption.
    pose proof (N.div_mod n 10). lia.
Qed.

Lemma digit_run_app (ds : list ascii) :
  Forall plain_digit ds ->
  forall acc cnt rest,
    digit_run acc cnt (ds ++ rest) = digit_run (read acc ds) (cnt + length ds) rest.
Proof.
  induction 1 as [|c ds Hc _ IH]; intros acc cnt rest.
  - simpl. now rewrite Nat.add_0_r.
  - simpl app. cbn [digit_run].
    replace (is_digit c) with true by (a_digit Hc; reflexivity).
    rewrite IH. simpl. f_equal. lia.
Qed.

Lemma digit_run_stop (acc : N) (cnt : nat) (rest : list ascii) :
  digit_run acc cnt ("."%char :: rest) = (acc, cnt, "."%char :: rest).
Proof. reflexivity. Qed.

Lemma digit_part_digits (ds rest : list ascii) :
  Forall plain_digit ds -> ds <> [] ->
  digit_part (ds ++ rest) = digit_run (read 0 ds) (length ds) rest.
Proof.
  intros Hall Hne. destruct ds as [|c ds]; [congruence|].
  assert (is_digit c = true) as Hc
      by (inversion Hall as [|? ? Hc]; subst; a_digit Hc; reflexivity).
  change (length (c :: ds)) with (0 + length (c :: ds)).
  rewrite <- (digit_run_app Hall 0%N 0 rest).
  unfold digit_part. cbn [app]. now rewrite Hc.
Qed.

Lemma lstrip_digit (c : ascii) (l : list ascii) :
  plain_digit c -> lstrip_chars (c :: l) = c :: l.
Proof. intros H. a_digit H; reflexivity. Qed.

Lemma last_digit (ds : list ascii) :
  Forall plain_digit ds -> ds <> [] ->
  exists c l, plain_digit c /\ rev ds = c :: l.
Proof.
  intros Hall Hne. apply Forall_rev in Hall.
  destruct (rev ds) as [|c l] eqn:E.
  - apply (f_equal (@rev ascii)) in E. rewrite rev_involutive in E.
    now subst.
  - inversion Hall; subst. eauto.
Qed.

(** Reading a plain amount gives the binary64 number nearest to it. *)
Lemma float_of_plain_amount (neg : bool) (c : N) :
  float_of_chars (plain_amount neg c) = Some (round_b64 neg c 100).
Proof.
  destruct (digits_of_N_spec (c / 100)) as (Hd & Hne & Hread).
  assert (c mod 100 < 100)%N as Hm by (apply N.mod_upper_bound; lia).
  destruct (two_digits_spec Hm) as (Ht & Hread2).
  set (D := digits_of_N (c / 100)) in *.
  set (T := two_digits (c mod 100)) in *.
  assert (exists d D', plain_digit d /\ D = d :: D') as (d & D' & Hdd & ED).
  { destruct D as [|d D']; [congruence|]. inversion Hd; subst; eauto. }
  assert (strip_chars (plain_amount neg c) = plain_amount neg c) as Hstrip.
  { unfold strip_chars.
    assert (lstrip_chars (plain_amount neg c) = plain_amount neg c) as ->.
    { unfold plain_amount. fold D. rewrite ED.
      destruct neg; [reflexivity | now apply lstrip_digit]. }
    assert (exists x l, plain_digit x /\ rev (plain_amount neg c) = x :: l)
      as (x & l & Hx & E).
    { unfold plain_amount. fold D T.
      destruct (@last_digit T Ht) as (x & l & Hx & E);
        [unfold T, two_digits; discriminate|].
      exists x. eexists. split; [exact Hx|].
      rewrite !rev_app_distr. cbn [rev]. rewrite E. cbn [app]. reflexivity. }
    rewrite E, (lstrip_digit l Hx), <- E. apply rev_involutive. }
  unfold float_of_chars. rewrite Hstrip. unfold float_of_stripped.
  assert (take_sign (plain_amount neg c)
          = (neg, (D ++ "."%char :: T)%list)) as ->.
  { unfold plain_amount. fold D T.
    destruct neg; [reflexivity|]. simpl app. rewrite ED.
    a_digit Hdd; reflexivity. }
  assert (forall w, map lower_char (D ++ "."%char :: T) <> chars w
                    \/ w = "" \/ exists x w', w = String x w' /\ is_digit x = true)
    as Hname.
  { intros w. destruct w as [|x w']; [auto|].
    destruct (is_digit x) eqn:Ex; [right; right; eauto|].
    left. rewrite ED. simpl. intros E. injection E as E _.
    a_digit Hdd; subst x; discriminate. }
  repeat match goal with
         | |- context [list_eq_dec ascii_dec ?a (chars ?w)] =>
             destruct (list_eq_dec ascii_dec a (chars w)) as [E|_];
             [exfalso;
              destruct (Hname w) as [Hw|[Hw|(x & w' & Hw & Hx)]];
              [now apply Hw | discriminate Hw
              | injection Hw as <- _; discriminate Hx]
             |]
         end.
  rewrite (digit_part_digits _ Hd Hne).
  rewrite digit_run_stop.
  cbv beta iota zeta.
  assert (digit_part T = (read 0 T, 2, [])) as ->.
  { rewrite <- (app_nil_r T) at 1.
    rewrite (digit_part_digits _ Ht) by (unfold T, two_digits; discriminate).
    reflexivity. }
  cbv beta iota zeta.
  replace (length D + 2 =? 0)%nat with false
    by (symmetry; apply Nat.eqb_neq; lia).
  rewrite Hread, Hread2.
  change (N.of_nat 2) with 2%N. change (- Z.of_nat 2)%Z with (-2)%Z.
  unfold scale10. cbn [binary64].
  change (10 ^ 2)%positive with 100%positive.
  do 2 f_equal.
  pose proof (N.div_mod c 100). lia.
Qed.

Lemma fmt_2f_chars (neg : bool) (num : N) (den : positive) :
  let c := round_half_even (num * 100) den in
  chars (fmt_2f (FFin neg num den))
  = ((if neg then ["-"%char] else [])
     ++ with_commas (digits_of_N (c / 100))
     ++ "."%char :: two_digits (c mod 100))%list.
Proof. cbv zeta. unfold fmt_2f. apply chars_text. Qed.

Lemma strip_currency_fmt (neg : bool) (num : N) (den : positive) :
  chars (strip_currency ("$" ++ fmt_2f (FFin neg num den)))
  = plain_amount neg (round_half_even (num * 100) den).
Proof.
  set (c := round_half_even (num * 100) den).
  destruct (digits_of_N_spec (c / 100)) as (Hd & _ & _).
  assert (c mod 100 < 100)%N as Hm by (apply N.mod_upper_bound; lia).
  destruct (two_digits_spec Hm) as (Ht & _).
  assert (forall x, plain_digit x -> Ascii.eqb x "$" = false) as Hp
      by (intros x H; a_digit H; reflexivity).
  unfold strip_currency. rewrite chars_text.
  change (chars ("$" ++ fmt_2f (FFin neg num den)))
    with ("$"%char :: chars (fmt_2f (FFin neg num den))).
  rewrite fmt_2f_chars. fold c.
  assert (forall l, remove_char "$" ("$"%char :: l) = remove_char "$" l) as ->
      by reflexivity.
  rewrite (@remove_char_id "$"%char).
  - change (remove_char ","%char) with (filter not_comma).
    unfold plain_amount.
    rewrite !filter_app. cbn [filter].
    rewrite (with_commas_uncomma Hd).
    change (not_comma "."%char) with true. cbv iota.
    f_equal; [now destruct neg|]. f_equal. f_equal.
    clear - Ht. induction Ht as [|x l Hx _ IH]; [reflexivity|].
    cbn [filter]. now rewrite (plain_not_comma Hx), IH.
  - apply Forall_app. split; [destruct neg; repeat constructor|].
    apply Forall_app. split; [now apply with_commas_no_dollar|].
    constructor; [reflexivity|].
    eapply Forall_impl; [|exact Ht]. exact Hp.
Qed.

(** Formatting the text of a formatted binary64 amount gives it back:
    the amount read is the binary64 number nearest to the two decimals
    printed, and it prints with the same two decimals. *)
Lemma format_currency_fmt (neg : bool) (num : N) (den : positive) :
  b64_value (qfrac num den) ->
  format_currency (VStr ("$" ++ fmt_2f (FFin neg num den)))
  = Ok ("$" ++ fmt_2f (FFin neg num den)).
Proof.
  intros Hb.
  unfold format_currency, format_currency_body.
  cbn [isna py_float bind].
  unfold float_of_string.
  rewrite strip_currency_fmt, float_of_plain_amount.
  destruct (cents_read_back neg Hb) as (n' & d' & E & Er).
  rewrite E. cbn [bind]. do 2 f_equal.
  unfold fmt_2f. now rewrite Er.
Qed.

(** [format_currency] on what it printed for the float [x]. *)
Lemma format_currency_float (x : pyfloat) :
  b64 x -> format_currency (VStr ("$" ++ fmt_2f x)) = Ok ("$" ++ fmt_2f x).
Proof.
  destruct x as [neg num den|[|]|]; cbn [b64];
    [apply format_currency_fmt| | |]; intros _; vm_compute; reflexivity.
Qed.

Lemma format_currency_zero : format_currency (VStr "$0.00") = Ok "$0.00".
Proof. vm_compute. reflexivity. Qed.

(** What [float] reads from a text is a binary64 number. *)
Lemma float_of_stripped_b64 (l : list ascii) (x : pyfloat) :
  float_of_stripped l = Some x -> b64 x.
Proof.
  unfold float_of_stripped.
  repeat match goal with
         | |- context [match ?t with _ => _ end] => destruct t
         end;
    intros E; try discriminate E; injection E as <-;
    try exact I; apply binary64_b64.
Qed.

(** [format_currency] as a case analysis on its argument. *)
Lemma format_currency_cases (v : pyval) :
  (missing_or_invalid v = true /\ int_beyond_range v = false
   /\ format_currency v = Ok "$0.00")
  \/ (missing_or_invalid v = false /\ int_beyond_range v = false
      /\ exists x, (python_value v = true -> b64 x)
                   /\ format_currency v = Ok ("$" ++ fmt_2f x))
  \/ (missing_or_invalid v = false /\ int_beyond_range v = true
      /\ format_currency v
         = Raise (OverflowError "int too large to convert to float")).
Proof.
  destruct v as [|x|z|s|s|].
  - left. repeat split.
  - destruct x as [neg num den|neg|].
    + right. left. repeat split. exists (FFin neg num den).
      split; [apply is_binary64_b64 | reflexivity].
    + right. left. repeat split. exists (FInf neg).
      split; [apply is_binary64_b64 | reflexivity].
    + left. repeat split.
  - right. unfold format_currency, format_currency_body.
    cbn [isna py_float bind missing_or_invalid int_beyond_range].
    destruct (round_int z) as (Hfin & Hinf).
    destruct (int_in_range z); cbn [negb].
    + left. destruct (Hfin eq_refl) as (n & d & E).
      pose proof (binary64_b64 (float_of_Z z)) as Hb. rewrite E in *.
      repeat split. exists (FFin (z <? 0)%Z n d). now split.
    + right. rewrite (Hinf eq_refl). repeat split.
  - unfold missing_or_invalid, format_currency, format_currency_body.
    cbn [isna py_float bind int_beyond_range].
    unfold float_of_string, float_of_chars.
    destruct (float_of_stripped (strip_chars (chars (strip_currency s))))
      as [x|] eqn:E.
    + right. left. repeat split. exists x.
      split; [intros _; exact (float_of_stripped_b64 _ E) | reflexivity].
    + left. repeat split.
  - unfold missing_or_invalid, format_currency, format_currency_body.
    cbn [isna py_float bind int_beyond_range]. unfold float_of_bytes.
    destruct (float_of_stripped _) as [x|] eqn:E.
    + right. left. repeat split. exists x.
      split; [intros _; exact (float_of_stripped_b64 _ E) | reflexivity].
    + left. repeat split.
  - left. repeat split.
Qed.

(** The decimal numerals binary64 cannot hold are rounded before they
    are displayed, text beyond the range reads as an infinity, and
    [bytes] are read as text is. *)
Lemma format_currency_rounds :
  format_currency (VStr "2.675") = Ok "$2.67"
  /\ format_currency (VStr "1.115") = Ok "$1.11"
  /\ format_currency (VStr "$1,250.50") = Ok "$1,250.50"
  /\ format_currency (VStr "1e400") = Ok "$inf"
  /\ format_currency (VBytes "12") = Ok "$12.00"
  /\ format_currency (VInt (2 ^ 53 + 1)) = Ok "$9,007,199,254,740,992.00".
Proof. repeat split; vm_compute; reflexivity. Qed.

(** C8.  Currency formatting is idempotent on its own output: whatever
    [format_currency] prints for a value of Python, it prints again for
    that text; where it raises for the value there is no text to format. *)
Theorem format_currency_idempotent (v : pyval) :
  python_value v = true ->
  (s <- format_currency v ;; format_currency (VStr s)) = format_currency v.
Proof.
  intros Hv.
  destruct (format_currency_cases v)
    as [(_ & _ & ->)|[(_ & _ & x & Hx & ->)|(_ & _ & ->)]]; cbn [bind].
  - apply format_currency_zero.
  - apply format_currency_float. exact (Hx Hv).
  - reflexivity.
Qed.

(** The float -2.675: it prints as -2.67, and that text prints the
    same. *)
Lemma format_currency_idempotent_witness :
  python_value (VNum (FFin true 3011782250804019 1125899906842624)) = true
  /\ format_currency (VNum (FFin true 3011782250804019 1125899906842624))
     = Ok "$-2.67"
  /\ (s <- format_currency
             (VNum (FFin true 3011782250804019 1125899906842624)) ;;
      format_currency (VStr s))
     = format_currency (VNum (FFin true 3011782250804019 1125899906842624)).
Proof.
  split; [vm_compute; reflexivity|].
  split; [vm_compute; reflexivity|].
  apply (format_currency_idempotent
           (VNum (FFin true 3011782250804019 1125899906842624))).
  vm_compute. reflexivity.
Defined.

(** C9, as the code has it.  [format_currency] returns for every input
    but an int beyond the range of binary64: for such an int [float]
    raises [OverflowError], which the [except (ValueError, TypeError)]
    clause lets through.  Every missing, unparseable or otherwise
    invalid input is displayed as the zero amount. *)
Theorem format_currency_total (v : pyval) :
  (int_beyond_range v = false -> exists s, format_currency v = Ok s)
  /\ (int_beyond_range v = true ->
      format_currency v
      = Raise (OverflowError "int too large to convert to float"))
  /\ (missing_or_invalid v = true -> format_currency v = Ok "$0.00").
Proof.
  destruct (format_currency_cases v)
    as [(Hm & Hr & E)|[(Hm & Hr & x & _ & E)|(Hm & Hr & E)]];
    rewrite Hm, Hr, E; repeat split; eauto; discriminate.
Qed.

Lemma format_currency_total_witness :
  format_currency (VStr "twelve dollars") = Ok "$0.00"
  /\ format_currency (VInt (2 ^ 1024 - 2 ^ 970 - 1))
     = Ok ("$179,769,313,486,231,570,814,527,423,731,704,356,798,070,567,"
           ++ "525,844,996,598,917,476,803,157,260,780,028,538,760,589,558,"
           ++ "632,766,878,171,540,458,953,514,382,464,234,321,326,889,464,"
           ++ "182,768,467,546,703,537,516,986,049,910,576,551,282,076,245,"
           ++ "490,090,389,328,944,075,868,508,455,133,942,304,583,236,903,"
           ++ "222,948,165,808,559,332,123,348,274,797,826,204,144,723,168,"
           ++ "738,177,180,919,299,881,250,404,026,184,124,858,368.00")
  /\ format_currency (VInt (2 ^ 1024 - 2 ^ 970))
     = Raise (OverflowError "int too large to convert to float").
Proof.
  split; [|split].
  - apply (proj2 (proj2 (format_currency_total (VStr "twelve dollars")))).
    vm_compute. reflexivity.
  - vm_compute. reflexivity.
  - apply (proj1 (proj2 (format_currency_total (VInt (2 ^ 1024 - 2 ^ 970))))).
    vm_compute. reflexivity.
Defined.

(** C9 as stated fails: an int beyond the range of binary64 makes
    [format_currency] raise. *)
Lemma format_currency_raises_overflow :
  format_currency (VInt (10 ^ 400))
  = Raise (OverflowError "int too large to convert to float").
Proof. vm_compute. reflexivity. Qed.

End CurrencyFacts.

(* ================================================================== *)
(** * Properties of the loader                                         *)
(* ================================================================== *)

Module LoaderFacts.
Import PyStr Py Fmt Pandas Demo5 Notions.

(** ** Rows and columns *)

Lemma row_get_set_same (r : row) (c : string) (v : cell) :
  row_get (row_set r c v) c = v.
Proof.
  induction r as [|[k x] r IH]; simpl.
  - now rewrite String.eqb_refl.
  - destruct (String.eqb k c) eqn:E; simpl; rewrite E; auto.
Qed.

Lemma row_get_set_other (r : row) (c c' : string) (v : cell) :
  c <> c' -> row_get (row_set r c v) c' = row_get r c'.
Proof.
  intros Hne. induction r as [|[k x] r IH]; simpl.
  - destruct (String.eqb c c') eqn:E; [|reflexivity].
    apply String.eqb_eq in E. contradiction.
  - destruct (String.eqb k c) eqn:E; simpl.
    + apply String.eqb_eq in E. subst k.
      destruct (String.eqb c c') eqn:E'; [|reflexivity].
      apply String.eqb_eq in E'. contradiction.
    + now rewrite IH.
Qed.

Lemma zip_with_map_self {A B C : Type} (h : A -> B -> C) (g : A -> B)
      (l : list A) :
  zip_with h l (map g l) = map (fun x => h x (g x)) l.
Proof. induction l; simpl; [reflexivity | now f_equal]. Qed.

Lemma keep_map_self {A : Type} (p : A -> bool) (l : list A) :
  keep (map (fun x => Some (p x)) l) l = filter p l.
Proof.
  induction l as [|x l IH]; simpl; [reflexivity|].
  destruct (p x); now rewrite IH.
Qed.

Lemma derive_column_ok (df df' : DataFrame) (c src : string)
      (f : cell -> cell) :
  derive_column df c src f = Ok df' ->
  rows df' = map (fun r => row_set r c (f (row_get r src))) (rows df)
  /\ has_column df' c = true
  /\ forall c', has_column df c' = true -> has_column df' c' = true.
Proof.
  unfold derive_column, col. destruct (has_column df src); [|discriminate].
  cbn [bind]. intros E. injection E as <-. unfold set_column. cbn [rows columns].
  split; [|split].
  - rewrite map_map. apply zip_with_map_self.
  - unfold has_column at 1. cbn [columns].
    destruct (has_column df c) eqn:Hc; [exact Hc|].
    rewrite existsb_app. simpl. rewrite String.eqb_refl.
    now rewrite orb_true_r.
  - intros c' H. unfold has_column at 1. cbn [columns].
    destruct (has_column df c); [exact H|].
    rewrite existsb_app. unfold has_column in H. now rewrite H.
Qed.

Lemma update_column_ok (df df' : DataFrame) (c : string) (f : cell -> cell) :
  update_column df c f = Ok df' ->
  rows df' = map (fun r => row_set r c (f (row_get r c))) (rows df)
  /\ has_column df' c = true
  /\ forall c', has_column df c' = true -> has_column df' c' = true.
Proof. apply (@derive_column_ok df df' c c f). Qed.

Lemma select_ok (df df' : DataFrame) (m : mask) :
  select df m = Ok df' ->
  rows df' = keep m (rows df) /\ columns df' = columns df.
Proof.
  unfold select. destruct (existsb _ m); [discriminate|].
  intros E. injection E as <-. split; reflexivity.
Qed.

(** ** The invariant of the loaded table *)

Lemma from_record_set (data : list row) (r : row) (c : string) (v : cell) :
  c <> "Purchase Date" -> c <> "Year" -> c <> "Month" -> c <> "Quarter" ->
  from_record data r -> from_record data (row_set r c v).
Proof.
  intros H1 H2 H3 H4 (r0 & Hin & d & Hraw & Hd & Hy & Hm & Hq & Hw).
  exists r0. split; [assumption|]. exists d.
  now rewrite !row_get_set_other by assumption.
Qed.

Lemma in_window (d : date) :
  existsb (fun z => eq_num z (Int (year d))) valid_years = true ->
  (2012 <= year d <= 2015)%Z.
Proof.
  unfold valid_years, eq_num. cbn [existsb cell_num].
  rewrite !orb_true_iff.
  assert (forall z, Qeq_bool (inject_Z (year d)) (inject_Z z) = true
                    -> year d = z) as H.
  { intros z E. apply Qeq_bool_eq in E. unfold Qeq, inject_Z in E.
    simpl in E. lia. }
  intros [E|[E|[E|[E|E]]]]; try discriminate; apply H in E; lia.
Qed.

Ltac step H :=
  match type of H with
  | bind ?m _ = Ok _ =>
      let df := fresh "df" in
      let E := fresh "E" in
      destruct m as [df|] eqn:E; [cbn [bind] in H | discriminate H]
  end.

Lemma clean_rows (data : list row) (df : DataFrame) :
  clean data = Ok df -> df_empty df = false ->
  Forall (from_record data) (rows df) /\ has_column df "Year" = true.
Proof.
  unfold clean. destruct (df_empty (frame_of_records data)) eqn:Hemp.
  { intros E. injection E as <-. congruence. }
  intros H _.
  step H. apply update_column_ok in E as (R1 & _ & _).
  unfold col in H. destruct (has_column df0 "Purchase Date"); [|discriminate H].
  cbn [bind] in H.
  step H. apply select_ok in E as (R2 & _).
  unfold mask_isin in R2. rewrite !map_map in R2.
  rewrite (keep_map_self
             (fun r => existsb (fun z => eq_num z (dt_field year
                                  (row_get r "Purchase Date"))) valid_years))
    in R2.
  step H. apply derive_column_ok in E as (R3 & C3 & _).
  step H. apply derive_column_ok in E as (R4 & _ & C4).
  step H. apply derive_column_ok in E as (R5 & _ & C5).
  step H. apply update_column_ok in E as (R6 & _ & C6).
  step H. apply update_column_ok in E as (R7 & _ & C7).
  step H. apply update_column_ok in E as (R8 & _ & C8).
  step H. apply update_column_ok in E as (R9 & _ & C9).
  step H. apply update_column_ok in E as (R10 & _ & C10).
  step H. apply update_column_ok in E as (R11 & _ & C11).
  injection H as <-.
  split; [|auto 12].
  rewrite R11, R10, R9, R8, R7, R6, R5, R4, R3, R2, R1.
  cbn [frame_of_records rows].
  rewrite !Forall_map.
  apply Forall_forall. intros r Hr.
  apply filter_In in Hr as (Hr & Hy).
  apply in_map_iff in Hr as (r0 & <- & Hr0).
  rewrite row_get_set_same in Hy.
  repeat (apply from_record_set; [discriminate..|]).
  unfold from_record, dated.
  exists r0. split; [assumption|].
  destruct (to_datetime (row_get r0 "Purchase Date")) as [| | | |d] eqn:Ed;
    try discriminate Hy.
  exists d.
  repeat (rewrite row_get_set_same
          || rewrite row_get_set_other by discriminate).
  cbn [dt_field].
  repeat split; try reflexivity; try assumption; now apply in_window.
Qed.

Lemma load_cases (store : option (list row)) :
  load_procurement_data store = empty_frame
  \/ exists data, store = Some data
                  /\ clean data = Ok (load_procurement_data store).
Proof.
  unfold load_procurement_data. destruct store as [data|]; [|now left].
  destruct (clean data) as [df|] eqn:E; [right; eauto | now left].
Qed.

(** A table that is not empty has the derived columns. *)
Lemma loaded_has_year (store : option (list row)) :
  df_empty (load_procurement_data store) = false ->
  has_column (load_procurement_data store) "Year" = true.
Proof.
  intros Hne. destruct (load_cases store) as [E|(data & _ & E)].
  - rewrite E in Hne. discriminate.
  - now apply (clean_rows data E).
Qed.

(** The rows of a loaded table that is not empty all come from records of
    the store. *)
Lemma loaded_rows_from_records (store : option (list row)) :
  df_empty (load_procurement_data store) = false ->
  exists data,
    store = Some data
    /\ Forall (from_record data) (rows (load_procurement_data store)).
Proof.
  intros Hne. destruct (load_cases store) as [E|(data & Es & E)].
  - rewrite E in Hne. discriminate.
  - exists data. split; [assumption|]. now apply (clean_rows data E).
Qed.

(** C10.  In a loaded table that is not empty, every row comes from a
    record of the store whose purchase date parsed to a calendar date of
    the window 2012-2015, it holds that date, and its [Year], [Month] and
    [Quarter] are those of that date. *)
Theorem loaded_rows_dated (store : option (list row)) (r : row) :
  df_empty (load_procurement_data store) = false ->
  In r (rows (load_procurement_data store)) ->
  exists data, store = Some data /\ from_record data r.
Proof.
  intros Hne Hin.
  destruct (loaded_rows_from_records store Hne) as (data & Es & Hall).
  exists data. split; [assumption|].
  rewrite Forall_forall in Hall. now apply Hall.
Qed.

Lemma sample_load :
  rows (load_procurement_data sample_store) = [sample_loaded_row].
Proof. vm_compute. reflexivity. Qed.

Lemma loaded_rows_dated_witness :
  exists data, sample_store = Some data /\ from_record data sample_loaded_row.
Proof.
  apply (@loaded_rows_dated sample_store sample_loaded_row).
  - vm_compute. reflexivity.
  - rewrite sample_load. now left.
Defined.

End LoaderFacts.

(* ================================================================== *)
(** * Properties of the chat entry point                               *)
(* ================================================================== *)

Module RouterFacts.
Import PyStr Py Fmt Pandas Demo5 Examples LoaderFacts Notions SortFacts.

Section WithSort.
Context {np : Numpy}.

Lemma prefix_app (a b : string) : String.prefix a (a ++ b) = true.
Proof.
  induction a as [|c a IH]; simpl; [now destruct b|].
  destruct (ascii_dec c c); [assumption | contradiction].
Qed.

(** C1.  The chat entry point returns a text for every question and every
    state of the process: the answer of [handle_question] when there is
    one, and otherwise, for any exception raised inside it, a text that
    starts with the error marker followed by the exception's message. *)
Theorem chatbot_response_never_raises
  (message : string) (history : list (string * string)) (p : process) :
  exists s p',
    chatbot_response message history p = (s, p')
    /\ match fst (handle_question message p) with
       | Ok a => s = a
       | Raise e => s = error_marker ++ exn_str e
                    /\ String.prefix error_marker s = true
       end.
Proof.
  unfold chatbot_response.
  destruct (handle_question message p) as [[a|e] p']; cbn [fst].
  - now exists a, p'.
  - exists (error_marker ++ exn_str e), p'.
    split; [reflexivity|]. split; [reflexivity | apply prefix_app].
Qed.

(** A handler that raises: the requisition has no purchase order. *)
Example requisition_lookup_raises :
  fst (handle_question "Purchase order number for requisition REQ9999"
                       (MkProcess orders_store None))
  = Raise (IndexError "single positional indexer is out-of-bounds")
  /\ fst (chatbot_response "Purchase order number for requisition REQ9999"
                           [] (MkProcess orders_store None))
     = "❌ Error: single positional indexer is out-of-bounds".
Proof. split; vm_compute; reflexivity. Qed.

(** C7.  With an empty cached table every question gets the
    could-not-load message, from [handle_question] and so from
    [chatbot_response]. *)
Theorem empty_table_message
  (question : string) (history : list (string * string)) (p : process) :
  df_empty (fst (load_cached p)) = true ->
  fst (handle_question question p) = Ok could_not_load
  /\ fst (chatbot_response question history p) = could_not_load.
Proof.
  intros H. unfold chatbot_response, handle_question.
  destruct (load_cached p) as [df p1]. cbn [fst] in H.
  unfold handle_question_on. rewrite H. split; reflexivity.
Qed.

(** The store cannot be reached, or yields no record: the table is empty. *)
Lemma unreachable_store_empty (c : option DataFrame) :
  c = None ->
  df_empty (fst (load_cached (MkProcess None c))) = true
  /\ df_empty (fst (load_cached (MkProcess (Some []) c))) = true.
Proof. intros ->. split; reflexivity. Qed.

(** ** What answering writes *)

Lemma same_except_refl (c : string) (df : DataFrame) : same_except c df df.
Proof.
  split; [|reflexivity].
  induction (rows df); constructor; auto.
Qed.

Lemma has_column_set (df : DataFrame) (c c' : string) (vs : list cell) :
  c' <> c -> has_column (set_column df c vs) c' = has_column df c'.
Proof.
  intros Hne. unfold set_column, has_column at 1. cbn [columns].
  destruct (has_column df c); [reflexivity|].
  rewrite existsb_app. cbn [existsb].
  replace (String.eqb c' c) with false
    by (symmetry; now apply String.eqb_neq).
  now rewrite !orb_false_r.
Qed.

Lemma same_except_set (df : DataFrame) (c : string) (g : row -> cell) :
  same_except c df (set_column df c (map g (rows df))).
Proof.
  split.
  - unfold set_column. cbn [rows]. rewrite zip_with_map_self.
    induction (rows df) as [|r l IH]; constructor; [|assumption].
    intros c' Hne. apply row_get_set_other. congruence.
  - intros c' Hne. now apply has_column_set.
Qed.

(** The one block that writes: it leaves the table alone unless its
    pattern matches and the table has item names, and then it sets the
    column [Item_Clean] from them. *)
Lemma block_item_price_frame (question : string) (df : DataFrame) :
  (Re.search re_item_price question = None
   /\ block_item_price question df = (df, pass))
  \/ (exists m, Re.search re_item_price question = Some m
      /\ ((exists e, block_item_price question df = (df, Raise e))
          \/ (exists o names,
                col df "Item Name" = Ok names
                /\ block_item_price question df
                   = (set_column df "Item_Clean" (item_clean names), o)))).
Proof.
  unfold block_item_price.
  destruct (Re.search re_item_price question) as [m|]; [|now left].
  right. exists m. split; [reflexivity|].
  destruct (col df "Item Name") as [names|e] eqn:E; [right | left]; eauto.
Qed.

Lemma item_clean_rows (df : DataFrame) (names : list cell) :
  col df "Item Name" = Ok names ->
  item_clean names
  = map (fun r => match Str (strip (lower (py_str (row_get r "Item Name"))))
                  with c => c end) (rows df).
Proof.
  unfold col. destruct (has_column df "Item Name"); [|discriminate].
  intros E. injection E as <-.
  unfold item_clean, str_map, astype_str. now rewrite !map_map.
Qed.

(** The table after the body of [handle_question]. *)
Lemma handle_question_on_frame (question : string) (df : DataFrame) :
  same_except "Item_Clean" df (fst (handle_question_on question df))
  /\ (Re.search re_item_price (lower question) = None
      -> fst (handle_question_on question df) = df).
Proof.
  unfold handle_question_on.
  destruct (df_empty df); [split; [apply same_except_refl | reflexivity]|].
  destruct (first_outcome blocks_before_write (lower question) df)
    as [[s|]|e]; try (split; [apply same_except_refl | reflexivity]).
  destruct (block_item_price_frame (lower question) df)
    as [(Hno & ->)|(m & Hm & [(e & ->)|(o & names & Hc & ->)])].
  - destruct (first_outcome blocks_after_write (lower question) df)
      as [[s|]|e]; (split; [apply same_except_refl | reflexivity]).
  - split; [apply same_except_refl | reflexivity].
  - assert (same_except "Item_Clean" df
              (set_column df "Item_Clean" (item_clean names))) as Hs
        by (rewrite (item_clean_rows _ Hc); apply same_except_set).
    destruct o as [[s|]|e];
      [| destruct (first_outcome blocks_after_write (lower question) _)
           as [[s|]|e] |];
      (split; [exact Hs | congruence]).
Qed.

(** C6, as the code has it.  Answering a question keeps the store and
    leaves a memoized table: the table that was memoized before (or, on
    the first call, the one just loaded) with the same rows and the same
    columns, except for the column [Item_Clean], which the block for the
    total price of an item in a year writes.  When that block's pattern
    does not match the question the table is unchanged. *)
Theorem answering_writes_only_item_clean
  (question : string) (history : list (string * string)) (p : process) :
  let df := fst (load_cached p) in
  let p' := snd (chatbot_response question history p) in
  store p' = store p
  /\ (forall old, cache p = Some old -> df = old)
  /\ exists df',
       cache p' = Some df'
       /\ same_except "Item_Clean" df df'
       /\ (Re.search re_item_price (lower question) = None -> df' = df).
Proof.
  cbv zeta. unfold chatbot_response, handle_question, load_cached.
  destruct (cache p) as [old|] eqn:Ec; cbn [fst snd].
  - pose proof (handle_question_on_frame question old) as (Hs & Hu).
    destruct (handle_question_on question old) as [df' [s|e]];
      cbn [fst snd store cache] in *;
      (split; [reflexivity|]; split; [now intros ? [= ->]|]; eauto).
  - pose proof (handle_question_on_frame question
                  (load_procurement_data (store p))) as (Hs & Hu).
    destruct (handle_question_on question (load_procurement_data (store p)))
      as [df' [s|e]];
      cbn [fst snd store cache] in *;
      (split; [reflexivity|]; split; [discriminate|]; eauto).
Qed.

End WithSort.

(** ** Instances, with the stable sort *)

#[local] Existing Instance stable_numpy.

Lemma empty_table_message_witness :
  fst (handle_question "how many orders were placed in 2014?"
                       (MkProcess None None)) = Ok could_not_load
  /\ fst (chatbot_response "how many orders were placed in 2014?"
                           [] (MkProcess None None)) = could_not_load.
Proof.
  apply (@empty_table_message stable_numpy "how many orders were placed in 2014?"
                              [] (MkProcess None None)).
  reflexivity.
Defined.

Lemma answering_writes_only_item_clean_witness :
  cache (snd (chatbot_response "orders in 2014"
                               [] (MkProcess None (Some scenario))))
  = Some scenario.
Proof.
  destruct (@answering_writes_only_item_clean stable_numpy
              "orders in 2014" [] (MkProcess None (Some scenario)))
    as (_ & _ & df' & E & _ & Hu).
  rewrite E. f_equal. apply Hu. vm_compute. reflexivity.
Defined.

(** C6 as stated fails: this question adds a column to the memoized
    table. *)
Lemma item_price_question_writes_table :
  cache (snd (chatbot_response "total price of paper purchased in 2014"
                               [] (MkProcess None (Some scenario))))
  <> Some scenario.
Proof. vm_compute. discriminate. Qed.

End RouterFacts.

(* ================================================================== *)
(** * Year-only questions                                              *)
(* ================================================================== *)

Module YearFacts.
Import PyStr Py Fmt Pandas Demo5 Examples LoaderFacts Notions SortFacts.

Section WithSort.
Context {np : Numpy}.

(** ** The questions "orders in YEAR" *)

Lemma all_years_routed : forallb routed_to_single_year year_strings = true.
Proof. vm_cast_no_check (eq_refl true). Qed.

Lemma is_none_true {A : Type} (o : option A) : is_none o = true -> o = None.
Proof. destruct o; [discriminate | reflexivity]. Qed.

Ltac member := repeat (first [left; reflexivity | right]); fail.

(** Rewrite the tests a routed question fails. *)
Ltac hush Hp Hk :=
  repeat match goal with
         | |- context [Re.search ?r ?q] =>
             let E := fresh "E" in
             assert (Re.search r q = None) as E
                 by (apply is_none_true, Hp; member);
             rewrite !E; clear E
         | |- context [contains ?k ?q] =>
             let E := fresh "E" in
             assert (contains k q = false) as E
                 by (apply negb_true_iff, Hk; member);
             rewrite !E; clear E
         end.

Lemma year_question_routed (y : string) (df : DataFrame) :
  routed_to_single_year y = true ->
  df_empty df = false ->
  handle_question_on (year_question y) df = (df, single_year_answer y df).
Proof.
  unfold routed_to_single_year. cbv zeta.
  set (q := year_question y).
  rewrite !andb_true_iff.
  intros (((((Hl & Hp) & Hi) & Hk) & Hf) & Hs) Hne.
  apply String.eqb_eq in Hl. apply is_none_true in Hi.
  apply Nat.ltb_lt in Hf.
  rewrite forallb_forall in Hp, Hk.
  unfold handle_question_on. rewrite Hne, Hl.
  assert (first_outcome blocks_before_write q df = pass) as ->.
  { unfold blocks_before_write. cbn [first_outcome].
    unfold block_zip_method, block_top_n, block_classification,
      block_items_by_type, block_qualification, block_po_item,
      block_count_by_method, block_classification_2, block_spend_by_fy,
      block_calcard_fy, block_lpa, block_methods_in_year, block_requisition,
      block_orders_multi_year, block_quantity, block_items_ordered,
      block_count_item, block_orders_supplier_year, any_in.
    cbn [existsb].
    hush Hp Hk. reflexivity. }
  unfold pass at 1. cbv iota.
  assert (block_item_price q df = (df, pass)) as ->.
  { unfold block_item_price. hush Hp Hk. reflexivity. }
  unfold pass at 1. cbv iota.
  unfold blocks_after_write. cbn [first_outcome].
  unfold block_calcard_year, block_order_lookup, block_most_expensive,
    block_between, block_suppliers_zip, block_suppliers_qual,
    block_common_location, block_item_price_2, block_list_suppliers,
    block_total_orders, block_total_orders_in, block_date, block_month_year,
    block_multi_year, block_single_year.
  rewrite Hi.
  hush Hp Hk.
  replace (2 <=? length (Re.findall1 re_years_20 q))%nat with false
    by (symmetry; apply Nat.leb_gt; exact Hf).
  rewrite andb_false_r.
  destruct (Re.search re_single_year q) as [m|]; [|discriminate Hs].
  apply String.eqb_eq in Hs. rewrite Hs.
  unfold single_year_answer.
  destruct (in_year df (int y)) as [result|e]; reflexivity.
Qed.

Lemma digit_in_digit_chars (c : ascii) :
  is_digit c = true -> In c digit_chars.
Proof.
  intros H.
  destruct c as [b0 b1 b2 b3 b4 b5 b6 b7].
  destruct b0, b1, b2, b3, b4, b5, b6, b7; try discriminate H;
    repeat (first [left; reflexivity | right]).
Qed.

Lemma year_string_listed (y : string) :
  String.length y = 4 -> forallb is_digit (chars y) = true ->
  In y year_strings.
Proof.
  destruct y as [|a [|b [|c [|d [|e y]]]]]; try discriminate.
  intros _ H. cbn [chars list_ascii_of_string forallb] in H.
  rewrite !andb_true_iff in H. destruct H as (Ha & Hb & Hc & Hd & _).
  unfold year_strings.
  apply in_flat_map. exists a. split; [now apply digit_in_digit_chars|].
  apply in_flat_map. exists b. split; [now apply digit_in_digit_chars|].
  apply in_flat_map. exists c. split; [now apply digit_in_digit_chars|].
  apply in_map_iff. exists d. split; [reflexivity|].
  now apply digit_in_digit_chars.
Qed.

Lemma in_year_rows (df : DataFrame) (z : Z) :
  has_column df "Year" = true ->
  in_year df z = Ok (MkFrame (columns df) (rows_of_year z df)).
Proof.
  intros H. unfold in_year, col_eq_num, col. rewrite H. cbn [bind].
  unfold select, mask_eq_num. rewrite map_map.
  rewrite (keep_map_self (fun r => eq_num z (row_get r "Year"))).
  replace (existsb _ _) with false; [reflexivity|].
  symmetry. induction (rows df); simpl; auto.
Qed.

Lemma eq_num_int (a b : Z) : eq_num a (Int b) = true -> a = b.
Proof.
  unfold eq_num. cbn [cell_num]. intros E. apply Qeq_bool_eq in E.
  unfold Qeq, inject_Z in E. simpl in E. lia.
Qed.

(** C5.  On a loaded table that is not empty, the question "orders in
    YEAR" (YEAR any four digits) is answered with the number of rows whose
    [Year] is YEAR, and that number is zero when YEAR lies outside
    2012-2015. *)
Theorem orders_in_year_count (store : option (list row)) (y : string) :
  String.length y = 4 ->
  forallb is_digit (chars y) = true ->
  df_empty (load_procurement_data store) = false ->
  let df := load_procurement_data store in
  let n := length (rows_of_year (int y) df) in
  handle_question_on ("orders in " ++ y) df
  = (df, Ok ("📦 Total orders in " ++ str_Z (int y) ++ ": **" ++ str_nat n
             ++ "**"))
  /\ (~ (2012 <= int y <= 2015)%Z -> n = 0).
Proof.
  intros Hlen Hdig Hne. cbv zeta. split.
  - pose proof all_years_routed as Hall. rewrite forallb_forall in Hall.
    change ("orders in " ++ y) with (year_question y).
    rewrite (@year_question_routed y (load_procurement_data store)
               (Hall y (@year_string_listed y Hlen Hdig)) Hne).
    unfold single_year_answer.
    now rewrite (@in_year_rows _ (int y) (@loaded_has_year store Hne)).
  - intros Hout.
    destruct (rows_of_year (int y) (load_procurement_data store))
      as [|r l] eqn:E; [reflexivity|].
    exfalso. apply Hout.
    assert (In r (rows_of_year (int y) (load_procurement_data store))) as Hin
        by (rewrite E; now left).
    apply filter_In in Hin as (Hin & Hy).
    destruct (@loaded_rows_from_records store Hne) as (data & _ & Hall).
    rewrite Forall_forall in Hall.
    destruct (Hall r Hin) as (r0 & _ & d & _ & _ & Hyear & _ & _ & Hw).
    rewrite Hyear in Hy. apply eq_num_int in Hy. lia.
Qed.

End WithSort.

(** ** Instances, with the stable sort *)

#[local] Existing Instance stable_numpy.

Lemma orders_in_year_count_witness :
  handle_question_on "orders in 2099" (load_procurement_data orders_store)
  = (load_procurement_data orders_store, Ok "📦 Total orders in 2099: **0**")
  /\ handle_question_on "orders in 2014" (load_procurement_data orders_store)
     = (load_procurement_data orders_store,
        Ok "📦 Total orders in 2014: **2**").
Proof.
  split.
  - pose proof (@orders_in_year_count stable_numpy orders_store "2099"
                  eq_refl eq_refl eq_refl) as H.
    cbv zeta in H. destruct H as (H & Hz).
    rewrite Hz in H; [exact H|].
    vm_compute. intros (_ & H'). now apply H'.
  - pose proof (@orders_in_year_count stable_numpy orders_store "2014"
                  eq_refl eq_refl eq_refl) as H.
    cbv zeta in H. destruct H as (H & _). exact H.
Defined.

End YearFacts.

(* ================================================================== *)
(** * Top-N suppliers                                                  *)
(* ================================================================== *)

Module RankingFacts.
Import PyStr Py Fmt Pandas Demo5 Examples Notions SortFacts.

Section WithSort.
Context {np : Numpy}.

(** ** The order of cells *)

Lemma ltb_chars_asym (a : list ascii) :
  forall b, ltb_chars a b = true -> ltb_chars b a = false.
Proof.
  induction a as [|x a IH]; intros [|y b]; simpl; try congruence.
  destruct (N.ltb_spec (code x) (code y)), (N.ltb_spec (code y) (code x));
    try lia; auto.
Qed.

Lemma ltb_chars_cotrans (a : list ascii) :
  forall b c, ltb_chars a c = true ->
              ltb_chars a b = true \/ ltb_chars b c = true.
Proof.
  induction a as [|x a IH]; intros [|y b] [|z c]; simpl; auto; try congruence.
  destruct (N.ltb_spec (code x) (code z)), (N.ltb_spec (code z) (code x)),
    (N.ltb_spec (code x) (code y)), (N.ltb_spec (code y) (code x)),
    (N.ltb_spec (code y) (code z)), (N.ltb_spec (code z) (code y));
    try lia; auto; try congruence.
Qed.

Lemma date_leb_iff (a b : date) :
  date_leb a b = true
  <-> (year a < year b
       \/ (year a = year b
           /\ (month a < month b \/ (month a = month b /\ day a <= day b))))%Z.
Proof.
  unfold date_leb.
  rewrite !orb_true_iff, !andb_true_iff, !orb_true_iff, !andb_true_iff.
  rewrite !Z.ltb_lt, !Z.eqb_eq, Z.leb_le. reflexivity.
Qed.

Lemma cell_leb_total (a b : cell) : cell_leb a b = false -> cell_leb b a = true.
Proof.
  destruct a as [|x|x|x|x], b as [|y|y|y|y]; simpl; try congruence;
    try (rewrite <- not_true_iff_false, !Qle_bool_iff; intros H;
         apply Qlt_le_weak, Qnot_le_lt; exact H).
  - rewrite negb_false_iff. intros H. unfold PyStr.ltb in *.
    now rewrite (ltb_chars_asym _ _ H).
  - rewrite <- not_true_iff_false, !date_leb_iff. lia.
Qed.

Lemma cell_leb_trans (a b c : cell) :
  cell_leb a b = true -> cell_leb b c = true -> cell_leb a c = true.
Proof.
  destruct a as [|x|x|x|x], b as [|y|y|y|y], c as [|z|z|z|z]; simpl;
    try congruence;
    try (rewrite !Qle_bool_iff; apply Qle_trans).
  - rewrite !negb_true_iff. unfold PyStr.ltb. intros H1 H2.
    destruct (ltb_chars (chars z) (chars x)) eqn:E; [|reflexivity].
    destruct (ltb_chars_cotrans _ (chars y) _ E); congruence.
  - rewrite !date_leb_iff. lia.
Qed.

Lemma sorted_keys (l : list cell) :
  StronglySorted leb_cell (stable_sort cell_leb l).
Proof.
  induction l as [|x l IH]; [constructor|].
  cbn [stable_sort fold_right]. apply insert_sorted; [exact IH| | |].
  - auto.
  - intros y _ H. now apply cell_leb_total.
  - intros y z _ _ H1 H2. exact (cell_leb_trans _ _ _ H1 H2).
Qed.

(** ** Grouped sums and their ranking *)

Lemma map_result_ok {A B : Type} (f : A -> result B) (l : list A)
      (l' : list B) :
  map_result f l = Ok l' -> Forall2 (fun x y => f x = Ok y) l l'.
Proof.
  revert l'. induction l as [|x l IH]; simpl; intros l' H.
  - injection H as <-. constructor.
  - destruct (f x) as [y|] eqn:E; [|discriminate H]. cbn [bind] in H.
    destruct (map_result f l) as [ys|]; [|discriminate H]. cbn [bind] in H.
    injection H as <-. constructor; auto.
Qed.

(** The grouped series: one entry per distinct supplier, keys ascending,
    each with the sum of its rows. *)
Lemma groupby_sum_ok (df : DataFrame) (by_ val : string)
      (sums : list (cell * Q)) :
  groupby_sum df by_ val = Ok sums ->
  exists keys vals,
    col df by_ = Ok keys /\ col df val = Ok vals
    /\ map fst sums = stable_sort cell_leb (unique (dropna keys))
    /\ Forall (fun p => group_sum keys vals (fst p) = Ok (snd p)) sums.
Proof.
  unfold groupby_sum.
  destruct (col df by_) as [keys|]; [|discriminate]. cbn [bind].
  destruct (col df val) as [vals|]; [|discriminate]. cbn [bind].
  intros H. apply map_result_ok in H.
  exists keys, vals. repeat split.
  - induction H as [|k p ks ps Hk _ IH]; [reflexivity|].
    cbn [map]. rewrite IH. f_equal.
    destruct (group_sum keys vals k); [|discriminate Hk].
    cbn [bind] in Hk. now injection Hk as <-.
  - induction H as [|k p ks ps Hk _ IH]; constructor; [|assumption].
    destruct (group_sum keys vals k) as [s|] eqn:E; [|discriminate Hk].
    cbn [bind] in Hk. now injection Hk as <-.
Qed.

Lemma stable_by_sum_sorted (s : list (cell * Q)) :
  StronglySorted sum_desc (stable_sort by_sum s).
Proof. exact (ge_key_sorted snd s). Qed.

(** The stable sort of a series whose keys ascend lists equal sums in
    ascending order of the keys. *)
Lemma stable_by_sum_ranked (s : list (cell * Q)) :
  StronglySorted leb_cell (map fst s) ->
  StronglySorted ranked_before (stable_sort by_sum s).
Proof.
  induction s as [|x s IH]; intros Hk; [constructor|].
  cbn [map] in Hk. inversion Hk as [|? ? Hk' Hx]; subst.
  cbn [stable_sort fold_right].
  assert (forall y, In y (stable_sort by_sum s) -> leb_cell (fst x) (fst y))
    as Hfirst.
  { intros y Hy. apply (Permutation_in _ (stable_sort_perm by_sum s)) in Hy.
    rewrite Forall_forall in Hx. apply Hx. now apply in_map. }
  pose proof (stable_by_sum_sorted s) as Hd.
  apply insert_sorted; [now apply IH| | |]; unfold by_sum, ranked_before.
  - intros y Hy H. apply Qle_bool_iff, Qle_lteq in H.
    destruct H as [H|H]; [now left|].
    right. split; [now symmetry | now apply Hfirst].
  - intros y _ H. left. apply Qnot_le_lt.
    intros Hle. apply Qle_bool_iff in Hle. congruence.
  - intros y z Hy Hz H1 H2. apply Qle_bool_iff in H1.
    assert (snd z <= snd x)%Q as Hzx.
    { destruct H2 as [H2|(H2 & _)].
      - eapply Qle_trans; [apply Qlt_le_weak; exact H2 | exact H1].
      - rewrite <- H2. exact H1. }
    apply Qle_lteq in Hzx. destruct Hzx as [H|H]; [now left|].
    right. split; [now symmetry | now apply Hfirst].
Qed.

(** C4, as the code has it.  The list a top-N question prints is
    [top_suppliers]: its entries are suppliers of the filtered table with
    the sums of their total prices, in descending order of the sums, and
    there are min(N, number of distinct suppliers) of them.  When N is
    smaller than the number of distinct suppliers, suppliers with equal
    sums are in ascending order of their names (the order of the grouped
    series, which [nlargest] keeps); otherwise the list is what
    [sort_values] makes of the series, which fixes no order among equal
    sums. *)
Theorem top_suppliers_ranked (n : nat) (df : DataFrame)
        (top : list (cell * Q)) :
  top_suppliers n df = Ok top ->
  exists keys vals,
    col df "Supplier Name" = Ok keys
    /\ col df "Total Price" = Ok vals
    /\ Forall (fun p => In (fst p) (unique (dropna keys))
                        /\ group_sum keys vals (fst p) = Ok (snd p)) top
    /\ StronglySorted sum_desc top
    /\ (n < length (unique (dropna keys)) -> StronglySorted ranked_before top)
    /\ length top = Nat.min n (length (unique (dropna keys))).
Proof.
  unfold top_suppliers.
  destruct (groupby_sum df "Supplier Name" "Total Price") as [sums|] eqn:E;
    [|discriminate].
  cbn [bind]. intros H. injection H as <-.
  destruct (groupby_sum_ok _ _ _ E) as (keys & vals & Hk & Hv & Hkeys & Hsums).
  assert (length sums = length (unique (dropna keys))) as Hlen
      by (rewrite <- (length_map fst sums), Hkeys; apply stable_sort_length).
  assert (forall l, Permutation l sums ->
            Forall (fun p => In (fst p) (unique (dropna keys))
                             /\ group_sum keys vals (fst p) = Ok (snd p))
                   (firstn n l)) as Hall.
  { intros l Hl. rewrite Forall_forall in *. intros p Hp.
    assert (In p sums) as Hin.
    { apply (Permutation_in _ Hl).
      rewrite <- (firstn_skipn n l). apply in_or_app. now left. }
    split; [|now apply Hsums].
    apply (Permutation_in _ (stable_sort_perm cell_leb (unique (dropna keys)))).
    rewrite <- Hkeys. now apply in_map. }
  exists keys, vals. rewrite <- Hlen.
  destruct (nlargest_cases n sums)
    as [(-> & ->)|[(Hn & Hl & ->)|(Hn & ->)]].
  - repeat split; try assumption; constructor.
  - unfold sort_desc. repeat split; try assumption.
    + apply Hall, sort_values_desc_perm.
    + apply firstn_sorted. exact (sort_values_desc_sorted snd sums).
    + lia.
    + rewrite length_firstn, sort_values_desc_length. reflexivity.
  - fold by_sum. repeat split; try assumption.
    + apply Hall, stable_sort_perm.
    + apply firstn_sorted, stable_by_sum_sorted.
    + intros _. apply firstn_sorted, stable_by_sum_ranked.
      rewrite Hkeys. apply sorted_keys.
    + rewrite length_firstn, stable_sort_length. reflexivity.
Qed.

(** What the block prints is that list (lines 156-181). *)
Lemma block_top_n_overall (question : string) (df : DataFrame) :
  contains "top" question && contains "suppliers" question
  && contains "total spend" question = true ->
  Re.search re_in_year question = None ->
  let n := match Re.search re_top_n question with
           | Some m => N_of_digits (chars (Re.group1 m 1))
           | None => 3%N
           end in
  block_top_n question df
  = (top <- top_suppliers (N.to_nat n) df ;;
     match top with
     | _ :: _ =>
         answer ("🏆 Top " ++ str_N n ++ " suppliers overall:" ++ nl
                 ++ join nl (ranked_lines 0 top))
     | [] => answer "⚠️ No supplier data found overall"
     end).
Proof.
  intros Hg Hy. cbv zeta. unfold block_top_n. rewrite Hg, Hy.
  destruct (top_suppliers _ df) as [[|p top]|e]; reflexivity.
Qed.

Lemma block_top_n_in_year (question : string) (df : DataFrame)
      (m : Re.rmatch_result) :
  contains "top" question && contains "suppliers" question
  && contains "total spend" question = true ->
  Re.search re_in_year question = Some m ->
  let n := match Re.search re_top_n question with
           | Some m => N_of_digits (chars (Re.group1 m 1))
           | None => 3%N
           end in
  let year := int (Re.group1 m 1) in
  block_top_n question df
  = (sub <- in_year df year ;;
     top <- top_suppliers (N.to_nat n) sub ;;
     match top with
     | _ :: _ =>
         answer ("🏆 Top " ++ str_N n ++ " suppliers in " ++ str_Z year ++ ":"
                 ++ nl ++ join nl (ranked_lines 0 top))
     | [] => answer ("⚠️ No supplier data found in " ++ str_Z year)
     end).
Proof.
  intros Hg Hy. cbv zeta. unfold block_top_n. rewrite Hg, Hy.
  destruct (in_year df _) as [sub|e]; [|reflexivity]. cbn [bind].
  destruct (top_suppliers _ sub) as [[|p top]|e]; reflexivity.
Qed.

End WithSort.

(** ** Instances, with the stable sort *)

#[local] Existing Instance stable_numpy.

(** Four suppliers, three of them with equal spend: the top two are
    the two whose names come first. *)
Lemma top_suppliers_ranked_witness :
  top_suppliers 2 tied_four
  = Ok [(Str "alpha", 100%Q); (Str "gamma", 100%Q)]
  /\ exists keys vals,
       col tied_four "Supplier Name" = Ok keys
       /\ col tied_four "Total Price" = Ok vals
       /\ Forall (fun p => In (fst p) (unique (dropna keys))
                           /\ group_sum keys vals (fst p) = Ok (snd p))
                 [(Str "alpha", 100%Q); (Str "gamma", 100%Q)]
       /\ StronglySorted sum_desc [(Str "alpha", 100%Q); (Str "gamma", 100%Q)]
       /\ (2 < length (unique (dropna keys)) ->
           StronglySorted ranked_before
                          [(Str "alpha", 100%Q); (Str "gamma", 100%Q)])
       /\ length [(Str "alpha", 100%Q); (Str "gamma", 100%Q)]
          = Nat.min 2 (length (unique (dropna keys))).
Proof.
  split; [vm_compute; reflexivity|].
  apply (@top_suppliers_ranked stable_numpy 2 tied_four
           [(Str "alpha", 100%Q); (Str "gamma", 100%Q)]).
  vm_compute. reflexivity.
Defined.

(** ** Ties: the order of first appearance is not the order used *)

(** When N reaches the number of distinct suppliers the order of equal
    sums is that of the sort: the two sorts list the tied suppliers in
    opposite orders. *)
Lemma tie_order_open :
  top_suppliers (np := stable_numpy) 2 tied
  = Ok [(Str "alpha", 100%Q); (Str "zeta", 100%Q)]
  /\ top_suppliers (np := reversing_numpy) 2 tied
     = Ok [(Str "zeta", 100%Q); (Str "alpha", 100%Q)].
Proof. split; vm_compute; reflexivity. Qed.

(** C4 as stated fails: with a tie the supplier listed is the one whose
    name sorts first, not the one met first. *)
Lemma tie_not_first_met :
  top_suppliers 1 tied = Ok [(Str "alpha", 100%Q)]
  /\ top_suppliers_first_met 1 tied = Ok [(Str "zeta", 100%Q)]
  /\ snd (handle_question_on "top 1 suppliers by total spend" tied)
     = Ok ("🏆 Top 1 suppliers overall:" ++ nl ++ "1. alpha: $100.00").
Proof. repeat split; vm_compute; reflexivity. Qed.

End RankingFacts.

(* ================================================================== *)
(** * The example scenario and empty selections                        *)
(* ================================================================== *)

Module ScenarioFacts.
Import PyStr Py Fmt Pandas Demo5 Examples Notions SortFacts.

Section WithSort.
Context {np : Numpy}.

(** C3, as the code has it.  On the three-row table the count of orders
    placed in 2014 is 2 and the top supplier by total spend is Globex with
    $200.00; "total spending on ..." is the rule for a supplier, so
    "total spending on paper in 2014" finds no supplier of that name; the
    item rule is worded "total spending for ..." and gives $100.00. *)
Theorem scenario_answers :
  ask "how many orders were placed in 2014?" scenario
  = "📦 Total orders in 2014: **2**"
  /\ ask "total spending on paper in 2014" scenario
     = "⚠️ No spending found for supplier 'paper in 2014'"
  /\ ask "total spending for paper in 2014" scenario
     = "💸 Total spending on Paper in 2014: **$100.00**"
  /\ ask "top 1 suppliers by total spend" scenario
     = "🏆 Top 1 suppliers overall:" ++ nl ++ "1. Globex: $200.00".
Proof. repeat split; vm_compute; reflexivity. Qed.

End WithSort.

(** ** Instances, with the stable sort *)

#[local] Existing Instance stable_numpy.

(** C3 as stated fails: the answer to the second question holds no
    amount. *)
Lemma spending_on_paper_not_an_amount :
  contains "$100.00" (ask "total spending on paper in 2014" scenario) = false.
Proof. vm_compute. reflexivity. Qed.

End ScenarioFacts.

Module EmptySelectionFacts.
Import PyStr Py Fmt Pandas Demo5 Examples Notions SortFacts.

Section WithSort.
Context {np : Numpy}.

Section EmptySelection.
Variable selected : DataFrame.
Hypothesis no_rows : rows selected = [].

Lemma empty_is_empty : df_empty selected = true.
Proof. unfold df_empty. rewrite no_rows. now destruct (columns selected). Qed.

Lemma col_of_empty (c : string) :
  has_column selected c = true -> col selected c = Ok [].
Proof. intros H. unfold col. now rewrite H, no_rows. Qed.

(** The sum-style reports without a guard: the sum of no row is zero. *)
Lemma unguarded_price_sums :
  has_column selected "Total Price" = true ->
  (forall year, report_spending_in year selected
     = answer ("💸 Total spending in " ++ str_Z year ++ ": **$0.00**"))
  /\ (forall year, report_calcard_year year selected
        = answer ("💳 Total CalCard spending in " ++ str_Z year
                  ++ ": **$0.00**"))
  /\ (forall year, report_calcard_fy year selected
        = answer ("💳 Total CalCard spending in FY" ++ str_Z year
                  ++ ": **$0.00**"))
  /\ (forall dept year, report_department_spend dept year selected
        = answer ("🏛️ Total spend for " ++ title dept ++ " in FY"
                  ++ str_Z year ++ ": $0.00"))
  /\ (forall code, report_supplier_code_total code selected
        = answer ("🏢 Total spend for supplier code " ++ code ++ ": $0.00")).
Proof.
  intros H.
  unfold report_spending_in, report_calcard_year, report_calcard_fy,
    report_department_spend, report_supplier_code_total.
  rewrite (col_of_empty _ H). repeat split; reflexivity.
Qed.

Lemma unguarded_quantity_sums :
  has_column selected "Quantity" = true ->
  (forall item_query year, report_quantity item_query year selected
     = answer ("📦 Total quantity of " ++ item_query ++ " purchased in "
               ++ str_Z year ++ ": **0**"))
  /\ (forall item_code year, report_quantity_by_code item_code year selected
        = answer ("📦 Total quantity of items with code " ++ item_code
                  ++ " in " ++ str_Z year ++ ": 0")).
Proof.
  intros H. unfold report_quantity, report_quantity_by_code.
  rewrite (col_of_empty _ H). repeat split; reflexivity.
Qed.

(** The sum-style reports with a guard: a message, no amount. *)
Lemma guarded_sums :
  (forall code, report_supplier_code code selected
     = answer ("⚠️ No purchases found for supplier code " ++ code))
  /\ (forall supplier year, report_spend_by_fy supplier year selected
        = answer ("⚠️ No spending found for " ++ title supplier ++ " in FY"
                  ++ str_Z year))
  /\ (forall item_query year, report_item_price item_query year selected
        = answer ("⚠️ No spending found for '" ++ item_query ++ "' in "
                  ++ str_Z year))
  /\ (forall years, report_average years selected
        = answer ("⚠️ No records found for year(s): "
                  ++ join ", " (map str_Z years)))
  /\ (has_column selected "Total Price" = true ->
      (forall item_query year, report_item_price_2 item_query year selected
         = answer ("⚠️ No spending found for '" ++ item_query ++ "' in "
                   ++ str_Z year))
      /\ (forall label supplier_query,
            report_supplier_spend label supplier_query selected
            = answer ("⚠️ No spending found for supplier '"
                      ++ supplier_query ++ "'"))
      /\ (forall item_query, report_spent_on item_query selected
            = answer ("⚠️ No spending found for item '" ++ item_query
                      ++ "'"))).
Proof.
  unfold report_supplier_code, report_spend_by_fy, report_item_price,
    report_average, report_item_price_2, report_supplier_spend,
    report_spent_on.
  rewrite empty_is_empty. repeat split; try reflexivity;
    match goal with
    | H : has_column selected _ = true |- _ => rewrite (col_of_empty _ H)
    end; reflexivity.
Qed.

(** The single-row lookups. *)
Lemma guarded_lookups :
  (forall item, report_unspsc item selected
     = answer ("⚠️ No UNSPSC code found for " ++ item))
  /\ (forall item, classification_answer item selected
        = answer ("⚠️ No classification found for item " ++ item))
  /\ (forall item po, report_po_item item po selected
        = answer ("⚠️ No matching purchase found for item " ++ item
                  ++ " in PO " ++ po))
  /\ (forall df search_num reqs pos,
        report_order_lookup df search_num reqs pos selected
        = answer ("⚠️ No order found with number " ++ search_num)).
Proof.
  unfold report_unspsc, classification_answer, report_po_item,
    report_order_lookup.
  rewrite empty_is_empty. repeat split; reflexivity.
Qed.

(** The group-by-maximum reports. *)
Lemma guarded_extrema :
  (has_column selected "Supplier Name" = true ->
   has_column selected "Total Price" = true ->
   forall n period,
     (top <- top_suppliers (N.to_nat n) selected ;;
      report_top_n n period top)
     = answer ("⚠️ No supplier data found " ++ period))
  /\ (forall period, report_top_type period selected
        = answer "⚠️ No data found for specified year")
  /\ (forall year, report_quarter_year year selected
        = answer ("⚠️ No data for year " ++ str_Z year ++ ".")).
Proof.
  repeat split.
  - intros H1 H2 n period. unfold top_suppliers, groupby_sum.
    rewrite (col_of_empty _ H1), (col_of_empty _ H2). cbn [bind].
    unfold dropna. cbn [filter unique stable_sort fold_right map_result bind].
    now rewrite nlargest_nil.
  - intros period. unfold report_top_type. now rewrite empty_is_empty.
  - intros year. unfold report_quarter_year. now rewrite empty_is_empty.
Qed.
End EmptySelection.

(** C2, as the code has it.  When the filter of a handler selects no row:
    the sum-style reports that have no guard print a zero amount; the
    sum-style reports that have one, the single-row lookups and the
    group-by-maximum reports print their "no results" message.  The
    columns named are those the report reads before its guard. *)
Theorem empty_selection_reports (selected : DataFrame) :
  rows selected = [] ->
  (has_column selected "Total Price" = true ->
   (forall year, report_spending_in year selected
      = answer ("💸 Total spending in " ++ str_Z year ++ ": **$0.00**"))
   /\ (forall year, report_calcard_year year selected
         = answer ("💳 Total CalCard spending in " ++ str_Z year
                   ++ ": **$0.00**"))
   /\ (forall year, report_calcard_fy year selected
         = answer ("💳 Total CalCard spending in FY" ++ str_Z year
                   ++ ": **$0.00**"))
   /\ (forall dept year, report_department_spend dept year selected
         = answer ("🏛️ Total spend for " ++ title dept ++ " in FY"
                   ++ str_Z year ++ ": $0.00"))
   /\ (forall code, report_supplier_code_total code selected
         = answer ("🏢 Total spend for supplier code " ++ code ++ ": $0.00")))
  /\ (has_column selected "Quantity" = true ->
      (forall item_query year, report_quantity item_query year selected
         = answer ("📦 Total quantity of " ++ item_query ++ " purchased in "
                   ++ str_Z year ++ ": **0**"))
      /\ (forall item_code year,
            report_quantity_by_code item_code year selected
            = answer ("📦 Total quantity of items with code " ++ item_code
                      ++ " in " ++ str_Z year ++ ": 0")))
  /\ ((forall code, report_supplier_code code selected
         = answer ("⚠️ No purchases found for supplier code " ++ code))
      /\ (forall supplier year, report_spend_by_fy supplier year selected
            = answer ("⚠️ No spending found for " ++ title supplier
                      ++ " in FY" ++ str_Z year))
      /\ (forall item_query year, report_item_price item_query year selected
            = answer ("⚠️ No spending found for '" ++ item_query ++ "' in "
                      ++ str_Z year))
      /\ (forall years, report_average years selected
            = answer ("⚠️ No records found for year(s): "
                      ++ join ", " (map str_Z years)))
      /\ (has_column selected "Total Price" = true ->
          (forall item_query year,
             report_item_price_2 item_query year selected
             = answer ("⚠️ No spending found for '" ++ item_query ++ "' in "
                       ++ str_Z year))
          /\ (forall label supplier_query,
                report_supplier_spend label supplier_query selected
                = answer ("⚠️ No spending found for supplier '"
                          ++ supplier_query ++ "'"))
          /\ (forall item_query, report_spent_on item_query selected
                = answer ("⚠️ No spending found for item '" ++ item_query
                          ++ "'"))))
  /\ ((forall item, report_unspsc item selected
         = answer ("⚠️ No UNSPSC code found for " ++ item))
      /\ (forall item, classification_answer item selected
            = answer ("⚠️ No classification found for item " ++ item))
      /\ (forall item po, report_po_item item po selected
            = answer ("⚠️ No matching purchase found for item " ++ item
                      ++ " in PO " ++ po))
      /\ (forall df search_num reqs pos,
            report_order_lookup df search_num reqs pos selected
            = answer ("⚠️ No order found with number " ++ search_num)))
  /\ ((has_column selected "Supplier Name" = true ->
       has_column selected "Total Price" = true ->
       forall n period,
         (top <- top_suppliers (N.to_nat n) selected ;;
          report_top_n n period top)
         = answer ("⚠️ No supplier data found " ++ period))
      /\ (forall period, report_top_type period selected
            = answer "⚠️ No data found for specified year")
      /\ (forall year, report_quarter_year year selected
            = answer ("⚠️ No data for year " ++ str_Z year ++ "."))).
Proof.
  intros H. split; [|split; [|split; [|split]]].
  - now apply unguarded_price_sums.
  - now apply unguarded_quantity_sums.
  - now apply guarded_sums.
  - now apply guarded_lookups.
  - now apply guarded_extrema.
Qed.

End WithSort.

(** ** Instances, with the stable sort *)

#[local] Existing Instance stable_numpy.

Lemma empty_selection_reports_witness :
  report_spending_in 2099 nothing_selected
  = answer "💸 Total spending in 2099: **$0.00**"
  /\ report_supplier_spend "Total spending on " "initech" nothing_selected
     = answer "⚠️ No spending found for supplier 'initech'"
  /\ report_quarter_year 2099 nothing_selected
     = answer "⚠️ No data for year 2099.".
Proof.
  destruct (@empty_selection_reports stable_numpy nothing_selected eq_refl)
    as (Hsum & _ & (_ & _ & _ & _ & Hg) & _ & (_ & _ & Hq)).
  destruct (Hsum eq_refl) as (H1 & _).
  destruct (Hg eq_refl) as (_ & H2 & _).
  split; [apply H1 | split; [apply H2 | apply Hq]].
Defined.

(** C2 as stated fails: a sum whose filter selects no row does not always
    print zero.  The rule for the spending on a supplier prints a message
    and no amount. *)
Lemma guarded_sum_prints_no_zero :
  ask "total spending on initech" scenario
  = "⚠️ No spending found for supplier 'initech'"
  /\ contains "0.00" (ask "total spending on initech" scenario) = false
  /\ ask "total spending in 2099" scenario
     = "💸 Total spending in 2099: **$0.00**".
Proof. repeat split; vm_compute; reflexivity. Qed.

End EmptySelectionFacts.
